(** * Smart Witness: the BLE + Telegram pairing workflow of
      [smart_witness_fixed.ino], embedded and checked against its specification.

    The sketch is a single-threaded control loop over global state.  The
    embedding keeps that shape: one [Device] record for the globals, a small
    state monad [Cmd] for the functions that read and write them, and an
    [Env] record for what the outside world answers during one call (the
    Telegram fetch, the outcome of sends, the WiFi association). *)

From Stdlib Require Import ZArith String Ascii List Bool Lia.
From Stdlib Require Import Sorting.Sorted.
Import ListNotations.

Local Open Scope string_scope.
Local Open Scope Z_scope.

(** ** Arduino [String] operations used by the sketch *)

Module WString.

(** [s.startsWith(p)] *)
Definition startsWith (s p : string) : bool := String.prefix p s.

(** [s.equals(t)], [s == t] *)
Definition equals (s t : string) : bool := String.eqb s t.

(** [s.indexOf(p) != -1]: [p] occurs somewhere in [s]. *)
Fixpoint contains (s p : string) : bool :=
    if String.prefix p s then true
    else match s with
         | EmptyString => false
         | String _ r => contains r p
         end.

(** [isspace] of the C locale: blank, and \t \n \v \f \r. *)
Definition isspace (c : ascii) : bool :=
    let n := nat_of_ascii c in
    Nat.eqb n 32 || (Nat.leb 9 n && Nat.leb n 13).

(** [tolower] and [toupper] of the C locale. *)
Definition tolower (c : ascii) : ascii :=
    let n := nat_of_ascii c in
    if Nat.leb 65 n && Nat.leb n 90 then ascii_of_nat (n + 32) else c.

Definition toupper (c : ascii) : ascii :=
    let n := nat_of_ascii c in
    if Nat.leb 97 n && Nat.leb n 122 then ascii_of_nat (n - 32) else c.

Fixpoint map (f : ascii -> ascii) (s : string) : string :=
    match s with
    | EmptyString => EmptyString
    | String c r => String (f c) (map f r)
    end.

Definition toLowerCase (s : string) : string := map tolower s.
Definition toUpperCase (s : string) : string := map toupper s.

(** [String::trim]: [begin] walks forward over white space, [end] walks
      back from the last character while it is white space and has not
      crossed [begin]. *)
Fixpoint skipLeading (s : string) : string :=
    match s with
    | EmptyString => EmptyString
    | String c r => if isspace c then skipLeading r else s
    end.

Fixpoint dropTrailing (s : string) : string :=
    match s with
    | EmptyString => EmptyString
    | String c r =>
        match dropTrailing r with
        | EmptyString => if isspace c then EmptyString else String c EmptyString
        | r' => String c r'
        end
    end.

Definition trim (s : string) : string := dropTrailing (skipLeading s).

(** [s.charAt(i)]: the character at [i], 0 when out of range. *)
Definition charAt (s : string) (i : nat) : ascii :=
    match String.get i s with
    | Some c => c
    | None => zero
    end.

Definition length (s : string) : Z := Z.of_nat (String.length s).

(** [strncpy(dst, src, n)] into a zeroed buffer of [n+1] bytes, read back
      as a C string: the first [n] characters of [src]. *)
Definition strncpy (src : string) (n : nat) : string :=
    String.substring 0 n src.

End WString.

Import WString.

(** ** Utility functions of the sketch *)

(** [normalizeTelegramUsername] *)
Definition normalizeTelegramUsername (username : string) : string :=
  let username := trim username in
  let username := toLowerCase username in
  if negb (startsWith username "@") then "@" ++ username else username.

(** The character test inside the loop of [validateTelegramUsername]. *)
Definition usernameChar (c : ascii) : bool :=
  let n := nat_of_ascii c in
  (Nat.leb 97 n && Nat.leb n 122) || (Nat.leb 48 n && Nat.leb n 57) || Nat.eqb n 95.

(** The loop [for (int i = 1; i < username.length(); i++)], with [n] the
    number of iterations left. *)
Fixpoint validateLoop (username : string) (i n : nat) : bool :=
  match n with
  | O => true
  | S n' =>
      let c := charAt username i in
      if negb (usernameChar c) then false
      else validateLoop username (S i) n'
  end.

(** [validateTelegramUsername] *)
Definition validateTelegramUsername (username : string) : bool :=
  let username := normalizeTelegramUsername username in
  if length username <? 2 then false
  else if length username >? 33 then false
  else if negb (startsWith username "@") then false
  else validateLoop username 1 (String.length username - 1).

(** The identity-format check as the specification words it: length between
    2 and 33, the sigil in front, and every remaining character a lowercase
    letter, a digit or an underscore. *)
Definition lowercaseLetter (c : ascii) : Prop :=
  (97 <= nat_of_ascii c <= 122)%nat.
Definition decimalDigit (c : ascii) : Prop :=
  (48 <= nat_of_ascii c <= 57)%nat.

Definition IdentityFormat (s : string) : Prop :=
  (2 <= String.length s <= 33)%nat /\
  (exists r, s = String "@" r) /\
  forall i c, (1 <= i)%nat -> String.get i s = Some c ->
              lowercaseLetter c \/ decimalDigit c \/ c = "_"%char.

(** ** Machine integers

    [unsigned long] has 32 bits on the ESP32; sums and differences of
    [millis()] values wrap.  [int] has 32 bits as well. *)

Definition ULONG_RANGE : Z := 2 ^ 32.
Definition uadd (a b : Z) : Z := (a + b) mod ULONG_RANGE.
Definition usub (a b : Z) : Z := (a - b) mod ULONG_RANGE.

Definition INT_MAX : Z := 2 ^ 31 - 1.
(** [n++] on an [int]; at [INT_MAX] the two's-complement result. *)
Definition int_incr (n : Z) : Z := if n =? INT_MAX then - 2 ^ 31 else n + 1.

(** [String(n, HEX)] and [String(n)] for an unsigned value: digits without
    leading zeros, letters in lower case. *)
Definition digitChar (d : Z) : ascii :=
  ascii_of_nat (Z.to_nat (if d <? 10 then 48 + d else 87 + d)).

Fixpoint utoaLoop (fuel : nat) (base n : Z) (acc : string) : string :=
  match fuel with
  | O => acc
  | S fuel' =>
      let acc' := String (digitChar (n mod base)) acc in
      if n / base =? 0 then acc' else utoaLoop fuel' base (n / base) acc'
  end.

Definition utoa (n base : Z) : string := utoaLoop 64 base n "".

(** ** System states and configuration structures *)

Inductive SystemState : Set :=
| INIT
| BLE_CONFIG
| AUTO_PERSONAL_CONFIG
| AUTO_GROUP_WAIT
| AUTO_OPERATIONAL
| ERROR.

Module SmartWitnessConfig.
Record t : Set := mk {
    wifiSSID : string;
    wifiPassword : string;
    telegramUser : string;
    deviceName : string;
    personalChatId : string;
    groupChatId : string;
    alertMsg : string;
    isConfigured : bool;
    configVersion : Z
  }.
Definition set_wifiSSID v (s : t) : t :=
  mk v (wifiPassword s) (telegramUser s) (deviceName s) (personalChatId s)
    (groupChatId s) (alertMsg s) (isConfigured s) (configVersion s).
Definition set_wifiPassword v (s : t) : t :=
  mk (wifiSSID s) v (telegramUser s) (deviceName s) (personalChatId s)
    (groupChatId s) (alertMsg s) (isConfigured s) (configVersion s).
Definition set_telegramUser v (s : t) : t :=
  mk (wifiSSID s) (wifiPassword s) v (deviceName s) (personalChatId s)
    (groupChatId s) (alertMsg s) (isConfigured s) (configVersion s).
Definition set_deviceName v (s : t) : t :=
  mk (wifiSSID s) (wifiPassword s) (telegramUser s) v (personalChatId s)
    (groupChatId s) (alertMsg s) (isConfigured s) (configVersion s).
Definition set_personalChatId v (s : t) : t :=
  mk (wifiSSID s) (wifiPassword s) (telegramUser s) (deviceName s) v
    (groupChatId s) (alertMsg s) (isConfigured s) (configVersion s).
Definition set_groupChatId v (s : t) : t :=
  mk (wifiSSID s) (wifiPassword s) (telegramUser s) (deviceName s)
    (personalChatId s) v (alertMsg s) (isConfigured s) (configVersion s).
Definition set_alertMsg v (s : t) : t :=
  mk (wifiSSID s) (wifiPassword s) (telegramUser s) (deviceName s)
    (personalChatId s) (groupChatId s) v (isConfigured s) (configVersion s).
Definition set_isConfigured v (s : t) : t :=
  mk (wifiSSID s) (wifiPassword s) (telegramUser s) (deviceName s)
    (personalChatId s) (groupChatId s) (alertMsg s) v (configVersion s).
Definition set_configVersion v (s : t) : t :=
  mk (wifiSSID s) (wifiPassword s) (telegramUser s) (deviceName s)
    (personalChatId s) (groupChatId s) (alertMsg s) (isConfigured s) v.
End SmartWitnessConfig.

Module BLESession.
Record t : Set := mk {
    deviceId : string;
    expectedTelegramUser : string;
    tempChatId : string;
    configReceived : bool;
    wifiTested : bool;
    telegramConfigured : bool;
    isComplete : bool;
    startTime : Z;
    autoResponseEnabled : bool;
    isPollingActive : bool;
    lastPollTime : Z;
    pollAttempts : Z;
    autoResponsesSent : Z;
    waitingForTelegramUser : bool;
    autoResponseTimeout : Z
  }.
Definition set_deviceId v (s : t) : t :=
  mk v (expectedTelegramUser s) (tempChatId s) (configReceived s)
    (wifiTested s) (telegramConfigured s) (isComplete s) (startTime s)
    (autoResponseEnabled s) (isPollingActive s) (lastPollTime s)
    (pollAttempts s) (autoResponsesSent s) (waitingForTelegramUser s)
    (autoResponseTimeout s).
Definition set_expectedTelegramUser v (s : t) : t :=
  mk (deviceId s) v (tempChatId s) (configReceived s) (wifiTested s)
    (telegramConfigured s) (isComplete s) (startTime s) (autoResponseEnabled
    s) (isPollingActive s) (lastPollTime s) (pollAttempts s)
    (autoResponsesSent s) (waitingForTelegramUser s) (autoResponseTimeout
    s).
Definition set_tempChatId v (s : t) : t :=
  mk (deviceId s) (expectedTelegramUser s) v (configReceived s) (wifiTested
    s) (telegramConfigured s) (isComplete s) (startTime s)
    (autoResponseEnabled s) (isPollingActive s) (lastPollTime s)
    (pollAttempts s) (autoResponsesSent s) (waitingForTelegramUser s)
    (autoResponseTimeout s).
Definition set_configReceived v (s : t) : t :=
  mk (deviceId s) (expectedTelegramUser s) (tempChatId s) v (wifiTested s)
    (telegramConfigured s) (isComplete s) (startTime s) (autoResponseEnabled
    s) (isPollingActive s) (lastPollTime s) (pollAttempts s)
    (autoResponsesSent s) (waitingForTelegramUser s) (autoResponseTimeout
    s).
Definition set_wifiTested v (s : t) : t :=
  mk (deviceId s) (expectedTelegramUser s) (tempChatId s) (configReceived s)
    v (telegramConfigured s) (isComplete s) (startTime s)
    (autoResponseEnabled s) (isPollingActive s) (lastPollTime s)
    (pollAttempts s) (autoResponsesSent s) (waitingForTelegramUser s)
    (autoResponseTimeout s).
Definition set_telegramConfigured v (s : t) : t :=
  mk (deviceId s) (expectedTelegramUser s) (tempChatId s) (configReceived s)
    (wifiTested s) v (isComplete s) (startTime s) (autoResponseEnabled s)
    (isPollingActive s) (lastPollTime s) (pollAttempts s) (autoResponsesSent
    s) (waitingForTelegramUser s) (autoResponseTimeout s).
Definition set_isComplete v (s : t) : t :=
  mk (deviceId s) (expectedTelegramUser s) (tempChatId s) (configReceived s)
    (wifiTested s) (telegramConfigured s) v (startTime s)
    (autoResponseEnabled s) (isPollingActive s) (lastPollTime s)
    (pollAttempts s) (autoResponsesSent s) (waitingForTelegramUser s)
    (autoResponseTimeout s).
Definition set_startTime v (s : t) : t :=
  mk (deviceId s) (expectedTelegramUser s) (tempChatId s) (configReceived s)
    (wifiTested s) (telegramConfigured s) (isComplete s) v
    (autoResponseEnabled s) (isPollingActive s) (lastPollTime s)
    (pollAttempts s) (autoResponsesSent s) (waitingForTelegramUser s)
    (autoResponseTimeout s).
Definition set_autoResponseEnabled v (s : t) : t :=
  mk (deviceId s) (expectedTelegramUser s) (tempChatId s) (configReceived s)
    (wifiTested s) (telegramConfigured s) (isComplete s) (startTime s) v
    (isPollingActive s) (lastPollTime s) (pollAttempts s) (autoResponsesSent
    s) (waitingForTelegramUser s) (autoResponseTimeout s).
Definition set_isPollingActive v (s : t) : t :=
  mk (deviceId s) (expectedTelegramUser s) (tempChatId s) (configReceived s)
    (wifiTested s) (telegramConfigured s) (isComplete s) (startTime s)
    (autoResponseEnabled s) v (lastPollTime s) (pollAttempts s)
    (autoResponsesSent s) (waitingForTelegramUser s) (autoResponseTimeout
    s).
Definition set_lastPollTime v (s : t) : t :=
  mk (deviceId s) (expectedTelegramUser s) (tempChatId s) (configReceived s)
    (wifiTested s) (telegramConfigured s) (isComplete s) (startTime s)
    (autoResponseEnabled s) (isPollingActive s) v (pollAttempts s)
    (autoResponsesSent s) (waitingForTelegramUser s) (autoResponseTimeout
    s).
Definition set_pollAttempts v (s : t) : t :=
  mk (deviceId s) (expectedTelegramUser s) (tempChatId s) (configReceived s)
    (wifiTested s) (telegramConfigured s) (isComplete s) (startTime s)
    (autoResponseEnabled s) (isPollingActive s) (lastPollTime s) v
    (autoResponsesSent s) (waitingForTelegramUser s) (autoResponseTimeout
    s).
Definition set_autoResponsesSent v (s : t) : t :=
  mk (deviceId s) (expectedTelegramUser s) (tempChatId s) (configReceived s)
    (wifiTested s) (telegramConfigured s) (isComplete s) (startTime s)
    (autoResponseEnabled s) (isPollingActive s) (lastPollTime s)
    (pollAttempts s) v (waitingForTelegramUser s) (autoResponseTimeout s).
Definition set_waitingForTelegramUser v (s : t) : t :=
  mk (deviceId s) (expectedTelegramUser s) (tempChatId s) (configReceived s)
    (wifiTested s) (telegramConfigured s) (isComplete s) (startTime s)
    (autoResponseEnabled s) (isPollingActive s) (lastPollTime s)
    (pollAttempts s) (autoResponsesSent s) v (autoResponseTimeout s).
Definition set_autoResponseTimeout v (s : t) : t :=
  mk (deviceId s) (expectedTelegramUser s) (tempChatId s) (configReceived s)
    (wifiTested s) (telegramConfigured s) (isComplete s) (startTime s)
    (autoResponseEnabled s) (isPollingActive s) (lastPollTime s)
    (pollAttempts s) (autoResponsesSent s) (waitingForTelegramUser s) v.
End BLESession.

Inductive AutoTelegramPhase : Set :=
| AUTO_PHASE_PERSONAL_CONFIG
| AUTO_PHASE_WAITING_FOR_GROUP
| AUTO_PHASE_GROUP_CONFIGURED
| AUTO_PHASE_COMPLETE.

Module AutoTelegramSession.
Record t : Set := mk {
    currentPhase : AutoTelegramPhase;
    phaseStartTime : Z;
    pollAttempts : Z;
    personalChatId : string;
    groupChatId : string
  }.
Definition set_currentPhase v (s : t) : t :=
  mk v (phaseStartTime s) (pollAttempts s) (personalChatId s) (groupChatId
    s).
Definition set_phaseStartTime v (s : t) : t :=
  mk (currentPhase s) v (pollAttempts s) (personalChatId s) (groupChatId s).
Definition set_pollAttempts v (s : t) : t :=
  mk (currentPhase s) (phaseStartTime s) v (personalChatId s) (groupChatId
    s).
Definition set_personalChatId v (s : t) : t :=
  mk (currentPhase s) (phaseStartTime s) (pollAttempts s) v (groupChatId s).
Definition set_groupChatId v (s : t) : t :=
  mk (currentPhase s) (phaseStartTime s) (pollAttempts s) (personalChatId s)
    v.
End AutoTelegramSession.

(** ** Timing configuration *)

Definition BLE_SESSION_TIMEOUT : Z := 900000.
Definition AUTO_RESPONSE_POLL_INTERVAL : Z := 2000.
Definition AUTO_RESPONSE_TIMEOUT : Z := 600000.
Definition PERSONAL_CONFIG_TIMEOUT : Z := 180000.
Definition GROUP_WAIT_TIMEOUT : Z := 300000.
Definition MAX_AUTO_RESPONSE_ATTEMPTS : Z := 300.
Definition MAX_AUTO_RESPONSES_PER_SESSION : Z := 5.

(** ** The Telegram client object

    [bot->messages[i]] and [bot->last_message_received] are fields of the
    UniversalTelegramBot object; only the fields the sketch reads are kept. *)

Record telegramMessage : Set := {
  update_id : Z;
  chat_id : string;
  text : string;
  from_name : string;
  from_id : string
}.

Record UniversalTelegramBot : Set := {
  last_message_received : Z;
  messages : list telegramMessage
}.

(** What the device sends out through [bot->sendMessage] and the photo
    upload; the message bodies are fixed templates and are named, not
    spelled out. *)
Inductive Outgoing : Set :=
| AutoResponseText
| ConfigurationCompleteText
| PersonalConfirmText
| GroupInstructionsText
| GroupConfirmText
| PersonalUpdateText
| PhotoFollowUpText
| Photo.

(** ** Global state *)

Record Device : Set := mkDevice {
  currentState : SystemState;
  config : SmartWitnessConfig.t;
  eeprom : SmartWitnessConfig.t;          (* what [saveConfig] wrote last *)
  bleSession : BLESession.t;
  autoSession : AutoTelegramSession.t;
  bot : option UniversalTelegramBot;      (* [nullptr] until [setupTelegram] *)
  wifiConnected : bool;                   (* [WiFi.status() == WL_CONNECTED] *)
  deviceConnected : bool;                 (* set by the BLE server callbacks *)
  oldDeviceConnected : bool;
  clock : Z;                              (* [millis()] *)
  bleInitialized : bool;                  (* static of [handleBLEConfig] *)
  lastPollPersonal : Z;                   (* static of [handleAutoPersonalConfig] *)
  lastPollGroup : Z;                      (* static of [handleAutoGroupWait] *)
  lastTelegramCheck : Z;                  (* static of [handleAutoOperational] *)
  statusLog : list string;                (* [updateBLEStatus], newest first *)
  outbox : list (string * Outgoing)       (* delivered sends, newest first *)
}.

Definition set_currentState v (s : Device) : Device :=
  mkDevice v (config s) (eeprom s) (bleSession s) (autoSession s) (bot s)
    (wifiConnected s) (deviceConnected s) (oldDeviceConnected s) (clock s)
    (bleInitialized s) (lastPollPersonal s) (lastPollGroup s)
    (lastTelegramCheck s) (statusLog s) (outbox s).
Definition set_config v (s : Device) : Device :=
  mkDevice (currentState s) v (eeprom s) (bleSession s) (autoSession s) (bot
    s) (wifiConnected s) (deviceConnected s) (oldDeviceConnected s) (clock
    s) (bleInitialized s) (lastPollPersonal s) (lastPollGroup s)
    (lastTelegramCheck s) (statusLog s) (outbox s).
Definition set_eeprom v (s : Device) : Device :=
  mkDevice (currentState s) (config s) v (bleSession s) (autoSession s) (bot
    s) (wifiConnected s) (deviceConnected s) (oldDeviceConnected s) (clock
    s) (bleInitialized s) (lastPollPersonal s) (lastPollGroup s)
    (lastTelegramCheck s) (statusLog s) (outbox s).
Definition set_bleSession v (s : Device) : Device :=
  mkDevice (currentState s) (config s) (eeprom s) v (autoSession s) (bot s)
    (wifiConnected s) (deviceConnected s) (oldDeviceConnected s) (clock s)
    (bleInitialized s) (lastPollPersonal s) (lastPollGroup s)
    (lastTelegramCheck s) (statusLog s) (outbox s).
Definition set_autoSession v (s : Device) : Device :=
  mkDevice (currentState s) (config s) (eeprom s) (bleSession s) v (bot s)
    (wifiConnected s) (deviceConnected s) (oldDeviceConnected s) (clock s)
    (bleInitialized s) (lastPollPersonal s) (lastPollGroup s)
    (lastTelegramCheck s) (statusLog s) (outbox s).
Definition set_bot v (s : Device) : Device :=
  mkDevice (currentState s) (config s) (eeprom s) (bleSession s)
    (autoSession s) v (wifiConnected s) (deviceConnected s)
    (oldDeviceConnected s) (clock s) (bleInitialized s) (lastPollPersonal s)
    (lastPollGroup s) (lastTelegramCheck s) (statusLog s) (outbox s).
Definition set_wifiConnected v (s : Device) : Device :=
  mkDevice (currentState s) (config s) (eeprom s) (bleSession s)
    (autoSession s) (bot s) v (deviceConnected s) (oldDeviceConnected s)
    (clock s) (bleInitialized s) (lastPollPersonal s) (lastPollGroup s)
    (lastTelegramCheck s) (statusLog s) (outbox s).
Definition set_deviceConnected v (s : Device) : Device :=
  mkDevice (currentState s) (config s) (eeprom s) (bleSession s)
    (autoSession s) (bot s) (wifiConnected s) v (oldDeviceConnected s)
    (clock s) (bleInitialized s) (lastPollPersonal s) (lastPollGroup s)
    (lastTelegramCheck s) (statusLog s) (outbox s).
Definition set_oldDeviceConnected v (s : Device) : Device :=
  mkDevice (currentState s) (config s) (eeprom s) (bleSession s)
    (autoSession s) (bot s) (wifiConnected s) (deviceConnected s) v (clock
    s) (bleInitialized s) (lastPollPersonal s) (lastPollGroup s)
    (lastTelegramCheck s) (statusLog s) (outbox s).
Definition set_clock v (s : Device) : Device :=
  mkDevice (currentState s) (config s) (eeprom s) (bleSession s)
    (autoSession s) (bot s) (wifiConnected s) (deviceConnected s)
    (oldDeviceConnected s) v (bleInitialized s) (lastPollPersonal s)
    (lastPollGroup s) (lastTelegramCheck s) (statusLog s) (outbox s).
Definition set_bleInitialized v (s : Device) : Device :=
  mkDevice (currentState s) (config s) (eeprom s) (bleSession s)
    (autoSession s) (bot s) (wifiConnected s) (deviceConnected s)
    (oldDeviceConnected s) (clock s) v (lastPollPersonal s) (lastPollGroup
    s) (lastTelegramCheck s) (statusLog s) (outbox s).
Definition set_lastPollPersonal v (s : Device) : Device :=
  mkDevice (currentState s) (config s) (eeprom s) (bleSession s)
    (autoSession s) (bot s) (wifiConnected s) (deviceConnected s)
    (oldDeviceConnected s) (clock s) (bleInitialized s) v (lastPollGroup s)
    (lastTelegramCheck s) (statusLog s) (outbox s).
Definition set_lastPollGroup v (s : Device) : Device :=
  mkDevice (currentState s) (config s) (eeprom s) (bleSession s)
    (autoSession s) (bot s) (wifiConnected s) (deviceConnected s)
    (oldDeviceConnected s) (clock s) (bleInitialized s) (lastPollPersonal s)
    v (lastTelegramCheck s) (statusLog s) (outbox s).
Definition set_lastTelegramCheck v (s : Device) : Device :=
  mkDevice (currentState s) (config s) (eeprom s) (bleSession s)
    (autoSession s) (bot s) (wifiConnected s) (deviceConnected s)
    (oldDeviceConnected s) (clock s) (bleInitialized s) (lastPollPersonal s)
    (lastPollGroup s) v (statusLog s) (outbox s).
Definition set_statusLog v (s : Device) : Device :=
  mkDevice (currentState s) (config s) (eeprom s) (bleSession s)
    (autoSession s) (bot s) (wifiConnected s) (deviceConnected s)
    (oldDeviceConnected s) (clock s) (bleInitialized s) (lastPollPersonal s)
    (lastPollGroup s) (lastTelegramCheck s) v (outbox s).
Definition set_outbox v (s : Device) : Device :=
  mkDevice (currentState s) (config s) (eeprom s) (bleSession s)
    (autoSession s) (bot s) (wifiConnected s) (deviceConnected s)
    (oldDeviceConnected s) (clock s) (bleInitialized s) (lastPollPersonal s)
    (lastPollGroup s) (lastTelegramCheck s) (statusLog s) v.

(** ** The outside world during one call *)

Inductive Fetch : Set :=
| FetchFailed
| Pending (updates : list telegramMessage).

Record Env : Set := {
  efuseMac : Z;                      (* [ESP.getEfuseMac()] *)
  wifiAssociates : bool;             (* [WiFi.begin] reaches WL_CONNECTED in time *)
  wifiWait : Z;                      (* how long the association is waited for *)
  fetch : Fetch;                     (* what the Telegram server answers *)
  batchLimit : nat;                  (* the client's bound on one batch *)
  sendMessageOk : string -> bool;    (* [bot->sendMessage] to a chat *)
  sendPhotoOk : string -> bool       (* capture and upload to a chat *)
}.

(** ** Commands: a reader over [Env], state over [Device], and [Crash] for a
    null [bot] dereference. *)

Inductive Outcome (A : Type) : Type :=
| Done (a : A) (d : Device)
| Crash.
Arguments Done {A} a d.
Arguments Crash {A}.

Definition Cmd (A : Type) : Type := Env -> Device -> Outcome A.

Definition ret {A} (a : A) : Cmd A := fun _ d => Done a d.

Definition bind {A B} (c : Cmd A) (k : A -> Cmd B) : Cmd B :=
  fun e d => match c e d with
             | Done a d' => k a e d'
             | Crash => Crash
             end.

Declare Scope cmd_scope.
Delimit Scope cmd_scope with cmd.
Notation "x <- c ;; k" := (bind c (fun x => k))
  (at level 61, c at next level, right associativity) : cmd_scope.
Notation "c ;; k" := (bind c (fun _ => k))
  (at level 61, right associativity) : cmd_scope.
Local Open Scope cmd_scope.

Definition get : Cmd Device := fun _ d => Done d d.
Definition ask : Cmd Env := fun e d => Done e d.
Definition modify (f : Device -> Device) : Cmd unit := fun _ d => Done tt (f d).
Definition crash {A} : Cmd A := fun _ _ => Crash.
Definition when (b : bool) (c : Cmd unit) : Cmd unit := if b then c else ret tt.

Definition modifyConfig (f : SmartWitnessConfig.t -> SmartWitnessConfig.t) : Cmd unit :=
  modify (fun d => set_config (f (config d)) d).
Definition modifyBLE (f : BLESession.t -> BLESession.t) : Cmd unit :=
  modify (fun d => set_bleSession (f (bleSession d)) d).
Definition modifyAuto (f : AutoTelegramSession.t -> AutoTelegramSession.t) : Cmd unit :=
  modify (fun d => set_autoSession (f (autoSession d)) d).

Definition millis : Cmd Z := fun _ d => Done (clock d) d.
Definition delay (ms : Z) : Cmd unit :=
  modify (fun d => set_clock (uadd (clock d) ms) d).

(** ** Small helpers of the sketch *)

(** [updateBLEStatus]: the status published to the configuration peer. *)
Definition updateBLEStatus (status : string) : Cmd unit :=
  modify (fun d => set_statusLog (status :: statusLog d) d).

(** [saveConfig]: [EEPROM.put(0, config)]. *)
Definition saveConfig : Cmd unit :=
  modify (fun d => set_eeprom (config d) d).

(** [safeSendMessage] *)
Definition safeSendMessage (chat : string) (body : Outgoing) : Cmd bool :=
  d <- get ;;
  match bot d with
  | None => ret false
  | Some _ =>
      e <- ask ;;
      let success := sendMessageOk e chat in
      when success (modify (fun d => set_outbox ((chat, body) :: outbox d) d)) ;;
      ret success
  end.

(** [captureAndSendTestPhoto]: the capture and the upload succeed or not as
    the environment says; a follow-up text goes out after a successful
    upload. *)
Definition captureAndSendTestPhoto (chat context : string) : Cmd bool :=
  delay 200 ;;
  delay 500 ;;
  e <- ask ;;
  let success := sendPhotoOk e chat in
  (if success then
     modify (fun d => set_outbox ((chat, Photo) :: outbox d) d) ;;
     _ <- safeSendMessage chat PhotoFollowUpText ;;
     ret tt
   else ret tt) ;;
  ret success.

(** [generateDeviceId] *)
Definition generateDeviceId : Cmd string :=
  e <- ask ;;
  let mac := efuseMac e in
  let id := "DEVICE_FIXED_" in
  let id := id ++ utoa ((mac / 2 ^ 32) mod 2 ^ 32) 16 in
  let id := id ++ utoa (mac mod 2 ^ 32) 16 in
  let id := id ++ "_" in
  now <- millis ;;
  let id := id ++ utoa now 10 in
  ret (toUpperCase id).

(** [setupTelegram]: a fresh client object with the cursor at 0. *)
Definition setupTelegram : Cmd unit :=
  modify (set_bot (Some {| last_message_received := 0; messages := [] |})).

(** The batch the server hands out for an [offset]: the pending updates
    from [offset] on, at most [limit] of them. *)
Definition batchFrom (limit : nat) (offset : Z) (pending : list telegramMessage)
  : list telegramMessage :=
  firstn limit (filter (fun m => offset <=? update_id m) pending).

(** Modelled from the spec: [UniversalTelegramBot::getUpdates], the Telegram
    client library the sketch links against, which is not part of the
    repository.  The claim transport is "a pull-based API returning, per
    call, zero or more messages newer than a supplied cursor"; a call
    "fetches unseen messages from the remote stream (bounded batch),
    advances the MessageCursor past the batch unconditionally"; a transport
    failure is a "negative result from the fetch".  The cursor field
    [last_message_received] holds the id of the last message handed out. *)
Definition getUpdates (offset : Z) : Cmd Z :=
  d <- get ;;
  match bot d with
  | None => crash
  | Some b =>
      e <- ask ;;
      match fetch e with
      | FetchFailed => ret (-1)
      | Pending pending =>
          let batch := batchFrom (batchLimit e) offset pending in
          let cursor := last (List.map update_id batch) (last_message_received b) in
          modify (set_bot (Some {| last_message_received := cursor;
                                   messages := batch |})) ;;
          ret (Z.of_nat (List.length batch))
      end
  end.

(** [bot->last_message_received] read through the pointer. *)
Definition lastMessageReceived : Cmd Z :=
  d <- get ;;
  match bot d with
  | None => crash
  | Some b => ret (last_message_received b)
  end.

(** [bot->getUpdates(bot->last_message_received + 1)], the call every poll
    of the sketch makes. *)
Definition getNewUpdates : Cmd Z :=
  cursor <- lastMessageReceived ;;
  getUpdates (cursor + 1).

(** [bot->messages[0 .. n-1]] *)
Definition receivedMessages (n : Z) : Cmd (list telegramMessage) :=
  d <- get ;;
  match bot d with
  | None => crash
  | Some b => ret (firstn (Z.to_nat n) (messages b))
  end.

(** [validateConfiguration] *)
Definition validateConfiguration (c : SmartWitnessConfig.t) : bool :=
  let hasWiFi := (length (SmartWitnessConfig.wifiSSID c) >? 0)
                 && (length (SmartWitnessConfig.wifiPassword c) >? 0) in
  let hasTelegramUser := length (SmartWitnessConfig.telegramUser c) >? 0 in
  let hasDeviceName := length (SmartWitnessConfig.deviceName c) >? 0 in
  hasWiFi && hasTelegramUser && hasDeviceName && SmartWitnessConfig.isConfigured c.

(** ** Auto-response system (BLE phase) *)

(** [stopTelegramAutoResponse] *)
Definition stopTelegramAutoResponse : Cmd unit :=
  d <- get ;;
  if negb (BLESession.autoResponseEnabled (bleSession d)) then ret tt
  else
    modifyBLE (fun b =>
      BLESession.set_waitingForTelegramUser false
        (BLESession.set_isPollingActive false
           (BLESession.set_autoResponseEnabled false b))) ;;
    updateBLEStatus "auto_response_stopped".

(** [completeBLEConfiguration] *)
Definition completeBLEConfiguration : Cmd unit :=
  d <- get ;;
  when (BLESession.autoResponseEnabled (bleSession d)) stopTelegramAutoResponse ;;
  modifyConfig (fun c =>
    SmartWitnessConfig.set_configVersion 1
      (SmartWitnessConfig.set_isConfigured true c)) ;;
  modifyBLE (BLESession.set_isComplete true) ;;
  saveConfig ;;
  updateBLEStatus "configuration_complete" ;;
  d <- get ;;
  if length (SmartWitnessConfig.personalChatId (config d)) >? 0 then
    _ <- safeSendMessage (SmartWitnessConfig.personalChatId (config d))
           ConfigurationCompleteText ;;
    ret tt
  else ret tt.

(** [processTelegramChatId] *)
Definition processTelegramChatId (chatId : string) : Cmd unit :=
  if length chatId >? 0 then
    modifyConfig (SmartWitnessConfig.set_personalChatId (strncpy chatId 19)) ;;
    modifyBLE (fun b =>
      BLESession.set_telegramConfigured true (BLESession.set_tempChatId chatId b)) ;;
    updateBLEStatus "telegram_configured" ;;
    delay 1000 ;;
    sent <- captureAndSendTestPhoto chatId "BLE Auto-Config" ;;
    if sent then
      updateBLEStatus "test_photo_sent" ;;
      completeBLEConfiguration
    else
      updateBLEStatus "error_photo_failed" ;;
      completeBLEConfiguration
  else ret tt.

(** [handleAutoResponseMessage] *)
Definition handleAutoResponseMessage (chat_id text userName userId : string)
  : Cmd bool :=
  d <- get ;;
  let expectedCommand := "/start " ++ BLESession.deviceId (bleSession d) in
  if negb (startsWith text ("/start " ++ BLESession.deviceId (bleSession d)))
  then ret false
  else if BLESession.autoResponsesSent (bleSession d)
          >=? MAX_AUTO_RESPONSES_PER_SESSION
  then ret false
  else
    responseSent <- safeSendMessage chat_id AutoResponseText ;;
    if responseSent then
      modifyBLE (fun b =>
        BLESession.set_autoResponsesSent
          (int_incr (BLESession.autoResponsesSent b)) b) ;;
      modifyBLE (fun b =>
        BLESession.set_telegramConfigured true
          (BLESession.set_tempChatId chat_id b)) ;;
      processTelegramChatId chat_id ;;
      ret true
    else
      updateBLEStatus "auto_response_send_failed" ;;
      ret false.

(** The [for] loop of [processTelegramAutoResponse] over the batch. *)
Fixpoint autoResponseLoop (batch : list telegramMessage) : Cmd bool :=
  match batch with
  | [] => ret false
  | m :: rest =>
      handled <- handleAutoResponseMessage (chat_id m) (text m) (from_name m)
                   (from_id m) ;;
      if handled then
        stopTelegramAutoResponse ;;
        ret true
      else autoResponseLoop rest
  end.

(** [startTelegramAutoResponse] *)
Definition startTelegramAutoResponse : Cmd bool :=
  d <- get ;;
  if match bot d with None => true | Some _ => false end
     || negb (wifiConnected d)
  then
    updateBLEStatus "error_no_wifi_for_auto_response" ;;
    ret false
  else if length (BLESession.deviceId (bleSession d)) =? 0 then
    updateBLEStatus "error_no_device_id" ;;
    ret false
  else
    now <- millis ;;
    modifyBLE (fun b =>
      BLESession.set_autoResponseTimeout (uadd now AUTO_RESPONSE_TIMEOUT)
        (BLESession.set_waitingForTelegramUser true
           (BLESession.set_autoResponsesSent 0
              (BLESession.set_pollAttempts 0
                 (BLESession.set_lastPollTime now
                    (BLESession.set_isPollingActive true
                       (BLESession.set_autoResponseEnabled true b))))))) ;;
    modify (fun d =>
      set_bot (option_map
                 (fun b => {| last_message_received := 0;
                              messages := messages b |}) (bot d)) d) ;;
    _ <- getUpdates 0 ;;
    updateBLEStatus "auto_response_active" ;;
    ret true.

(** [processTelegramAutoResponse] *)
Definition processTelegramAutoResponse : Cmd bool :=
  d <- get ;;
  now <- millis ;;
  if negb (BLESession.autoResponseEnabled (bleSession d))
     || negb (BLESession.isPollingActive (bleSession d))
  then ret false
  else if now >? BLESession.autoResponseTimeout (bleSession d) then
    stopTelegramAutoResponse ;;
    updateBLEStatus "auto_response_timeout" ;;
    ret false
  else if BLESession.pollAttempts (bleSession d) >=? MAX_AUTO_RESPONSE_ATTEMPTS
  then
    stopTelegramAutoResponse ;;
    updateBLEStatus "auto_response_max_attempts" ;;
    ret false
  else if usub now (BLESession.lastPollTime (bleSession d))
          <? AUTO_RESPONSE_POLL_INTERVAL
  then ret false
  else
    modifyBLE (fun b =>
      BLESession.set_pollAttempts (int_incr (BLESession.pollAttempts b))
        (BLESession.set_lastPollTime now b)) ;;
    numNewMessages <- getNewUpdates ;;
    if numNewMessages <? 0 then ret false
    else if numNewMessages =? 0 then ret false
    else
      batch <- receivedMessages numNewMessages ;;
      autoResponseLoop batch.

(** ** Auto Telegram workflow *)

(** [startPersonalConfigPhase]: the device id generated here is a local
    variable; it is printed and then goes out of scope. *)
Definition startPersonalConfigPhase : Cmd unit :=
  now <- millis ;;
  modifyAuto (fun a =>
    AutoTelegramSession.set_pollAttempts 0
      (AutoTelegramSession.set_phaseStartTime now
         (AutoTelegramSession.set_currentPhase AUTO_PHASE_PERSONAL_CONFIG a))) ;;
  deviceId <- generateDeviceId ;;
  modifyAuto (AutoTelegramSession.set_personalChatId "").

(** [sendGroupCreationInstructions] *)
Definition sendGroupCreationInstructions (personal_chat_id : string) : Cmd unit :=
  _ <- safeSendMessage personal_chat_id GroupInstructionsText ;;
  ret tt.

(** [startGroupWaitingPhase] *)
Definition startGroupWaitingPhase : Cmd unit :=
  now <- millis ;;
  modifyAuto (fun a =>
    AutoTelegramSession.set_pollAttempts 0
      (AutoTelegramSession.set_phaseStartTime now
         (AutoTelegramSession.set_currentPhase AUTO_PHASE_WAITING_FOR_GROUP a))) ;;
  d <- get ;;
  sendGroupCreationInstructions (AutoTelegramSession.personalChatId (autoSession d)).

(** [handlePersonalConfigMessage] *)
Definition handlePersonalConfigMessage (chat_id text userName : string) : Cmd bool :=
  if negb (startsWith text "/start ") then ret false
  else
    d <- get ;;
    let normalizedUserName := normalizeTelegramUsername userName in
    let expectedUser := SmartWitnessConfig.telegramUser (config d) in
    if negb (equals normalizedUserName expectedUser) then ret false
    else
      modifyAuto (AutoTelegramSession.set_personalChatId chat_id) ;;
      modifyConfig (SmartWitnessConfig.set_personalChatId (strncpy chat_id 19)) ;;
      saveConfig ;;
      _ <- safeSendMessage chat_id PersonalConfirmText ;;
      delay 2000 ;;
      _ <- captureAndSendTestPhoto chat_id "personal confirmation" ;;
      ret true.

(** The [for] loop of [pollForPersonalConfig] over the batch. *)
Fixpoint personalConfigLoop (batch : list telegramMessage) : Cmd bool :=
  match batch with
  | [] => ret false
  | m :: rest =>
      done <- handlePersonalConfigMessage (chat_id m) (text m) (from_name m) ;;
      if done then ret true else personalConfigLoop rest
  end.

(** [pollForPersonalConfig] *)
Definition pollForPersonalConfig : Cmd bool :=
  modifyAuto (fun a =>
    AutoTelegramSession.set_pollAttempts
      (int_incr (AutoTelegramSession.pollAttempts a)) a) ;;
  numNewMessages <- getNewUpdates ;;
  if numNewMessages <=? 0 then ret false
  else
    batch <- receivedMessages numNewMessages ;;
    personalConfigLoop batch.

(** The two tests made on one message inside [pollForGroupDetection]. *)
Definition isGroup (chat_id : string) : bool := startsWith chat_id "-".

Definition groupAdditionIndicated (text chat_id personalChatId : string) : bool :=
  contains text "added" || contains text "joined"
  || equals text "/start" || startsWith text "/start@"
  || negb (equals chat_id personalChatId).

(** The [for] loop of [pollForGroupDetection] over the batch. *)
Fixpoint groupDetectionLoop (batch : list telegramMessage) : Cmd bool :=
  match batch with
  | [] => ret false
  | m :: rest =>
      d <- get ;;
      let personal := AutoTelegramSession.personalChatId (autoSession d) in
      if isGroup (chat_id m) then
        if groupAdditionIndicated (text m) (chat_id m) personal then
          modifyAuto (AutoTelegramSession.set_groupChatId (chat_id m)) ;;
          modifyConfig
            (SmartWitnessConfig.set_groupChatId (strncpy (chat_id m) 19)) ;;
          saveConfig ;;
          _ <- safeSendMessage (chat_id m) GroupConfirmText ;;
          delay 1000 ;;
          _ <- safeSendMessage personal PersonalUpdateText ;;
          ret true
        else groupDetectionLoop rest
      else groupDetectionLoop rest
  end.

(** [pollForGroupDetection] *)
Definition pollForGroupDetection : Cmd bool :=
  modifyAuto (fun a =>
    AutoTelegramSession.set_pollAttempts
      (int_incr (AutoTelegramSession.pollAttempts a)) a) ;;
  numNewMessages <- getNewUpdates ;;
  if numNewMessages <=? 0 then ret false
  else
    batch <- receivedMessages numNewMessages ;;
    groupDetectionLoop batch.

(** ** BLE configuration *)

(** The three fields read from the JSON document written to the
    configuration characteristic; an absent field reads as the empty string. *)
Record ConfigPayload : Set := {
  ssid : string;
  password : string;
  telegramUser : string
}.

(** [startBLEConfiguration] *)
Definition startBLEConfiguration : Cmd unit :=
  now <- millis ;;
  modify (set_bleSession
            (BLESession.mk "" "" "" false false false false now
                           false false 0 0 0 false 0)) ;;
  updateBLEStatus "ready_for_config".

(** [testWiFiCredentials] *)
Definition testWiFiCredentials (ssid password : string) : Cmd bool :=
  updateBLEStatus "testing_wifi" ;;
  delay 1000 ;;
  e <- ask ;;
  delay (wifiWait e) ;;
  modify (set_wifiConnected (wifiAssociates e)) ;;
  if wifiAssociates e then
    setupTelegram ;;
    ret true
  else ret false.

(** [notifyDeviceIdGenerated]: three notifications half a second apart when
    a client is connected. *)
Definition notifyDeviceIdGenerated (deviceId : string) : Cmd unit :=
  d <- get ;;
  when (deviceConnected d) (delay 500 ;; delay 500 ;; delay 500).

(** [processBLEConfiguration] *)
Definition processBLEConfiguration (p : ConfigPayload) : Cmd unit :=
  updateBLEStatus "processing_config" ;;
  if (length (ssid p) =? 0) || (length (password p) =? 0)
     || (length (telegramUser p) =? 0)
  then updateBLEStatus "error_invalid_data"
  else if negb (validateTelegramUsername (telegramUser p))
  then updateBLEStatus "error_invalid_telegram_user"
  else
    let normalizedUser := normalizeTelegramUsername (telegramUser p) in
    e <- ask ;;
    let deviceName := "SmartWitness_" ++ utoa (efuseMac e mod 2 ^ 32) 16 in
    modifyConfig (fun c =>
      SmartWitnessConfig.set_deviceName (strncpy deviceName 31)
        (SmartWitnessConfig.set_telegramUser (strncpy normalizedUser 31)
           (SmartWitnessConfig.set_wifiPassword (strncpy (password p) 31)
              (SmartWitnessConfig.set_wifiSSID (strncpy (ssid p) 31) c)))) ;;
    modifyBLE (fun b =>
      BLESession.set_configReceived true
        (BLESession.set_expectedTelegramUser normalizedUser b)) ;;
    updateBLEStatus "config_received" ;;
    ok <- testWiFiCredentials (ssid p) (password p) ;;
    if ok then
      modifyBLE (BLESession.set_wifiTested true) ;;
      updateBLEStatus "wifi_tested_ok" ;;
      deviceId <- generateDeviceId ;;
      modifyBLE (BLESession.set_deviceId deviceId) ;;
      updateBLEStatus "device_id_generated" ;;
      notifyDeviceIdGenerated deviceId ;;
      delay 3000 ;;
      started <- startTelegramAutoResponse ;;
      if started then updateBLEStatus "auto_response_started"
      else updateBLEStatus "error_auto_response_failed"
    else updateBLEStatus "error_wifi_failed".

(** [MyServerCallbacks::onConnect] and [onDisconnect] *)
Definition onConnect : Cmd unit := modify (set_deviceConnected true).
Definition onDisconnect : Cmd unit := modify (set_deviceConnected false).

(** ** State handlers *)

(** [handleInit] *)
Definition handleInit : Cmd unit :=
  d <- get ;;
  if validateConfiguration (config d) then
    modify (set_currentState AUTO_PERSONAL_CONFIG) ;;
    startPersonalConfigPhase
  else modify (set_currentState BLE_CONFIG).

(** [handleBLEConfig]; the LED and the advertising have no effect on the
    globals kept here. *)
Definition handleBLEConfig : Cmd unit :=
  d <- get ;;
  when (negb (bleInitialized d))
       (modify (set_wifiConnected false) ;;
        startBLEConfiguration ;;
        modify (set_bleInitialized true)) ;;
  d <- get ;;
  now <- millis ;;
  if usub now (BLESession.startTime (bleSession d)) >? BLE_SESSION_TIMEOUT then
    when (BLESession.autoResponseEnabled (bleSession d)) stopTelegramAutoResponse ;;
    delay 1000 ;;
    startBLEConfiguration
  else
    (if BLESession.autoResponseEnabled (bleSession d)
     then _ <- processTelegramAutoResponse ;; ret tt
     else ret tt) ;;
    d <- get ;;
    when (negb (deviceConnected d) && oldDeviceConnected d)
         (delay 500 ;;
          modify (fun d => set_oldDeviceConnected (deviceConnected d) d)) ;;
    d <- get ;;
    when (deviceConnected d && negb (oldDeviceConnected d))
         (modify (fun d => set_oldDeviceConnected (deviceConnected d) d)) ;;
    d <- get ;;
    if BLESession.isComplete (bleSession d) then
      when (BLESession.autoResponseEnabled (bleSession d)) stopTelegramAutoResponse ;;
      modify (set_currentState AUTO_PERSONAL_CONFIG) ;;
      startPersonalConfigPhase
    else ret tt.

(** [handleAutoPersonalConfig] *)
Definition handleAutoPersonalConfig : Cmd unit :=
  d <- get ;;
  now <- millis ;;
  if usub now (AutoTelegramSession.phaseStartTime (autoSession d))
     >? PERSONAL_CONFIG_TIMEOUT
  then modify (set_currentState ERROR)
  else if usub now (lastPollPersonal d) >=? 2000 then
    modify (set_lastPollPersonal now) ;;
    found <- pollForPersonalConfig ;;
    if found then
      modify (set_currentState AUTO_GROUP_WAIT) ;;
      startGroupWaitingPhase
    else ret tt
  else ret tt.

(** [handleAutoGroupWait] *)
Definition handleAutoGroupWait : Cmd unit :=
  d <- get ;;
  now <- millis ;;
  if usub now (AutoTelegramSession.phaseStartTime (autoSession d))
     >? GROUP_WAIT_TIMEOUT
  then modify (set_currentState AUTO_OPERATIONAL)
  else if usub now (lastPollGroup d) >=? 2000 then
    modify (set_lastPollGroup now) ;;
    found <- pollForGroupDetection ;;
    if found then
      delay 2000 ;;
      d <- get ;;
      sent <- captureAndSendTestPhoto
                (AutoTelegramSession.groupChatId (autoSession d))
                "group confirmation" ;;
      when sent (modify (set_currentState AUTO_OPERATIONAL))
    else ret tt
  else ret tt.

(** [handleAutoOperational]: the Telegram check; the WiFi health check only
    calls [WiFi.begin]. *)
Definition handleAutoOperational : Cmd unit :=
  d <- get ;;
  now <- millis ;;
  if usub now (lastTelegramCheck d) >? 5000 then
    (if wifiConnected d
        && match bot d with Some _ => true | None => false end
     then
       _ <- getNewUpdates ;;
       ret tt
     else ret tt) ;;
    now <- millis ;;
    modify (set_lastTelegramCheck now)
  else ret tt.

(** [handleError]: ten seconds, then [ESP.restart()], which ends the run
    described here; [loopPass] below has the restart. *)
Definition handleError : Cmd unit := delay 10000.

(** One pass of [loop] during which nothing is pending on the serial
    console: the switch over [currentState] and the closing [delay(100)].
    [loopPass] below is the pass with the console. *)
Definition loop : Cmd unit :=
  d <- get ;;
  match currentState d with
  | INIT => handleInit
  | BLE_CONFIG => handleBLEConfig
  | AUTO_PERSONAL_CONFIG => handleAutoPersonalConfig
  | AUTO_GROUP_WAIT => handleAutoGroupWait
  | AUTO_OPERATIONAL => handleAutoOperational
  | ERROR => handleError
  end ;;
  delay 100.

(** The status the configuration peer reads last. *)
Definition lastStatus (d : Device) : string := hd "" (statusLog d).

(** ** Start-up, the photo upload and the serial console *)

(** [loadDefaultConfig]: the record is zeroed, then the two texts, the flag
    and the version are written. *)
Definition loadDefaultConfig : Cmd unit :=
  modify (set_config
            (SmartWitnessConfig.mk "" "" "" (strncpy "SmartWitness_Default" 31)
               "" "" (strncpy "ALERTA DE SEGURIDAD ACTIVADA" 99) false 1)).

(** [loadConfig] *)
Definition loadConfig : Cmd unit :=
  modify (fun d => set_config (eeprom d) d) ;;
  d <- get ;;
  if negb (SmartWitnessConfig.configVersion (config d) =? 1)
     || (length (SmartWitnessConfig.deviceName (config d)) =? 0)
     || (length (SmartWitnessConfig.deviceName (config d)) >? 31)
  then
    loadDefaultConfig ;;
    saveConfig
  else ret tt.

(** [setup]; the watchdog, the LEDs, the file system and the camera have no
    effect on the globals kept here. *)
Definition setup : Cmd unit :=
  delay 2000 ;;
  loadConfig ;;
  modify (set_currentState INIT).

(** The globals as the C++ initialisers leave them when the chip starts with
    [stored] in its EEPROM. *)
Definition coldStart (stored : SmartWitnessConfig.t) : Device :=
  {| currentState := INIT;
     config := SmartWitnessConfig.mk "" "" "" "" "" "" "" false 0;
     eeprom := stored;
     bleSession := BLESession.mk "" "" "" false false false false 0
                                 false false 0 0 0 false 0;
     autoSession := AutoTelegramSession.mk AUTO_PHASE_PERSONAL_CONFIG 0 0 "" "";
     bot := None;
     wifiConnected := false;
     deviceConnected := false;
     oldDeviceConnected := false;
     clock := 0;
     bleInitialized := false;
     lastPollPersonal := 0;
     lastPollGroup := 0;
     lastTelegramCheck := 0;
     statusLog := [];
     outbox := [] |}.

(** The image loop of [sendPhotoTelegram].  [n] is the [size_t] loop
    counter, [fbBuf] the read pointer as an offset into the frame [fb], and
    [sent] what [client_tcp.write] has been given so far.  The loop runs for
    as long as [n < fbLen]; [fuel] bounds the iterations.  Feeding the
    watchdog every tenth chunk has no effect on what is written. *)
Definition chunkSize (n fbLen : Z) : Z :=
  if uadd n 1024 <? fbLen then 1024 else fbLen mod 1024.

Fixpoint writeImage (fuel : nat) (fb : list Byte.byte) (n fbBuf : Z)
  (sent : list Byte.byte) : option (list Byte.byte) :=
  match fuel with
  | O => None
  | S fuel' =>
      let fbLen := Z.of_nat (List.length fb) in
      if n <? fbLen then
        let chunk := chunkSize n fbLen in
        writeImage fuel' fb (uadd n 1024) (fbBuf + chunk)
          (sent ++ firstn (Z.to_nat chunk) (skipn (Z.to_nat fbBuf) fb))%list
      else Some sent
  end.

(** The image part of the request body for the frame [fb]. *)
Definition imageBody (fb : list Byte.byte) : option (list Byte.byte) :=
  writeImage (S (List.length fb)) fb 0 0 [].

(** What a line typed on the serial console asks of the caller. *)
Inductive SerialResult : Set :=
| Continue
| Reboot.

(** [handleSerialCommands] with [line] the line read from the console, if
    one is available; [ESP.restart()] is handed to the caller as [Reboot].
    The commands that only print leave the globals alone. *)
Definition handleSerialCommands (line : option string) : Cmd SerialResult :=
  match line with
  | None => ret Continue
  | Some line =>
      let cmd := trim line in
      if equals cmd "reset" then ret Reboot
      else if equals cmd "status" then ret Continue
      else if equals cmd "config" then ret Continue
      else if equals cmd "photo" then
        d <- get ;;
        (if length (SmartWitnessConfig.personalChatId (config d)) >? 0 then
           _ <- captureAndSendTestPhoto
                  (SmartWitnessConfig.personalChatId (config d)) "manual test" ;;
           ret tt
         else ret tt) ;;
        ret Continue
      else if equals cmd "ble" then
        d <- get ;;
        when (BLESession.autoResponseEnabled (bleSession d))
             stopTelegramAutoResponse ;;
        modify (set_currentState BLE_CONFIG) ;;
        ret Continue
      else if equals cmd "resetconfig" then
        loadDefaultConfig ;;
        saveConfig ;;
        ret Reboot
      else if equals cmd "summary" then ret Continue
      else if equals cmd "session" then ret Continue
      else if equals cmd "deviceid" then ret Continue
      else if equals cmd "wifi" then ret Continue
      else if equals cmd "help" then ret Continue
      else ret Continue
  end.

(** One pass of [loop] with the console: the state handler, then
    [handleSerialCommands] on the line that is pending, if any, then
    [delay(100)].  [handleError] and the console commands [reset] and
    [resetconfig] end in [ESP.restart()]: the pass then does not come back,
    which is the result [Reboot]. *)
Definition consoleAndDelay (line : option string) : Cmd SerialResult :=
  r <- handleSerialCommands line ;;
  match r with
  | Reboot => ret Reboot
  | Continue => delay 100 ;; ret Continue
  end.

Definition loopPass (line : option string) : Cmd SerialResult :=
  d <- get ;;
  match currentState d with
  | INIT => handleInit ;; consoleAndDelay line
  | BLE_CONFIG => handleBLEConfig ;; consoleAndDelay line
  | AUTO_PERSONAL_CONFIG => handleAutoPersonalConfig ;; consoleAndDelay line
  | AUTO_GROUP_WAIT => handleAutoGroupWait ;; consoleAndDelay line
  | AUTO_OPERATIONAL => handleAutoOperational ;; consoleAndDelay line
  | ERROR => handleError ;; ret Reboot
  end.

(** ** Notions the claims are stated with *)

(** The message cursor: the id of the last message the client was handed. *)
Definition cursor (d : Device) : Z :=
  match bot d with
  | Some b => last_message_received b
  | None => 0
  end.

(** What a poll made now is handed by the server. *)
Definition observedBy (e : Env) (d : Device) : list telegramMessage :=
  match fetch e with
  | FetchFailed => []
  | Pending pending => batchFrom (batchLimit e) (cursor d + 1) pending
  end.

(** The server answers with its pending messages in the order of their
    ids. *)
Fixpoint ascending (ids : list Z) : bool :=
  match ids with
  | a :: (b :: _) as rest => (a <? b) && ascending rest
  | _ => true
  end.

Definition servedInOrder (e : Env) : bool :=
  match fetch e with
  | FetchFailed => true
  | Pending pending => ascending (List.map update_id pending)
  end.

(** The pollers of the two phases of the auto workflow. *)
Inductive PollKind : Set := PersonalPoll | GroupPoll.

Definition pollCall (k : PollKind) : Cmd bool :=
  match k with
  | PersonalPoll => pollForPersonalConfig
  | GroupPoll => pollForGroupDetection
  end.

(** The three pollers of the sketch. *)
Inductive Poller : Set :=
| AutoResponsePoller
| PhasePoller (k : PollKind).

Definition poll (p : Poller) : Cmd bool :=
  match p with
  | AutoResponsePoller => processTelegramAutoResponse
  | PhasePoller k => pollCall k
  end.

(** [processTelegramAutoResponse] gets as far as its fetch: the session is
    on, neither the deadline nor the budget is reached, and the interval
    since the last poll has passed. *)
Definition autoResponseFetches (d : Device) : bool :=
  BLESession.autoResponseEnabled (bleSession d)
  && BLESession.isPollingActive (bleSession d)
  && negb (clock d >? BLESession.autoResponseTimeout (bleSession d))
  && negb (BLESession.pollAttempts (bleSession d) >=? MAX_AUTO_RESPONSE_ATTEMPTS)
  && negb (usub (clock d) (BLESession.lastPollTime (bleSession d))
           <? AUTO_RESPONSE_POLL_INTERVAL).

(** What a call of a poller is handed by the server. *)
Definition handedOut (p : Poller) (e : Env) (d : Device) : list telegramMessage :=
  match p with
  | AutoResponsePoller => if autoResponseFetches d then observedBy e d else []
  | PhasePoller _ => observedBy e d
  end.

(** A run of poller calls, each made at its own clock value against its own
    state of the outside world; the result collects the messages handed out
    across all calls. *)
Fixpoint polls (calls : list (Poller * Z * Env)) (d : Device)
  : Outcome (list telegramMessage) :=
  match calls with
  | [] => Done [] d
  | (p, now, e) :: rest =>
      match poll p e (set_clock now d) with
      | Done _ d1 =>
          match polls rest d1 with
          | Done seen d2 => Done (handedOut p e (set_clock now d) ++ seen)%list d2
          | Crash => Crash
          end
      | Crash => Crash
      end
  end.

Definition callInOrder (call : Poller * Z * Env) : bool :=
  servedInOrder (snd call).

(** The first test of [processBLEConfiguration]: none of the three fields
    of the payload is empty. *)
Definition requiredFieldsPresent (p : ConfigPayload) : bool :=
  negb ((length (ssid p) =? 0) || (length (password p) =? 0)
        || (length (telegramUser p) =? 0)).

(** A payload that gets as far as a new Telegram client and a new token:
    the fields are there, the identity passes, the network associates. *)
Definition startsAttempt (p : ConfigPayload) (e : Env) : bool :=
  requiredFieldsPresent p && validateTelegramUsername (telegramUser p)
  && wifiAssociates e.

(** What a fetch from offset 0 is handed. *)
Definition firstBatch (e : Env) : list telegramMessage :=
  match fetch e with
  | FetchFailed => []
  | Pending pending => batchFrom (batchLimit e) 0 pending
  end.

(** The test [pollForGroupDetection] makes on one message. *)
Definition isGroupEvidence (personalChatId : string) (m : telegramMessage) : bool :=
  isGroup (chat_id m) && groupAdditionIndicated (text m) (chat_id m) personalChatId.

(** Group evidence as the specification words it: a group chat, and a
    member-added indicator in the text, or the text exactly the bare start
    command, or a chat other than the bound personal one. *)
Definition memberAddedIndicator (text : string) : bool :=
  contains text "added" || contains text "joined".

Definition groupEvidenceAsSpecified (personalChatId : string) (m : telegramMessage)
  : bool :=
  isGroup (chat_id m)
  && (memberAddedIndicator (text m)
      || equals (text m) "/start"
      || negb (equals (chat_id m) personalChatId)).

(** A run of [loop] passes; before each pass the clock is set to the time
    the pass starts at. *)
Fixpoint loopPasses (passes : list (Z * Env)) (d : Device) : Outcome unit :=
  match passes with
  | [] => Done tt d
  | (now, e) :: rest =>
      match loop e (set_clock now d) with
      | Done _ d1 => loopPasses rest d1
      | Crash => Crash
      end
  end.

(** The test [handlePersonalConfigMessage] makes on one message, with
    [expectedUser] the stored [config.telegramUser]. *)
Definition isPersonalConfigMessage (expectedUser : string) (m : telegramMessage)
  : bool :=
  startsWith (text m) "/start "
  && equals (normalizeTelegramUsername (from_name m)) expectedUser.

(** Nothing the server holds would be taken for a personal configuration
    message, respectively for group evidence. *)
Definition noPersonalConfigMessage (expectedUser : string) (e : Env) : bool :=
  match fetch e with
  | FetchFailed => true
  | Pending pending =>
      forallb (fun m => negb (isPersonalConfigMessage expectedUser m)) pending
  end.

Definition noGroupEvidence (personalChatId : string) (e : Env) : bool :=
  match fetch e with
  | FetchFailed => true
  | Pending pending =>
      forallb (fun m => negb (isGroupEvidence personalChatId m)) pending
  end.

(** The deadline tests of the two phases, at clock value [now]. *)
Definition personalDeadlinePassed (now : Z) (d : Device) : bool :=
  usub now (AutoTelegramSession.phaseStartTime (autoSession d))
  >? PERSONAL_CONFIG_TIMEOUT.

Definition groupDeadlinePassed (now : Z) (d : Device) : bool :=
  usub now (AutoTelegramSession.phaseStartTime (autoSession d))
  >? GROUP_WAIT_TIMEOUT.

(** A pass of a phase during which nothing qualifying is pending and the
    deadline has not passed. *)
Definition quietPersonalPass (d : Device) (pass : Z * Env) : bool :=
  negb (personalDeadlinePassed (fst pass) d)
  && noPersonalConfigMessage (SmartWitnessConfig.telegramUser (config d)) (snd pass).

Definition quietGroupPass (d : Device) (pass : Z * Env) : bool :=
  negb (groupDeadlinePassed (fst pass) d)
  && noGroupEvidence (AutoTelegramSession.personalChatId (autoSession d)) (snd pass).

(** ** Concrete situations *)

(** The globals at power-on, after [loadDefaultConfig]. *)
Definition defaultConfig : SmartWitnessConfig.t :=
  SmartWitnessConfig.mk "" "" "" "SmartWitness_Default" "" ""
    "ALERTA DE SEGURIDAD ACTIVADA" false 1.

Definition powerOn : Device :=
  {| currentState := INIT;
     config := defaultConfig;
     eeprom := defaultConfig;
     bleSession := BLESession.mk "" "" "" false false false false 0
                                 false false 0 0 0 false 0;
     autoSession := AutoTelegramSession.mk AUTO_PHASE_PERSONAL_CONFIG 0 0 "" "";
     bot := None;
     wifiConnected := false;
     deviceConnected := false;
     oldDeviceConnected := false;
     clock := 2000;
     bleInitialized := false;
     lastPollPersonal := 0;
     lastPollGroup := 0;
     lastTelegramCheck := 0;
     statusLog := [];
     outbox := [] |}.

(** An outside world in which the network works and the server holds the
    given messages. *)
Definition world (pending : list telegramMessage) : Env :=
  {| efuseMac := 187723572702975;
     wifiAssociates := true;
     wifiWait := 1500;
     fetch := Pending pending;
     batchLimit := 10;
     sendMessageOk := fun _ => true;
     sendPhotoOk := fun _ => true |}.

Definition message (id : Z) (chat body sender : string) : telegramMessage :=
  {| update_id := id; chat_id := chat; text := body; from_name := sender;
     from_id := "1001" |}.

(** The globals a command leaves, [powerOn] if it crashed. *)
Definition leaves {A} (o : Outcome A) : Device :=
  match o with
  | Done _ d => d
  | Crash => powerOn
  end.

(** Scenario A of the specification up to the issued token: on a freshly
    started device a client connects over BLE and writes the payload
    [home / secret1 / alice]. *)
Definition payloadA : ConfigPayload :=
  {| ssid := "home"; password := "secret1"; telegramUser := "alice" |}.

Definition advertising : Device :=
  leaves (loop (world []) (leaves (loop (world []) powerOn))).

Definition configuredA : Device :=
  leaves (processBLEConfiguration payloadA (world [])
            (leaves (onConnect (world []) advertising))).

(** The owner answers with the issued token; the pass of [loop] that reads
    the answer completes the BLE configuration and enters the personal
    phase. *)
Definition claimA : telegramMessage :=
  message 1 "4242" "/start DEVICE_FIXED_AABBCCDDEEFF_4700" "Alice".

Definition personalPhaseA : Device :=
  leaves (loop (world [claimA]) (set_clock 12000 configuredA)).

(** The owner writes to the bot from a group chat during the personal
    phase; the pass that reads it enters the group phase with that chat
    bound as the personal one. *)
Definition groupPhaseB : Device :=
  leaves (loop (world [message 2 "-100" "/start again" "alice"])
            (set_clock 20000 personalPhaseA)).

(** ** Notions the proofs are organised with *)

(** A reflexive and transitive relation between the globals before and after
    a command. *)
Record StateOrder : Type := {
  related :> Device -> Device -> Prop;
  related_refl : forall d, related d d;
  related_trans : forall a b c, related a b -> related b c -> related a c
}.

(** The Telegram client object exists. *)
Definition hasBot (d : Device) : Prop := bot d <> None.

(** Started with a client object, [c] returns, leaves a client object, and
    relates the globals it started from to the globals it leaves. *)
Definition Runs (R : StateOrder) {A} (c : Cmd A) : Prop :=
  forall e d, hasBot d ->
    exists a d', c e d = Done a d' /\ R d d' /\ hasBot d'.

(** [R] is indifferent to what the message handlers write: the stored
    configuration, the two session records, the clock and the logs. *)
Record ToleratesHandlers (R : StateOrder) : Prop := {
  tol_config : forall v d, R d (set_config v d);
  tol_eeprom : forall v d, R d (set_eeprom v d);
  tol_bleSession : forall v d, R d (set_bleSession v d);
  tol_autoSession : forall v d, R d (set_autoSession v d);
  tol_clock : forall v d, R d (set_clock v d);
  tol_statusLog : forall v d, R d (set_statusLog v d);
  tol_outbox : forall v d, R d (set_outbox v d)
}.

(** [R] is indifferent to every write of the control loop except those to
    the Telegram client object. *)
Record ToleratesLoop (R : StateOrder) : Prop := {
  tol_handlers : ToleratesHandlers R;
  tol_currentState : forall v d, R d (set_currentState v d);
  tol_wifiConnected : forall v d, R d (set_wifiConnected v d);
  tol_oldDeviceConnected : forall v d, R d (set_oldDeviceConnected v d);
  tol_bleInitialized : forall v d, R d (set_bleInitialized v d);
  tol_lastPollPersonal : forall v d, R d (set_lastPollPersonal v d);
  tol_lastPollGroup : forall v d, R d (set_lastPollGroup v d);
  tol_lastTelegramCheck : forall v d, R d (set_lastTelegramCheck v d)
}.

(** The client object is the one it was. *)
Definition sameBot : StateOrder :=
  {| related := fun d d' => bot d' = bot d;
     related_refl := fun d => eq_refl;
     related_trans := fun a b c Hab Hbc => eq_trans Hbc Hab |}.

(** The cursor has not moved back. *)
Definition cursorGrows : StateOrder :=
  {| related := fun d d' => cursor d <= cursor d';
     related_refl := fun d => Z.le_refl (cursor d);
     related_trans := fun a b c => Z.le_trans (cursor a) (cursor b) (cursor c) |}.

(** The globals after the fetch every poll starts with: the batch handed
    out sits in the client object and the cursor is on its last message. *)
Definition afterFetch (e : Env) (d : Device) : Device :=
  match fetch e with
  | FetchFailed => d
  | Pending _ =>
      set_bot (Some {| last_message_received :=
                         last (List.map update_id (observedBy e d)) (cursor d);
                       messages := observedBy e d |}) d
  end.

(** [autoSession.pollAttempts++] *)
Definition countPoll (d : Device) : Device :=
  set_autoSession
    (AutoTelegramSession.set_pollAttempts
       (int_incr (AutoTelegramSession.pollAttempts (autoSession d)))
       (autoSession d)) d.

(** What a pass without a qualifying message leaves alone. *)
Definition Quiet (d d' : Device) : Prop :=
  currentState d' = currentState d /\
  config d' = config d /\
  AutoTelegramSession.phaseStartTime (autoSession d')
  = AutoTelegramSession.phaseStartTime (autoSession d) /\
  AutoTelegramSession.personalChatId (autoSession d')
  = AutoTelegramSession.personalChatId (autoSession d) /\
  AutoTelegramSession.groupChatId (autoSession d')
  = AutoTelegramSession.groupChatId (autoSession d) /\
  hasBot d'.

(** What [stopTelegramAutoResponse] does to the session record. *)
Definition stoppedSession (s : BLESession.t) : BLESession.t :=
  BLESession.set_waitingForTelegramUser false
    (BLESession.set_isPollingActive false
       (BLESession.set_autoResponseEnabled false s)).

(** A device in the personal phase whose attempt counter stands at [n]. *)
Definition attemptsAt (n : Z) (d : Device) : Device :=
  set_autoSession (AutoTelegramSession.set_pollAttempts n (autoSession d)) d.

(** A device in the BLE phase whose attempt counter stands at [n]. *)
Definition bleAttemptsAt (n : Z) (d : Device) : Device :=
  set_bleSession (BLESession.set_pollAttempts n (bleSession d)) d.

(** The globals after the auto-response session was stopped and [status]
    published. *)
Definition stoppedWith (status : string) (d : Device) : Device :=
  set_statusLog (status :: "auto_response_stopped" :: statusLog d)
    (set_bleSession (stoppedSession (bleSession d)) d).

(** Both attempt counters stand where they stood. *)
Definition sameAttempts : StateOrder :=
  {| related := fun d d' =>
       AutoTelegramSession.pollAttempts (autoSession d')
       = AutoTelegramSession.pollAttempts (autoSession d) /\
       BLESession.pollAttempts (bleSession d')
       = BLESession.pollAttempts (bleSession d);
     related_refl := fun d => conj eq_refl eq_refl;
     related_trans := fun a b c Hab Hbc =>
       conj (eq_trans (proj1 Hbc) (proj1 Hab))
            (eq_trans (proj2 Hbc) (proj2 Hab)) |}.

(** ** Notions the further properties are stated with *)

(** The test [loadConfig] makes on the record it read: version 1 and a
    device name of 1 to 31 characters. *)
Definition soundRecord (c : SmartWitnessConfig.t) : bool :=
  (SmartWitnessConfig.configVersion c =? 1)
  && (1 <=? length (SmartWitnessConfig.deviceName c))
  && (length (SmartWitnessConfig.deviceName c) <=? 31).

(** A console line carries one of the four commands that do more than
    print. *)
Definition consoleActs (line : option string) : bool :=
  match line with
  | None => false
  | Some line =>
      let cmd := trim line in
      equals cmd "reset" || equals cmd "photo" || equals cmd "ble"
      || equals cmd "resetconfig"
  end.

(** Whenever [c] returns, the globals it leaves are related by [R] to the
    globals it started from. *)
Definition Keeps (R : StateOrder) {A} (c : Cmd A) : Prop :=
  forall e d a d', c e d = Done a d' -> R d d'.

(** The state machine stands where it stood or has moved into one of
    [targets]. *)
Definition movedInto (targets : list SystemState) (d d' : Device) : Prop :=
  currentState d' = currentState d \/ In (currentState d') targets.

Definition movesInto (targets : list SystemState) : StateOrder :=
  {| related := movedInto targets;
     related_refl := fun d => or_introl eq_refl;
     related_trans := fun a b c Hab Hbc =>
       match Hbc with
       | or_intror Hin => or_intror Hin
       | or_introl Hbc' =>
           match Hab with
           | or_introl Hab' => or_introl (eq_trans Hbc' Hab')
           | or_intror Hin =>
               or_intror (eq_ind_r (fun s => In s targets) Hin Hbc')
           end
       end |}.

(** The states one pass of [loop] can move the machine to. *)
Definition successors (s : SystemState) : list SystemState :=
  match s with
  | INIT => [BLE_CONFIG; AUTO_PERSONAL_CONFIG]
  | BLE_CONFIG => [AUTO_PERSONAL_CONFIG]
  | AUTO_PERSONAL_CONFIG => [AUTO_GROUP_WAIT; ERROR]
  | AUTO_GROUP_WAIT => [AUTO_OPERATIONAL]
  | AUTO_OPERATIONAL => []
  | ERROR => []
  end.

(** What was configured over BLE: the network, the owner, the name. *)
Definition credentials (c : SmartWitnessConfig.t) : string * string * string * string :=
  (SmartWitnessConfig.wifiSSID c, SmartWitnessConfig.wifiPassword c,
   SmartWitnessConfig.telegramUser c, SmartWitnessConfig.deviceName c).

Definition sameCredentials : StateOrder :=
  {| related := fun d d' => credentials (config d') = credentials (config d);
     related_refl := fun d => eq_refl;
     related_trans := fun a b c Hab Hbc => eq_trans Hbc Hab |}.

(** A stored record that [loadConfig] keeps and [validateConfiguration]
    accepts. *)
Definition usable (stored : SmartWitnessConfig.t) : bool :=
  (SmartWitnessConfig.configVersion stored =? 1)
  && (length (SmartWitnessConfig.deviceName stored) <=? 31)
  && validateConfiguration stored.

(** The chip starts with [stored] in its EEPROM: [setup], then the first
    pass of [loop]. *)
Definition boot (stored : SmartWitnessConfig.t) (e : Env) : Outcome unit :=
  (setup ;; loop) e (coldStart stored).

(** An outside world in which the server holds the given messages and no
    send reaches Telegram. *)
Definition silentWorld (pending : list telegramMessage) : Env :=
  {| efuseMac := 187723572702975;
     wifiAssociates := true;
     wifiWait := 1500;
     fetch := Pending pending;
     batchLimit := 10;
     sendMessageOk := fun _ => false;
     sendPhotoOk := fun _ => false |}.

(** ** Reading numbers back *)

(** The value of a decimal digit character. *)
Definition digitValue (c : ascii) : Z := Z.of_nat (nat_of_ascii c) - 48.

(** The number a string of decimal digits stands for, [acc] being the value
    of the digits already read. *)
Fixpoint readDecimal (acc : Z) (s : string) : Z :=
  match s with
  | EmptyString => acc
  | String c r => readDecimal (acc * 10 + digitValue c) r
  end.

(** The string a list of digit values prints as, most significant first. *)
Fixpoint render (ds : list Z) : string :=
  match ds with
  | [] => EmptyString
  | x :: r => String (digitChar x) (render r)
  end.

(** ** Theorems *)

Example normalize_alice : normalizeTelegramUsername "  Alice " = "@alice".
Proof. reflexivity. Qed.

Example validate_alice : validateTelegramUsername "alice" = true.
Proof. reflexivity. Qed.

Example validate_bad : validateTelegramUsername "al ice" = false.
Proof. reflexivity. Qed.

(** *** Arduino strings *)

Lemma isspace_tolower (c : ascii) : isspace (tolower c) = isspace c.
Proof. destruct c as [[] [] [] [] [] [] [] []]; reflexivity. Qed.

Lemma tolower_idem (c : ascii) : tolower (tolower c) = tolower c.
Proof. destruct c as [[] [] [] [] [] [] [] []]; reflexivity. Qed.

Lemma toLowerCase_idem (s : string) : toLowerCase (toLowerCase s) = toLowerCase s.
Proof.
  unfold toLowerCase.
  induction s as [|c r IH]; cbn; [reflexivity|].
  now rewrite tolower_idem, IH.
Qed.

Lemma skipLeading_toLowerCase (s : string) :
  skipLeading (toLowerCase s) = toLowerCase (skipLeading s).
Proof.
  unfold toLowerCase.
  induction s as [|c r IH]; cbn; [reflexivity|].
  rewrite isspace_tolower. destruct (isspace c); [exact IH | reflexivity].
Qed.

Lemma dropTrailing_toLowerCase (s : string) :
  dropTrailing (toLowerCase s) = toLowerCase (dropTrailing s).
Proof.
  unfold toLowerCase.
  induction s as [|c r IH]; cbn; [reflexivity|].
  rewrite IH, isspace_tolower.
  destruct (dropTrailing r); cbn; [destruct (isspace c)|]; reflexivity.
Qed.

Lemma trim_toLowerCase (s : string) : trim (toLowerCase s) = toLowerCase (trim s).
Proof.
  unfold trim. now rewrite skipLeading_toLowerCase, dropTrailing_toLowerCase.
Qed.

Lemma dropTrailing_idem (s : string) : dropTrailing (dropTrailing s) = dropTrailing s.
Proof.
  induction s as [|c r IH]; cbn; [reflexivity|].
  destruct (dropTrailing r) as [|x y] eqn:E.
  - destruct (isspace c) eqn:Ec; cbn; [reflexivity | now rewrite Ec].
  - cbn [dropTrailing] in *. now rewrite IH.
Qed.

Lemma skipLeading_dropTrailing (s : string) :
  skipLeading (dropTrailing (skipLeading s)) = dropTrailing (skipLeading s).
Proof.
  induction s as [|c r IH]; cbn; [reflexivity|].
  destruct (isspace c) eqn:Ec; [exact IH|].
  cbn. destruct (dropTrailing r); rewrite ?Ec; cbn; now rewrite Ec.
Qed.

Lemma trim_idem (s : string) : trim (trim s) = trim s.
Proof.
  unfold trim. now rewrite skipLeading_dropTrailing, dropTrailing_idem.
Qed.

Lemma trim_fixed_dropTrailing (s : string) : trim s = s -> dropTrailing s = s.
Proof.
  intros H. rewrite <- H at 1. unfold trim.
  rewrite dropTrailing_idem. exact H.
Qed.

Lemma trim_sigil (s : string) : trim s = s -> trim (String "@" s) = String "@" s.
Proof.
  intros H. apply trim_fixed_dropTrailing in H.
  unfold trim. cbn [skipLeading]. change (isspace "@") with false. cbn iota.
  cbn [dropTrailing]. fold dropTrailing. rewrite H. now destruct s.
Qed.

Lemma startsWith_sigil (s : string) :
  startsWith s "@" = true <-> exists r, s = String "@" r.
Proof.
  unfold startsWith. split.
  - destruct s as [|c r]; cbn -[ascii_dec]; [discriminate|].
    destruct (ascii_dec "@" c) as [<-|]; [|discriminate].
    intros _. now exists r.
  - intros [r ->]. cbn. now destruct r.
Qed.

Lemma get_Some_lt (s : string) : forall i c,
  String.get i s = Some c -> (i < String.length s)%nat.
Proof.
  induction s as [|x r IH]; intros [|i] c; cbn; try discriminate; try lia.
  intros H. apply IH in H. lia.
Qed.

Lemma get_lt_Some (s : string) : forall i,
  (i < String.length s)%nat -> exists c, String.get i s = Some c.
Proof.
  induction s as [|x r IH]; intros [|i]; cbn; try lia; eauto.
  intros H. apply IH. lia.
Qed.

(** *** The identity-format check *)

Lemma usernameChar_spec (c : ascii) :
  usernameChar c = true <-> lowercaseLetter c \/ decimalDigit c \/ c = "_"%char.
Proof.
  unfold usernameChar, lowercaseLetter, decimalDigit.
  rewrite !orb_true_iff, !andb_true_iff, !Nat.leb_le, Nat.eqb_eq.
  split.
  - intros [[H|H]|H]; [now left | right; now left | right; right].
    rewrite <- (ascii_nat_embedding c), H. reflexivity.
  - intros [H|[H|H]]; [left; now left | left; now right | right].
    now subst c.
Qed.

Lemma validateLoop_spec (s : string) : forall n i,
  validateLoop s i n = true <->
  forall k, (i <= k < i + n)%nat -> usernameChar (charAt s k) = true.
Proof.
  induction n as [|n IH]; intros i; cbn.
  - split; [intros _ k Hk; lia | reflexivity].
  - destruct (usernameChar (charAt s i)) eqn:E; cbn.
    + rewrite IH. split; intros H k Hk.
      * destruct (Nat.eq_dec k i) as [->|]; [exact E | apply H; lia].
      * apply H; lia.
    + split; [discriminate|]. intros H. rewrite <- E. apply H. lia.
Qed.

(** [validateTelegramUsername] accepts exactly the names whose normal form
    passes the identity-format check. *)
Lemma validateTelegramUsername_spec (u : string) :
  validateTelegramUsername u = true <-> IdentityFormat (normalizeTelegramUsername u).
Proof.
  unfold validateTelegramUsername, IdentityFormat, length.
  set (n := normalizeTelegramUsername u).
  destruct (Z.ltb_spec (Z.of_nat (String.length n)) 2) as [Hlo|Hlo];
    [split; [discriminate | lia]|].
  destruct (Z.gtb_spec (Z.of_nat (String.length n)) 33) as [Hhi|Hhi];
    [split; [discriminate | lia]|].
  destruct (startsWith n "@") eqn:Hs; cbn [negb].
  - apply startsWith_sigil in Hs. rewrite validateLoop_spec.
    split.
    + intros H. repeat split; try lia; [exact Hs|].
      intros i c Hi Hg. apply usernameChar_spec.
      specialize (H i). pose proof (get_Some_lt _ _ _ Hg).
      unfold charAt in H. rewrite Hg in H. apply H. lia.
    + intros (_ & _ & H) k Hk.
      destruct (get_lt_Some n k) as [c Hc]; [lia|].
      unfold charAt. rewrite Hc. apply usernameChar_spec. apply (H k c); [lia | exact Hc].
  - split; [discriminate|]. intros (_ & Hex & _).
    apply startsWith_sigil in Hex. congruence.
Qed.

(** *** Scenario A, run on the model *)

Example configuredA_token :
  BLESession.deviceId (bleSession configuredA) = "DEVICE_FIXED_AABBCCDDEEFF_4700"
  /\ BLESession.expectedTelegramUser (bleSession configuredA) = "@alice"
  /\ BLESession.autoResponseEnabled (bleSession configuredA) = true
  /\ currentState configuredA = BLE_CONFIG.
Proof. vm_compute. repeat split. Qed.

Example personalPhaseA_entered :
  currentState personalPhaseA = AUTO_PERSONAL_CONFIG
  /\ SmartWitnessConfig.personalChatId (config personalPhaseA) = "4242"
  /\ AutoTelegramSession.personalChatId (autoSession personalPhaseA) = ""
  /\ cursor personalPhaseA = 1
  /\ lastStatus personalPhaseA = "configuration_complete".
Proof. vm_compute. repeat split. Qed.

Example groupPhaseB_entered :
  currentState groupPhaseB = AUTO_GROUP_WAIT
  /\ AutoTelegramSession.personalChatId (autoSession groupPhaseB) = "-100"
  /\ AutoTelegramSession.groupChatId (autoSession groupPhaseB) = ""
  /\ AutoTelegramSession.phaseStartTime (autoSession groupPhaseB) = 22700
  /\ cursor groupPhaseB = 2.
Proof. vm_compute. repeat split. Qed.

(** *** Frame reasoning for commands *)

Section Rules.
Context (R : StateOrder).

Lemma Runs_ret {A} (a : A) : Runs R (ret a).
Proof. intros e d H. exists a, d. auto using related_refl. Qed.

Lemma Runs_bind {A C} (c : Cmd A) (k : A -> Cmd C) :
  Runs R c -> (forall a, Runs R (k a)) -> Runs R (bind c k).
Proof.
  intros Hc Hk e d H. unfold bind.
  destruct (Hc e d H) as (a & d1 & -> & R1 & H1).
  destruct (Hk a e d1 H1) as (x & d2 & -> & R2 & H2).
  exists x, d2. eauto using related_trans.
Qed.

Lemma Runs_get : Runs R get.
Proof. intros e d H. exists d, d. auto using related_refl. Qed.

Lemma Runs_ask : Runs R ask.
Proof. intros e d H. exists e, d. auto using related_refl. Qed.

Lemma Runs_millis : Runs R millis.
Proof. intros e d H. exists (clock d), d. auto using related_refl. Qed.

Lemma Runs_modify (g : Device -> Device) :
  (forall d, R d (g d)) -> (forall d, bot (g d) = bot d) -> Runs R (modify g).
Proof.
  intros Hg Hb e d H. exists tt, (g d). repeat split; [apply Hg|].
  unfold hasBot. now rewrite Hb.
Qed.

Lemma Runs_when (b : bool) (c : Cmd unit) : Runs R c -> Runs R (when b c).
Proof. intros H. destruct b; [exact H | apply Runs_ret]. Qed.

Lemma Runs_lastMessageReceived : Runs R lastMessageReceived.
Proof.
  intros e d H. unfold lastMessageReceived, bind, get.
  destruct (bot d) as [b|] eqn:E; [|now elim H].
  exists (last_message_received b), d. auto using related_refl.
Qed.

Lemma Runs_receivedMessages n : Runs R (receivedMessages n).
Proof.
  intros e d H. unfold receivedMessages, bind, get.
  destruct (bot d) as [b|] eqn:E; [|now elim H].
  eexists _, d. split; [reflexivity|]. auto using related_refl.
Qed.
End Rules.

Create HintDb frame.

#[local] Hint Resolve tol_config tol_eeprom tol_bleSession tol_autoSession
  tol_clock tol_statusLog tol_outbox tol_handlers tol_currentState
  tol_wifiConnected tol_oldDeviceConnected tol_bleInitialized tol_lastPollPersonal tol_lastPollGroup
  tol_lastTelegramCheck : frame.

Ltac frame_write :=
  apply Runs_modify; intro; [solve [auto with frame] | reflexivity].

Ltac frame_step :=
  match goal with
  | |- Runs _ (bind _ _) => apply Runs_bind; [| intro]
  | |- Runs _ (ret _) => apply Runs_ret
  | |- Runs _ get => apply Runs_get
  | |- Runs _ ask => apply Runs_ask
  | |- Runs _ millis => apply Runs_millis
  | |- Runs _ lastMessageReceived => apply Runs_lastMessageReceived
  | |- Runs _ (receivedMessages _) => apply Runs_receivedMessages
  | |- Runs _ (when _ _) => apply Runs_when
  | |- Runs _ (modify _) => frame_write
  | |- Runs _ (modifyBLE _) => frame_write
  | |- Runs _ (modifyAuto _) => frame_write
  | |- Runs _ (modifyConfig _) => frame_write
  | |- Runs _ (delay _) => frame_write
  | |- Runs _ (updateBLEStatus _) => frame_write
  | |- Runs _ saveConfig => frame_write
  | |- Runs _ (if ?b then _ else _) => destruct b
  | |- Runs _ (match ?x with _ => _ end) => destruct x
  | |- Runs _ _ => solve [auto with frame]
  end.

Ltac frame := repeat frame_step.

Section HandlerFrames.
Context (R : StateOrder) (HR : ToleratesHandlers R).

Lemma safeSendMessage_frame chat body : Runs R (safeSendMessage chat body).
Proof. unfold safeSendMessage. frame. Qed.
#[local] Hint Resolve safeSendMessage_frame : frame.

Lemma captureAndSendTestPhoto_frame chat context :
  Runs R (captureAndSendTestPhoto chat context).
Proof. unfold captureAndSendTestPhoto. frame. Qed.
#[local] Hint Resolve captureAndSendTestPhoto_frame : frame.

Lemma generateDeviceId_frame : Runs R generateDeviceId.
Proof. unfold generateDeviceId. frame. Qed.

Lemma stopTelegramAutoResponse_frame : Runs R stopTelegramAutoResponse.
Proof. unfold stopTelegramAutoResponse. frame. Qed.
#[local] Hint Resolve stopTelegramAutoResponse_frame : frame.

Lemma completeBLEConfiguration_frame : Runs R completeBLEConfiguration.
Proof. unfold completeBLEConfiguration. frame. Qed.
#[local] Hint Resolve completeBLEConfiguration_frame : frame.

Lemma processTelegramChatId_frame chatId : Runs R (processTelegramChatId chatId).
Proof. unfold processTelegramChatId. frame. Qed.
#[local] Hint Resolve processTelegramChatId_frame : frame.

Lemma handleAutoResponseMessage_frame chat text userName userId :
  Runs R (handleAutoResponseMessage chat text userName userId).
Proof. unfold handleAutoResponseMessage. frame. Qed.
#[local] Hint Resolve handleAutoResponseMessage_frame : frame.

Lemma autoResponseLoop_frame batch : Runs R (autoResponseLoop batch).
Proof. induction batch; cbn [autoResponseLoop]; frame. Qed.

Lemma handlePersonalConfigMessage_frame chat text userName :
  Runs R (handlePersonalConfigMessage chat text userName).
Proof. unfold handlePersonalConfigMessage. frame. Qed.
#[local] Hint Resolve handlePersonalConfigMessage_frame : frame.

Lemma personalConfigLoop_frame batch : Runs R (personalConfigLoop batch).
Proof. induction batch; cbn [personalConfigLoop]; frame. Qed.

Lemma groupDetectionLoop_frame batch : Runs R (groupDetectionLoop batch).
Proof. induction batch; cbn [groupDetectionLoop]; frame. Qed.

Lemma startPersonalConfigPhase_frame : Runs R startPersonalConfigPhase.
Proof. unfold startPersonalConfigPhase, generateDeviceId. frame. Qed.

Lemma startGroupWaitingPhase_frame : Runs R startGroupWaitingPhase.
Proof. unfold startGroupWaitingPhase, sendGroupCreationInstructions. frame. Qed.

Lemma startBLEConfiguration_frame : Runs R startBLEConfiguration.
Proof. unfold startBLEConfiguration. frame. Qed.
End HandlerFrames.

(** *** The message cursor *)

Lemma sameBot_handlers : ToleratesHandlers sameBot.
Proof. split; intros; reflexivity. Qed.

Lemma last_cons_default {A} (l : list A) : forall a x, last (a :: l) x = last l a.
Proof.
  induction l as [|b l IH]; intros a x; [reflexivity|].
  change (last (a :: b :: l) x) with (last (b :: l) x).
  now rewrite !IH.
Qed.

Lemma last_app_default {A} (l1 l2 : list A) (x : A) :
  last (l1 ++ l2)%list x = last l2 (last l1 x).
Proof.
  revert x. induction l1 as [|a l1 IH]; intros x; [reflexivity|].
  cbn [app]. now rewrite !last_cons_default, IH.
Qed.

Lemma last_Forall {A} (P : A -> Prop) (l : list A) (x : A) :
  Forall P l -> P x -> P (last l x).
Proof.
  induction 1 as [|a l Ha Hl IH]; intros Hx; [exact Hx|].
  destruct l; [exact Ha | now apply IH].
Qed.

Lemma In_firstn {A} (n : nat) (l : list A) (x : A) :
  In x (firstn n l) -> In x l.
Proof.
  intros H. rewrite <- (firstn_skipn n l). apply in_or_app. now left.
Qed.

Lemma batchFrom_newer limit offset pending :
  Forall (fun m => offset <= update_id m) (batchFrom limit offset pending).
Proof.
  unfold batchFrom. apply Forall_forall. intros m Hm.
  apply In_firstn, filter_In in Hm. destruct Hm as [_ Hm].
  now apply Z.leb_le.
Qed.

Lemma observedBy_newer e d :
  Forall (fun m => cursor d < update_id m) (observedBy e d).
Proof.
  unfold observedBy. destruct (fetch e); [constructor|].
  eapply Forall_impl; [|apply batchFrom_newer]. cbn. intros; lia.
Qed.

Lemma getNewUpdates_run e d b :
  bot d = Some b ->
  exists n, getNewUpdates e d = Done n (afterFetch e d) /\
            (0 < n -> firstn (Z.to_nat n) (observedBy e d) = observedBy e d).
Proof.
  intros Hb. unfold getNewUpdates, lastMessageReceived, getUpdates, afterFetch,
    observedBy, cursor, bind, get, ask, ret, modify.
  destruct (fetch e) as [|pending] eqn:F; repeat (rewrite ?Hb, ?F; cbn).
  - eexists; split; [reflexivity | lia].
  - eexists; split; [reflexivity|]. intros _.
    rewrite Nat2Z.id. apply firstn_all.
Qed.

Lemma cursor_afterFetch e d b :
  bot d = Some b ->
  cursor (afterFetch e d) = last (List.map update_id (observedBy e d)) (cursor d).
Proof.
  intros Hb. unfold afterFetch, observedBy.
  destruct (fetch e); [reflexivity|].
  unfold cursor at 1. cbn. reflexivity.
Qed.

Lemma bot_afterFetch e d b :
  bot d = Some b -> exists b', bot (afterFetch e d) = Some b'.
Proof.
  intros Hb. unfold afterFetch. destruct (fetch e); cbn; eauto.
Qed.

(** A poll leaves the client object as the fetch left it, whatever the
    messages were and whether or not one of them matched. *)
Lemma pollCall_run k e d b :
  bot d = Some b ->
  exists r d', pollCall k e d = Done r d' /\ bot d' = bot (afterFetch e d).
Proof.
  intros Hb.
  set (d0 := set_autoSession
               (AutoTelegramSession.set_pollAttempts
                  (int_incr (AutoTelegramSession.pollAttempts (autoSession d)))
                  (autoSession d)) d).
  assert (Hb0 : bot d0 = Some b) by exact Hb.
  destruct (getNewUpdates_run e d0 b Hb0) as (n & Hn & Hfull).
  assert (Hbot : bot (afterFetch e d0) = bot (afterFetch e d)).
  { unfold afterFetch, observedBy, cursor. cbn. destruct (fetch e); reflexivity. }
  assert (Hmsgs : 0 < n -> exists b', bot (afterFetch e d0) = Some b'
                                   /\ messages b' = observedBy e d0).
  { intros Hpos. unfold afterFetch in *. destruct (fetch e) eqn:F.
    - unfold getNewUpdates, lastMessageReceived, getUpdates, bind, get, ask,
        ret in Hn. repeat (rewrite ?Hb0, ?F in Hn; cbn in Hn).
      injection Hn as <-. lia.
    - cbn. eauto. }
  destruct k; cbn [pollCall];
    unfold pollForPersonalConfig, pollForGroupDetection, modifyAuto, modify, bind;
    fold d0; rewrite Hn;
    (destruct (Z.leb_spec n 0) as [Hle|Hgt];
     [ do 2 eexists; split; [reflexivity | exact Hbot]
     | destruct (Hmsgs Hgt) as (b' & Hb' & Hm);
       unfold receivedMessages, get, bind, ret; rewrite Hb', Hm, (Hfull Hgt) ]).
  - destruct (personalConfigLoop_frame sameBot sameBot_handlers
                (observedBy e d0) e (afterFetch e d0))
      as (r & d' & -> & Hk & _); [unfold hasBot; congruence|].
    exists r, d'. split; [reflexivity|]. cbn in Hk. congruence.
  - destruct (groupDetectionLoop_frame sameBot sameBot_handlers
                (observedBy e d0) e (afterFetch e d0))
      as (r & d' & -> & Hk & _); [unfold hasBot; congruence|].
    exists r, d'. split; [reflexivity|]. cbn in Hk. congruence.
Qed.

(** *** Frames of the polls and of the state handlers *)

#[local] Hint Resolve safeSendMessage_frame captureAndSendTestPhoto_frame
  generateDeviceId_frame stopTelegramAutoResponse_frame
  completeBLEConfiguration_frame processTelegramChatId_frame
  handleAutoResponseMessage_frame autoResponseLoop_frame
  handlePersonalConfigMessage_frame personalConfigLoop_frame
  groupDetectionLoop_frame startPersonalConfigPhase_frame
  startGroupWaitingPhase_frame startBLEConfiguration_frame : frame.

Section PollFrames.
Context (R : StateOrder) (HR : ToleratesHandlers R) (HG : Runs R getNewUpdates).

Lemma pollForPersonalConfig_frame : Runs R pollForPersonalConfig.
Proof. unfold pollForPersonalConfig. frame. Qed.

Lemma pollForGroupDetection_frame : Runs R pollForGroupDetection.
Proof. unfold pollForGroupDetection. frame. Qed.

Lemma processTelegramAutoResponse_frame : Runs R processTelegramAutoResponse.
Proof. unfold processTelegramAutoResponse. frame. Qed.
End PollFrames.

#[local] Hint Resolve pollForPersonalConfig_frame pollForGroupDetection_frame
  processTelegramAutoResponse_frame : frame.

Section LoopFrames.
Context (R : StateOrder) (HR : ToleratesLoop R) (HG : Runs R getNewUpdates).

Lemma handleInit_frame : Runs R handleInit.
Proof. unfold handleInit. frame. Qed.

Lemma handleBLEConfig_frame : Runs R handleBLEConfig.
Proof. unfold handleBLEConfig. frame. Qed.

Lemma handleAutoPersonalConfig_frame : Runs R handleAutoPersonalConfig.
Proof. unfold handleAutoPersonalConfig. frame. Qed.

Lemma handleAutoGroupWait_frame : Runs R handleAutoGroupWait.
Proof. unfold handleAutoGroupWait. frame. Qed.

Lemma handleAutoOperational_frame : Runs R handleAutoOperational.
Proof. unfold handleAutoOperational. frame. Qed.

Lemma loop_frame : Runs R loop.
Proof.
  pose proof handleInit_frame. pose proof handleBLEConfig_frame.
  pose proof handleAutoPersonalConfig_frame. pose proof handleAutoGroupWait_frame.
  pose proof handleAutoOperational_frame.
  unfold loop, handleError. frame.
Qed.
End LoopFrames.

Lemma cursorGrows_loop : ToleratesLoop cursorGrows.
Proof. repeat split; intros; apply Z.le_refl. Qed.

Lemma getNewUpdates_cursorGrows : Runs cursorGrows getNewUpdates.
Proof.
  intros e d H. destruct (bot d) as [b|] eqn:Hb; [|now elim H].
  destruct (getNewUpdates_run e d b Hb) as (n & Hn & _).
  destruct (bot_afterFetch e d b Hb) as (b' & Hb').
  exists n, (afterFetch e d). repeat split; [exact Hn | | unfold hasBot; congruence].
  cbn. rewrite (cursor_afterFetch e d b Hb).
  apply (last_Forall (fun z => cursor d <= z)); [|lia].
  apply Forall_map. eapply Forall_impl; [|apply observedBy_newer]. cbn; intros; lia.
Qed.

Lemma loop_cursor_grows e d :
  hasBot d -> exists d', loop e d = Done tt d' /\ cursor d <= cursor d'.
Proof.
  intros H.
  destruct (loop_frame cursorGrows cursorGrows_loop getNewUpdates_cursorGrows e d H)
    as ([] & d' & Hrun & Hle & _).
  now exists d'.
Qed.

(** *** What the message handlers decide *)

Ltac run :=
  cbv [bind ret get ask modify when crash modifyBLE modifyConfig modifyAuto
       millis delay updateBLEStatus saveConfig].

Lemma safeSendMessage_total chat body e d :
  exists r d', safeSendMessage chat body e d = Done r d' /\
    currentState d' = currentState d /\ config d' = config d /\
    autoSession d' = autoSession d /\ bot d' = bot d /\
    bleSession d' = bleSession d /\ eeprom d' = eeprom d.
Proof.
  unfold safeSendMessage. run.
  destruct (bot d) eqn:Hb; [destruct (sendMessageOk e chat)|]; cbn;
    do 2 eexists; (split; [reflexivity|]); cbn; auto 10.
Qed.

Lemma captureAndSendTestPhoto_total chat context e d :
  exists r d', captureAndSendTestPhoto chat context e d = Done r d' /\
    r = sendPhotoOk e chat /\
    currentState d' = currentState d /\ config d' = config d /\
    autoSession d' = autoSession d /\ bot d' = bot d /\
    bleSession d' = bleSession d /\ eeprom d' = eeprom d.
Proof.
  unfold captureAndSendTestPhoto. run.
  destruct (sendPhotoOk e chat); cbv beta iota.
  - match goal with
    | |- context [safeSendMessage ?c ?b ?e ?d] =>
        destruct (safeSendMessage_total c b e d)
          as (r & d' & -> & H1 & H2 & H3 & H4 & H5 & H6)
    end.
    do 2 eexists; (split; [reflexivity|]). cbn in *. repeat split; assumption.
  - do 2 eexists; (split; [reflexivity|]); repeat split.
Qed.

(** [handlePersonalConfigMessage] accepts exactly the messages whose text
    begins with the start command and whose normalized sender is the stored
    user; it binds the personal chat when it accepts and changes nothing
    when it does not. *)
Lemma handlePersonalConfigMessage_decides m e d :
  exists d',
    handlePersonalConfigMessage (chat_id m) (text m) (from_name m) e d
    = Done (isPersonalConfigMessage (SmartWitnessConfig.telegramUser (config d)) m) d'
    /\ (isPersonalConfigMessage (SmartWitnessConfig.telegramUser (config d)) m = false
        -> d' = d)
    /\ (isPersonalConfigMessage (SmartWitnessConfig.telegramUser (config d)) m = true
        -> AutoTelegramSession.personalChatId (autoSession d') = chat_id m).
Proof.
  unfold handlePersonalConfigMessage, isPersonalConfigMessage.
  destruct (startsWith (text m) "/start "); cbn [negb andb].
  2:{ exists d. split; [reflexivity|]. split; [reflexivity | discriminate]. }
  run.
  destruct (equals (normalizeTelegramUsername (from_name m))
              (SmartWitnessConfig.telegramUser (config d))); cbn [negb].
  2:{ exists d. split; [reflexivity|]. split; [reflexivity | discriminate]. }
  match goal with
  | |- context [safeSendMessage ?c ?b ?e ?d] =>
      destruct (safeSendMessage_total c b e d)
        as (r & d1 & -> & _ & _ & H3 & _)
  end.
  match goal with
  | |- context [captureAndSendTestPhoto ?c ?x ?e ?d] =>
      destruct (captureAndSendTestPhoto_total c x e d)
        as (r2 & d2 & -> & _ & _ & _ & H3' & _)
  end.
  exists d2. split; [reflexivity|]. split; [discriminate|].
  intros _. rewrite H3'. cbn. rewrite H3. reflexivity.
Qed.

Lemma personalConfigLoop_quiet batch e d :
  forallb (fun m => negb (isPersonalConfigMessage
                            (SmartWitnessConfig.telegramUser (config d)) m)) batch
  = true ->
  personalConfigLoop batch e d = Done false d.
Proof.
  induction batch as [|m rest IH]; cbn [forallb personalConfigLoop]; [reflexivity|].
  intros H. apply andb_true_iff in H. destruct H as [Hm Hrest].
  apply negb_true_iff in Hm.
  destruct (handlePersonalConfigMessage_decides m e d) as (d' & Hrun & Hsame & _).
  unfold bind. rewrite Hrun, Hm, (Hsame Hm). now apply IH.
Qed.

(** The loop of [pollForGroupDetection] stops at the first message that
    passes the group test and binds the group chat to its chat. *)
Lemma groupDetectionLoop_decides batch e d :
  let personal := AutoTelegramSession.personalChatId (autoSession d) in
  exists d',
    groupDetectionLoop batch e d
    = Done (existsb (isGroupEvidence personal) batch) d'
    /\ match find (isGroupEvidence personal) batch with
       | Some m =>
           AutoTelegramSession.groupChatId (autoSession d') = chat_id m
           /\ AutoTelegramSession.personalChatId (autoSession d') = personal
           /\ currentState d' = currentState d
       | None => d' = d
       end.
Proof.
  cbn zeta. induction batch as [|m rest IH]; cbn [groupDetectionLoop existsb find].
  - exists d. split; reflexivity.
  - unfold bind at 1, get at 1. unfold isGroupEvidence at 1 3.
    destruct (isGroup (chat_id m)); cbn [andb]; [|exact IH].
    destruct (groupAdditionIndicated _ _ _); [|exact IH].
    run.
    match goal with
    | |- context [safeSendMessage ?c ?b ?e ?d] =>
        destruct (safeSendMessage_total c b e d)
          as (r & d1 & -> & H1 & _ & H3 & _)
    end.
    match goal with
    | |- context [safeSendMessage ?c ?b ?e ?d] =>
        destruct (safeSendMessage_total c b e d)
          as (r2 & d2 & -> & H1' & _ & H3' & _)
    end.
    exists d2. split; [reflexivity|]. cbn in *.
    rewrite H3', H1', H3, H1. cbn. repeat split.
Qed.

Lemma groupDetectionLoop_quiet batch e d :
  forallb (fun m => negb (isGroupEvidence
                            (AutoTelegramSession.personalChatId (autoSession d)) m))
          batch = true ->
  groupDetectionLoop batch e d = Done false d.
Proof.
  intros H. destruct (groupDetectionLoop_decides batch e d) as (d' & Hrun & Hfind).
  assert (Hnone : forall m, In m batch ->
            isGroupEvidence (AutoTelegramSession.personalChatId (autoSession d)) m
            = false).
  { intros m Hm. rewrite forallb_forall in H. apply negb_true_iff. now apply H. }
  assert (He : existsb (isGroupEvidence
                          (AutoTelegramSession.personalChatId (autoSession d))) batch
               = false).
  { apply not_true_iff_false. intros Hex. apply existsb_exists in Hex.
    destruct Hex as (m & Hm & Hev). rewrite (Hnone m Hm) in Hev. discriminate. }
  destruct (find _ batch) as [m|] eqn:F.
  - apply find_some in F. destruct F as [Hin Hev].
    rewrite (Hnone m Hin) in Hev. discriminate.
  - rewrite Hrun, He, Hfind. reflexivity.
Qed.

(** *** Passes of the two polling phases *)

Lemma forallb_batchFrom {P : telegramMessage -> bool} limit offset pending :
  forallb P pending = true -> forallb P (batchFrom limit offset pending) = true.
Proof.
  rewrite !forallb_forall. intros H m Hm. apply H.
  unfold batchFrom in Hm. apply In_firstn, filter_In in Hm. tauto.
Qed.

Lemma poll_fetch k e d b :
  bot d = Some b ->
  exists n,
    getNewUpdates e (countPoll d) = Done n (afterFetch e (countPoll d)) /\
    (n <= 0 \/
     receivedMessages n e (afterFetch e (countPoll d))
     = Done (observedBy e d) (afterFetch e (countPoll d))) /\
    hasBot (afterFetch e (countPoll d)) /\
    pollCall k e d
    = bind getNewUpdates
        (fun n => if n <=? 0 then ret false
                  else bind (receivedMessages n)
                         (match k with
                          | PersonalPoll => personalConfigLoop
                          | GroupPoll => groupDetectionLoop
                          end)) e (countPoll d).
Proof.
  intros Hb. assert (Hb0 : bot (countPoll d) = Some b) by exact Hb.
  destruct (getNewUpdates_run e (countPoll d) b Hb0) as (n & Hn & Hfull).
  destruct (bot_afterFetch e (countPoll d) b Hb0) as (b' & Hb').
  exists n. split; [exact Hn|]. split; [|split].
  - destruct (Z.leb_spec n 0) as [Hle|Hgt]; [now left | right].
    unfold receivedMessages, bind, get, ret. rewrite Hb'.
    assert (Hm : messages b' = observedBy e d).
    { unfold afterFetch in Hb'. destruct (fetch e) eqn:F.
      - unfold getNewUpdates, lastMessageReceived, getUpdates, bind, get, ask,
          ret in Hn. repeat (rewrite ?Hb0, ?F in Hn; cbn in Hn).
        injection Hn as <-. lia.
      - cbn in Hb'. injection Hb' as <-. reflexivity. }
    rewrite Hm. f_equal. apply (Hfull Hgt).
  - unfold hasBot. congruence.
  - destruct k; reflexivity.
Qed.

Lemma pollForPersonalConfig_quiet e d b :
  bot d = Some b ->
  noPersonalConfigMessage (SmartWitnessConfig.telegramUser (config d)) e = true ->
  pollForPersonalConfig e d = Done false (afterFetch e (countPoll d)).
Proof.
  intros Hb Hq.
  destruct (poll_fetch PersonalPoll e d b Hb) as (n & Hn & Hrecv & _ & Hcall).
  cbn [pollCall] in Hcall. rewrite Hcall. unfold bind at 1. rewrite Hn.
  destruct (Z.leb_spec n 0) as [Hle|Hgt]; [reflexivity|].
  destruct Hrecv as [Hle|Hrecv]; [lia|].
  unfold bind. rewrite Hrecv. apply personalConfigLoop_quiet.
  unfold noPersonalConfigMessage in Hq. unfold observedBy.
  replace (config (afterFetch e (countPoll d))) with (config d)
    by (unfold afterFetch; destruct (fetch e); reflexivity).
  destruct (fetch e); [reflexivity|]. now apply forallb_batchFrom.
Qed.

Lemma pollForGroupDetection_quiet e d b :
  bot d = Some b ->
  noGroupEvidence (AutoTelegramSession.personalChatId (autoSession d)) e = true ->
  pollForGroupDetection e d = Done false (afterFetch e (countPoll d)).
Proof.
  intros Hb Hq.
  destruct (poll_fetch GroupPoll e d b Hb) as (n & Hn & Hrecv & _ & Hcall).
  cbn [pollCall] in Hcall. rewrite Hcall. unfold bind at 1. rewrite Hn.
  destruct (Z.leb_spec n 0) as [Hle|Hgt]; [reflexivity|].
  destruct Hrecv as [Hle|Hrecv]; [lia|].
  unfold bind. rewrite Hrecv. apply groupDetectionLoop_quiet.
  unfold noGroupEvidence in Hq. unfold observedBy.
  replace (autoSession (afterFetch e (countPoll d))) with (autoSession (countPoll d))
    by (unfold afterFetch; destruct (fetch e); reflexivity).
  destruct (fetch e); [reflexivity|]. now apply forallb_batchFrom.
Qed.

Lemma Quiet_afterFetch e d b :
  bot d = Some b -> Quiet d (afterFetch e (countPoll d)).
Proof.
  intros Hb. destruct (bot_afterFetch e (countPoll d) b Hb) as (b' & Hb').
  unfold Quiet, hasBot. rewrite Hb'.
  unfold afterFetch. destruct (fetch e); cbn; repeat split; discriminate.
Qed.

Lemma Quiet_set_clock t d : hasBot d -> Quiet d (set_clock t d).
Proof. intros H. unfold Quiet. repeat split. exact H. Qed.

Lemma Quiet_trans a b c : Quiet a b -> Quiet b c -> Quiet a c.
Proof. unfold Quiet. intuition congruence. Qed.

(** Inside the deadline, a pass of the personal phase that finds no
    matching message stays in the phase, whatever the attempt counter. *)
Lemma personal_pass_quiet e d b :
  currentState d = AUTO_PERSONAL_CONFIG ->
  bot d = Some b ->
  quietPersonalPass d (clock d, e) = true ->
  exists d', loop e d = Done tt d' /\ Quiet d d'.
Proof.
  intros Hs Hb Hq. unfold quietPersonalPass in Hq. cbn [fst snd] in Hq.
  apply andb_true_iff in Hq. destruct Hq as [Hin Hno].
  apply negb_true_iff in Hin. unfold personalDeadlinePassed in Hin.
  unfold loop, bind at 1, get at 1. rewrite Hs.
  unfold handleAutoPersonalConfig. run. rewrite Hin.
  destruct (usub (clock d) (lastPollPersonal d) >=? 2000).
  - rewrite (pollForPersonalConfig_quiet e (set_lastPollPersonal (clock d) d) b Hb Hno).
    eexists; split; [reflexivity|].
    assert (Q : Quiet d (afterFetch e (countPoll (set_lastPollPersonal (clock d) d)))).
    { eapply Quiet_trans;
        [|apply (Quiet_afterFetch e (set_lastPollPersonal (clock d) d) b Hb)].
      unfold Quiet, hasBot. cbn. rewrite Hb. repeat split; discriminate. }
    eapply Quiet_trans; [exact Q | apply Quiet_set_clock, Q].
  - eexists. split; [reflexivity|]. apply Quiet_set_clock.
    unfold hasBot. congruence.
Qed.

Lemma group_pass_quiet e d b :
  currentState d = AUTO_GROUP_WAIT ->
  bot d = Some b ->
  quietGroupPass d (clock d, e) = true ->
  exists d', loop e d = Done tt d' /\ Quiet d d'.
Proof.
  intros Hs Hb Hq. unfold quietGroupPass in Hq. cbn [fst snd] in Hq.
  apply andb_true_iff in Hq. destruct Hq as [Hin Hno].
  apply negb_true_iff in Hin. unfold groupDeadlinePassed in Hin.
  unfold loop, bind at 1, get at 1. rewrite Hs.
  unfold handleAutoGroupWait. run. rewrite Hin.
  destruct (usub (clock d) (lastPollGroup d) >=? 2000).
  - rewrite (pollForGroupDetection_quiet e (set_lastPollGroup (clock d) d) b Hb Hno).
    eexists; split; [reflexivity|].
    assert (Q : Quiet d (afterFetch e (countPoll (set_lastPollGroup (clock d) d)))).
    { eapply Quiet_trans;
        [|apply (Quiet_afterFetch e (set_lastPollGroup (clock d) d) b Hb)].
      unfold Quiet, hasBot. cbn. rewrite Hb. repeat split; discriminate. }
    eapply Quiet_trans; [exact Q | apply Quiet_set_clock, Q].
  - eexists. split; [reflexivity|]. apply Quiet_set_clock.
    unfold hasBot. congruence.
Qed.

(** *** Runs of passes *)

Lemma loopPasses_app p1 p2 d :
  loopPasses (p1 ++ p2)%list d
  = match loopPasses p1 d with
    | Done _ d1 => loopPasses p2 d1
    | Crash => Crash
    end.
Proof.
  revert d. induction p1 as [|[t e] p1 IH]; intros d; cbn [loopPasses app].
  - now destruct (loopPasses p2 d).
  - destruct (loop e (set_clock t d)); [apply IH | reflexivity].
Qed.

Lemma forallb_pointwise {A} (f g : A -> bool) (l : list A) :
  (forall x, f x = g x) -> forallb f l = forallb g l.
Proof. intros H. induction l as [|x l IH]; cbn; [reflexivity | now rewrite H, IH]. Qed.

Lemma quietPersonalPass_Quiet d d' pass :
  Quiet d d' -> quietPersonalPass d' pass = quietPersonalPass d pass.
Proof.
  intros (_ & Hc & Hp & _). unfold quietPersonalPass, personalDeadlinePassed.
  now rewrite Hc, Hp.
Qed.

Lemma quietGroupPass_Quiet d d' pass :
  Quiet d d' -> quietGroupPass d' pass = quietGroupPass d pass.
Proof.
  intros (_ & _ & Hp & Hc & _). unfold quietGroupPass, groupDeadlinePassed.
  now rewrite Hc, Hp.
Qed.

Lemma personal_passes_quiet passes : forall d,
  currentState d = AUTO_PERSONAL_CONFIG ->
  hasBot d ->
  forallb (quietPersonalPass d) passes = true ->
  exists d', loopPasses passes d = Done tt d' /\ Quiet d d'.
Proof.
  induction passes as [|[t e] rest IH]; intros d Hs Hb Hq.
  - exists d. split; [reflexivity|]. unfold Quiet. repeat split. exact Hb.
  - cbn [forallb] in Hq. apply andb_true_iff in Hq. destruct Hq as [Hq Hrest].
    destruct (bot d) as [b|] eqn:Eb; [|now elim Hb].
    destruct (personal_pass_quiet e (set_clock t d) b Hs Eb Hq) as (d1 & Hrun & Q1).
    assert (Q : Quiet d d1).
    { eapply Quiet_trans; [apply (Quiet_set_clock t d Hb) | exact Q1]. }
    cbn [loopPasses]. rewrite Hrun.
    destruct (IH d1) as (d2 & Hrun2 & Q2).
    + destruct Q as (-> & _). exact Hs.
    + apply Q.
    + rewrite <- Hrest. apply forallb_pointwise.
      intros pass. apply quietPersonalPass_Quiet, Q.
    + exists d2. split; [exact Hrun2 | eapply Quiet_trans; eassumption].
Qed.

Lemma group_passes_quiet passes : forall d,
  currentState d = AUTO_GROUP_WAIT ->
  hasBot d ->
  forallb (quietGroupPass d) passes = true ->
  exists d', loopPasses passes d = Done tt d' /\ Quiet d d'.
Proof.
  induction passes as [|[t e] rest IH]; intros d Hs Hb Hq.
  - exists d. split; [reflexivity|]. unfold Quiet. repeat split. exact Hb.
  - cbn [forallb] in Hq. apply andb_true_iff in Hq. destruct Hq as [Hq Hrest].
    destruct (bot d) as [b|] eqn:Eb; [|now elim Hb].
    destruct (group_pass_quiet e (set_clock t d) b Hs Eb Hq) as (d1 & Hrun & Q1).
    assert (Q : Quiet d d1).
    { eapply Quiet_trans; [apply (Quiet_set_clock t d Hb) | exact Q1]. }
    cbn [loopPasses]. rewrite Hrun.
    destruct (IH d1) as (d2 & Hrun2 & Q2).
    + destruct Q as (-> & _). exact Hs.
    + apply Q.
    + rewrite <- Hrest. apply forallb_pointwise.
      intros pass. apply quietGroupPass_Quiet, Q.
    + exists d2. split; [exact Hrun2 | eapply Quiet_trans; eassumption].
Qed.

(** C6: once the deadline of the personal phase has passed without a
    matching message, the next pass of the loop puts the machine in
    [ERROR]; no chat is bound and neither the group phase nor the operational
    state is entered. *)
Theorem personal_deadline_fails
  (passes : list (Z * Env)) (now : Z) (e : Env) (d : Device)
  (b : UniversalTelegramBot) :
  currentState d = AUTO_PERSONAL_CONFIG ->
  bot d = Some b ->
  forallb (quietPersonalPass d) passes = true ->
  personalDeadlinePassed now d = true ->
  exists d',
    loopPasses (passes ++ [(now, e)]) d = Done tt d' /\
    currentState d' = ERROR /\
    AutoTelegramSession.personalChatId (autoSession d')
    = AutoTelegramSession.personalChatId (autoSession d) /\
    AutoTelegramSession.groupChatId (autoSession d')
    = AutoTelegramSession.groupChatId (autoSession d) /\
    config d' = config d.
Proof.
  intros Hs Hb Hq Hlate.
  destruct (personal_passes_quiet passes d Hs) as (d1 & Hrun & Q);
    [unfold hasBot; congruence | exact Hq |].
  destruct Q as (Hs1 & Hc1 & Hp1 & Hpc1 & Hgc1 & _).
  rewrite loopPasses_app, Hrun. cbn [loopPasses].
  unfold loop, bind at 1, get at 1. cbn [currentState set_clock].
  rewrite Hs1, Hs. unfold handleAutoPersonalConfig. run.
  unfold personalDeadlinePassed in Hlate. cbn [autoSession set_clock clock].
  rewrite Hp1, Hlate.
  eexists; split; [reflexivity|]. cbn. auto.
Qed.

Lemma personal_deadline_fails_witness :
  personalDeadlinePassed 193701 personalPhaseA = true /\
  exists d',
    loopPasses ([(14000, world []);
                 (16000, world [message 2 "4242" "hello" "Alice"])]
                ++ [(193701, world [])]) personalPhaseA = Done tt d' /\
    currentState d' = ERROR /\
    AutoTelegramSession.personalChatId (autoSession d')
    = AutoTelegramSession.personalChatId (autoSession personalPhaseA) /\
    AutoTelegramSession.groupChatId (autoSession d')
    = AutoTelegramSession.groupChatId (autoSession personalPhaseA) /\
    config d' = config personalPhaseA.
Proof.
  split; [reflexivity|].
  apply (personal_deadline_fails _ 193701 (world []) personalPhaseA
           {| last_message_received := 1; messages := [claimA] |});
    reflexivity.
Defined.

(** C7: once the deadline of the group phase has passed without a
    qualifying message, the next pass of the loop puts the machine in
    [AUTO_OPERATIONAL]; the group chat is still unbound and the personal
    binding is what it was. *)
Theorem group_deadline_is_soft
  (passes : list (Z * Env)) (now : Z) (e : Env) (d : Device)
  (b : UniversalTelegramBot) :
  currentState d = AUTO_GROUP_WAIT ->
  bot d = Some b ->
  AutoTelegramSession.groupChatId (autoSession d) = "" ->
  forallb (quietGroupPass d) passes = true ->
  groupDeadlinePassed now d = true ->
  exists d',
    loopPasses (passes ++ [(now, e)]) d = Done tt d' /\
    currentState d' = AUTO_OPERATIONAL /\
    AutoTelegramSession.groupChatId (autoSession d') = "" /\
    AutoTelegramSession.personalChatId (autoSession d')
    = AutoTelegramSession.personalChatId (autoSession d) /\
    config d' = config d.
Proof.
  intros Hs Hb Hg Hq Hlate.
  destruct (group_passes_quiet passes d Hs) as (d1 & Hrun & Q);
    [unfold hasBot; congruence | exact Hq |].
  destruct Q as (Hs1 & Hc1 & Hp1 & Hpc1 & Hgc1 & _).
  rewrite loopPasses_app, Hrun. cbn [loopPasses].
  unfold loop, bind at 1, get at 1. cbn [currentState set_clock].
  rewrite Hs1, Hs. unfold handleAutoGroupWait. run.
  unfold groupDeadlinePassed in Hlate. cbn [autoSession set_clock clock].
  rewrite Hp1, Hlate.
  eexists; split; [reflexivity|]. cbn. rewrite Hgc1, Hg. auto.
Qed.

Lemma group_deadline_is_soft_witness :
  groupDeadlinePassed 322701 groupPhaseB = true /\
  exists d',
    loopPasses ([(25000, world [message 3 "4242" "hello" "Alice"])]
                ++ [(322701, world [])]) groupPhaseB = Done tt d' /\
    currentState d' = AUTO_OPERATIONAL /\
    AutoTelegramSession.groupChatId (autoSession d') = "" /\
    AutoTelegramSession.personalChatId (autoSession d')
    = AutoTelegramSession.personalChatId (autoSession groupPhaseB) /\
    config d' = config groupPhaseB.
Proof.
  split; [reflexivity|].
  apply (group_deadline_is_soft _ 322701 (world []) groupPhaseB
           {| last_message_received := 2;
              messages := [message 2 "-100" "/start again" "alice"] |});
    reflexivity.
Defined.

(** *** Substring tests *)

Lemma startsWith_spec (s p : string) :
  startsWith s p = true <-> exists r, s = p ++ r.
Proof.
  unfold startsWith. revert s.
  induction p as [|a p IH]; intros s.
  - split; [intros _; now exists s | intros _; now destruct s].
  - destruct s as [|c s]; cbn -[ascii_dec].
    + split; [discriminate | intros [r Hr]; discriminate].
    + destruct (ascii_dec a c) as [<-|Hne].
      * rewrite IH. split; intros [r Hr]; exists r; cbn in *; congruence.
      * split; [discriminate | intros [r Hr]; cbn in Hr; congruence].
Qed.

Lemma contains_spec (s p : string) :
  contains s p = true <-> exists a b, s = a ++ p ++ b.
Proof.
  split.
  - induction s as [|c s IH]; cbn [contains];
      destruct (String.prefix p _) eqn:E;
      try (apply startsWith_spec in E; destruct E as [r ->]; intros _;
           now exists "", r);
      [discriminate|].
    intros H. destruct (IH H) as (a & b & ->). now exists (String c a), b.
  - intros (a & b & ->). induction a as [|c a IH].
    + cbn [append]. assert (E : String.prefix p (p ++ b) = true)
        by (apply startsWith_spec; now exists b).
      destruct (p ++ b); cbn [contains]; now rewrite E.
    + cbn [append contains]. now destruct (String.prefix p _).
Qed.

Lemma equals_spec (s t : string) : equals s t = true <-> s = t.
Proof. apply String.eqb_eq. Qed.

(** *** C4: group evidence *)

(** The test made on one message, in words. *)
Lemma isGroupEvidence_spec (personal : string) (m : telegramMessage) :
  isGroupEvidence personal m = true <->
  (exists r, chat_id m = "-" ++ r) /\
  ((exists a b, text m = a ++ "added" ++ b) \/
   (exists a b, text m = a ++ "joined" ++ b) \/
   text m = "/start" \/
   (exists r, text m = "/start@" ++ r) \/
   chat_id m <> personal).
Proof.
  unfold isGroupEvidence, isGroup, groupAdditionIndicated.
  rewrite andb_true_iff, !orb_true_iff, negb_true_iff, !contains_spec,
    !startsWith_spec, equals_spec.
  unfold equals. rewrite String.eqb_neq. tauto.
Qed.

(** C4, as amended: a poll of the group phase reports group evidence
    exactly when one of the messages it is handed comes from a group chat
    (an id starting with a minus sign) and has "added" or "joined" in its
    text, or is exactly "/start", or begins with "/start@", or comes from
    a chat other than the bound personal one; the group chat is bound to the
    chat of the first such message. *)
Theorem group_evidence_classification
  (e : Env) (d : Device) (b : UniversalTelegramBot) :
  bot d = Some b ->
  let personal := AutoTelegramSession.personalChatId (autoSession d) in
  exists d',
    pollForGroupDetection e d
    = Done (existsb (isGroupEvidence personal) (observedBy e d)) d' /\
    (forall m,
        isGroupEvidence personal m = true <->
        (exists r, chat_id m = "-" ++ r) /\
        ((exists x y, text m = x ++ "added" ++ y) \/
         (exists x y, text m = x ++ "joined" ++ y) \/
         text m = "/start" \/
         (exists r, text m = "/start@" ++ r) \/
         chat_id m <> personal)) /\
    match find (isGroupEvidence personal) (observedBy e d) with
    | Some m => AutoTelegramSession.groupChatId (autoSession d') = chat_id m
    | None => AutoTelegramSession.groupChatId (autoSession d')
              = AutoTelegramSession.groupChatId (autoSession d)
    end.
Proof.
  intros Hb personal.
  destruct (poll_fetch GroupPoll e d b Hb) as (n & Hn & Hrecv & _ & Hcall).
  cbn [pollCall] in Hcall. rewrite Hcall. unfold bind at 1. rewrite Hn.
  assert (Hauto : autoSession (afterFetch e (countPoll d)) = autoSession (countPoll d))
    by (unfold afterFetch; destruct (fetch e); reflexivity).
  destruct (Z.leb_spec n 0) as [Hle|Hgt].
  - assert (Hnil : observedBy e d = []).
    { unfold getNewUpdates, lastMessageReceived, getUpdates, bind, get, ask,
        ret, modify in Hn.
      assert (Hb0 : bot (countPoll d) = Some b) by exact Hb.
      unfold observedBy, cursor. rewrite Hb.
      destruct (fetch e) eqn:F; [reflexivity|].
      repeat (rewrite ?Hb0, ?F in Hn; cbn in Hn).
      injection Hn as Hlen _. destruct (batchFrom _ _ _); [reflexivity|].
      cbn in Hlen. lia. }
    rewrite Hnil. eexists; split; [reflexivity|].
    split; [intro m; apply isGroupEvidence_spec|].
    cbn. now rewrite Hauto.
  - destruct Hrecv as [Hle|Hrecv]; [lia|].
    unfold bind. rewrite Hrecv.
    destruct (groupDetectionLoop_decides (observedBy e d) e
                (afterFetch e (countPoll d))) as (d' & Hrun & Hfind).
    rewrite Hauto in Hrun, Hfind. cbn in Hrun, Hfind. fold personal in Hrun, Hfind.
    exists d'. split; [exact Hrun|].
    split; [intro m; apply isGroupEvidence_spec|].
    destruct (find _ _); [apply Hfind|]. rewrite Hfind, Hauto. reflexivity.
Qed.

Lemma group_evidence_classification_witness :
  exists d',
    pollForGroupDetection
      (world [message 3 "-100" "/start@SmartWitnessBot now" "Bob"]) groupPhaseB
    = Done true d' /\
    AutoTelegramSession.groupChatId (autoSession d') = "-100".
Proof.
  destruct (group_evidence_classification
              (world [message 3 "-100" "/start@SmartWitnessBot now" "Bob"])
              groupPhaseB
              {| last_message_received := 2;
                 messages := [message 2 "-100" "/start again" "alice"] |}
              eq_refl) as (d' & Hrun & _ & Hbound).
  exists d'. split; [exact Hrun | exact Hbound].
Defined.

(** C4, against the claim as stated: a message in the bound chat whose text
    begins with "/start@" and goes on is taken for group evidence, though it
    has no member-added indicator, is not the bare start command and comes
    from no other chat. *)
Lemma start_at_prefix_is_taken_for_evidence :
  let m := message 3 "-100" "/start@SmartWitnessBot now" "Bob" in
  AutoTelegramSession.personalChatId (autoSession groupPhaseB) = "-100" /\
  groupEvidenceAsSpecified "-100" m = false /\
  exists d',
    pollForGroupDetection (world [m]) groupPhaseB = Done true d' /\
    AutoTelegramSession.groupChatId (autoSession d') = "-100".
Proof.
  cbv zeta. split; [reflexivity|]. split; [reflexivity|].
  eexists. split; [vm_compute; reflexivity | reflexivity].
Qed.

(** *** C1, C2, C3: what the two claim handlers accept *)

(** C1, at the failing input: the token issued in scenario A is
    DEVICE_FIXED_AABBCCDDEEFF_4700; a text that carries it and then goes on
    is accepted by both handlers, which bind the chat it came from. *)
Theorem start_command_accepts_trailing_text :
  let body := "/start DEVICE_FIXED_AABBCCDDEEFF_4700 extra" in
  equals body ("/start " ++ BLESession.deviceId (bleSession configuredA)) = false /\
  (exists d',
      handleAutoResponseMessage "4242" body "Alice" "1001" (world []) configuredA
      = Done true d' /\
      SmartWitnessConfig.personalChatId (config d') = "4242") /\
  (exists d',
      handlePersonalConfigMessage "4242" body "Alice" (world []) personalPhaseA
      = Done true d' /\
      AutoTelegramSession.personalChatId (autoSession d') = "4242").
Proof.
  cbv zeta. split; [vm_compute; reflexivity|].
  split; eexists; (split; [vm_compute; reflexivity | reflexivity]).
Qed.

(** C2, at the failing input: the personal phase of scenario A starts at
    clock 13700 and generates the fresh id DEVICE_FIXED_AABBCCDDEEFF_13700;
    a message that carries the id of the BLE session before it,
    DEVICE_FIXED_AABBCCDDEEFF_4700, is accepted all the same. *)
Theorem earlier_token_is_still_accepted :
  BLESession.deviceId (bleSession configuredA) = "DEVICE_FIXED_AABBCCDDEEFF_4700" /\
  AutoTelegramSession.phaseStartTime (autoSession personalPhaseA) = 13700 /\
  generateDeviceId (world []) (set_clock 13700 personalPhaseA)
  = Done "DEVICE_FIXED_AABBCCDDEEFF_13700" (set_clock 13700 personalPhaseA) /\
  exists d',
    handlePersonalConfigMessage "4242" "/start DEVICE_FIXED_AABBCCDDEEFF_4700"
      "Alice" (world []) personalPhaseA
    = Done true d' /\
    AutoTelegramSession.personalChatId (autoSession d') = "4242".
Proof.
  split; [vm_compute; reflexivity|]. split; [vm_compute; reflexivity|].
  split; [vm_compute; reflexivity|].
  eexists. split; [vm_compute; reflexivity | reflexivity].
Qed.

(** C3, at the failing input: in scenario A the expected owner is @alice;
    the auto-response handler accepts the issued token from a sender whose
    normalized name is @mallory, binds that sender's chat and completes the
    configuration. *)
Theorem auto_response_accepts_any_sender :
  BLESession.expectedTelegramUser (bleSession configuredA) = "@alice" /\
  normalizeTelegramUsername "Mallory" = "@mallory" /\
  exists d',
    handleAutoResponseMessage "666" "/start DEVICE_FIXED_AABBCCDDEEFF_4700"
      "Mallory" "6660" (world []) configuredA
    = Done true d' /\
    SmartWitnessConfig.personalChatId (config d') = "666" /\
    BLESession.isComplete (bleSession d') = true.
Proof.
  split; [vm_compute; reflexivity|]. split; [vm_compute; reflexivity|].
  eexists. split; [vm_compute; reflexivity | split; reflexivity].
Qed.

(** *** Batches served in the order of the ids *)

Lemma ascending_sorted (l : list Z) : ascending l = true -> StronglySorted Z.lt l.
Proof.
  induction l as [|a l IH]; [constructor|].
  destruct l as [|b l]; [repeat constructor|].
  cbn [ascending]. intros H. apply andb_true_iff in H. destruct H as [Hab Hl].
  apply Z.ltb_lt in Hab. specialize (IH Hl).
  constructor; [exact IH|].
  constructor; [exact Hab|].
  apply StronglySorted_inv in IH. destruct IH as [_ Hb].
  eapply Forall_impl; [|exact Hb]. cbn; intros; lia.
Qed.

Lemma sorted_filter_map (f : telegramMessage -> bool) (l : list telegramMessage) :
  StronglySorted Z.lt (List.map update_id l) ->
  StronglySorted Z.lt (List.map update_id (filter f l)).
Proof.
  induction l as [|m l IH]; cbn; [constructor|].
  intros H. apply StronglySorted_inv in H. destruct H as [Hl Hm].
  destruct (f m); cbn; [|now apply IH].
  constructor; [now apply IH|].
  rewrite Forall_forall in *. intros z Hz. apply Hm.
  apply in_map_iff in Hz. destruct Hz as (x & <- & Hx).
  apply filter_In in Hx. apply in_map. tauto.
Qed.

Lemma sorted_firstn_map (n : nat) (l : list telegramMessage) :
  StronglySorted Z.lt (List.map update_id l) ->
  StronglySorted Z.lt (List.map update_id (firstn n l)).
Proof.
  revert l. induction n as [|n IH]; intros [|m l] H; cbn; try constructor.
  - apply StronglySorted_inv in H. now apply IH.
  - apply StronglySorted_inv in H. destruct H as [_ Hm].
    rewrite Forall_forall in *. intros z Hz. apply Hm.
    apply in_map_iff in Hz. destruct Hz as (x & <- & Hx).
    apply in_map. eapply In_firstn, Hx.
Qed.

Lemma sorted_last_bounds (l : list Z) (x : Z) :
  StronglySorted Z.lt l -> Forall (fun z => z <= last l x) l.
Proof.
  induction 1 as [|a l Hl IH Ha]; [constructor|].
  rewrite last_cons_default. constructor.
  - apply (last_Forall (fun z => a <= z)); [|lia].
    eapply Forall_impl; [|exact Ha]. cbn; intros; lia.
  - destruct l as [|b l]; [constructor|].
    rewrite last_cons_default in IH |- *. exact IH.
Qed.

Lemma sorted_app (l1 l2 : list Z) (c : Z) :
  StronglySorted Z.lt l1 -> StronglySorted Z.lt l2 ->
  Forall (fun z => z <= c) l1 -> Forall (fun z => c < z) l2 ->
  StronglySorted Z.lt (l1 ++ l2)%list.
Proof.
  intros H1 H2 Hle Hgt. induction H1 as [|a l1 Hl IH Ha]; [exact H2|].
  cbn. apply Forall_cons_iff in Hle. destruct Hle as [Hac Hle].
  constructor; [now apply IH|].
  apply Forall_app. split; [exact Ha|].
  eapply Forall_impl; [|exact Hgt]. cbn; intros; lia.
Qed.

Lemma observedBy_sorted e d :
  servedInOrder e = true ->
  StronglySorted Z.lt (List.map update_id (observedBy e d)).
Proof.
  unfold servedInOrder, observedBy, batchFrom. destruct (fetch e); [constructor|].
  intros H. now apply sorted_firstn_map, sorted_filter_map, ascending_sorted.
Qed.

(** *** C9, C10: the owner identity *)

Ltac tidy :=
  cbn -[toUpperCase utoa normalizeTelegramUsername uadd usub String.append
        length Z.ltb Z.gtb Z.geb Z.leb Z.eqb].

(** C9, as amended: a payload is turned down with the status
    error_invalid_telegram_user exactly when none of its three fields is
    empty and the normalized owner identity fails the format check (2 to 33
    characters, the sigil first, then lowercase letters, digits and
    underscores only).  A payload with an empty field is turned down with
    error_invalid_data before the identity is looked at.  Either way nothing
    but the status changes; a payload that passes both tests has its
    normalized identity taken as the expected owner. *)
Theorem invalid_owner_identity_iff (p : ConfigPayload) (e : Env) (d : Device) :
  exists d',
    processBLEConfiguration p e d = Done tt d' /\
    (lastStatus d' = "error_invalid_telegram_user" <->
     requiredFieldsPresent p = true /\
     ~ IdentityFormat (normalizeTelegramUsername (telegramUser p))) /\
    (requiredFieldsPresent p = false ->
     lastStatus d' = "error_invalid_data" /\
     config d' = config d /\ bleSession d' = bleSession d) /\
    (requiredFieldsPresent p = true ->
     ~ IdentityFormat (normalizeTelegramUsername (telegramUser p)) ->
     config d' = config d /\ bleSession d' = bleSession d) /\
    (requiredFieldsPresent p = true ->
     IdentityFormat (normalizeTelegramUsername (telegramUser p)) ->
     BLESession.configReceived (bleSession d') = true /\
     BLESession.expectedTelegramUser (bleSession d')
     = normalizeTelegramUsername (telegramUser p)).
Proof.
  pose proof (validateTelegramUsername_spec (telegramUser p)) as V.
  unfold requiredFieldsPresent.
  unfold processBLEConfiguration. run.
  destruct ((length (ssid p) =? 0) || (length (password p) =? 0)
            || (length (telegramUser p) =? 0)); cbn [negb].
  - eexists; split; [reflexivity|]. cbn.
    split; [split; [discriminate | intros [N _]; discriminate]|].
    split; [intros _; repeat split|].
    split; discriminate.
  - destruct (validateTelegramUsername (telegramUser p)); cbn [negb].
    + assert (F : IdentityFormat (normalizeTelegramUsername (telegramUser p)))
        by now apply V.
      unfold testWiFiCredentials, setupTelegram, generateDeviceId,
        notifyDeviceIdGenerated, startTelegramAutoResponse, getUpdates.
      run.
      destruct (wifiAssociates e); run; tidy.
      * destruct (deviceConnected d); run; tidy;
          match goal with
          | |- context [if ?c then _ else _] => destruct c
          end; run; tidy;
          try (destruct (fetch e); run; tidy);
          (eexists; split; [reflexivity|]; tidy;
           split; [split; [discriminate | intros [_ N]; now destruct N]|];
           split; [discriminate|];
           split; [intros _ N; now destruct N | intros _ _; split; reflexivity]).
      * eexists; split; [reflexivity|]; tidy.
        split; [split; [discriminate | intros [_ N]; now destruct N]|].
        split; [discriminate|].
        split; [intros _ N; now destruct N | intros _ _; split; reflexivity].
    + eexists; split; [reflexivity|]. cbn.
      assert (N : ~ IdentityFormat (normalizeTelegramUsername (telegramUser p)))
        by (intros F; apply V in F; discriminate).
      split; [split; [intros _; split; [reflexivity | exact N] | reflexivity]|].
      split; [discriminate|].
      split; [intros _ _; split; reflexivity | intros _ F; now destruct N].
Qed.

Lemma invalid_owner_identity_iff_witness :
  requiredFieldsPresent payloadA = true /\
  exists d',
    processBLEConfiguration payloadA (world []) powerOn = Done tt d' /\
    (lastStatus d' = "error_invalid_telegram_user" <->
     requiredFieldsPresent payloadA = true /\
     ~ IdentityFormat (normalizeTelegramUsername (telegramUser payloadA))) /\
    (requiredFieldsPresent payloadA = false ->
     lastStatus d' = "error_invalid_data" /\
     config d' = config powerOn /\ bleSession d' = bleSession powerOn) /\
    (requiredFieldsPresent payloadA = true ->
     ~ IdentityFormat (normalizeTelegramUsername (telegramUser payloadA)) ->
     config d' = config powerOn /\ bleSession d' = bleSession powerOn) /\
    (requiredFieldsPresent payloadA = true ->
     IdentityFormat (normalizeTelegramUsername (telegramUser payloadA)) ->
     BLESession.configReceived (bleSession d') = true /\
     BLESession.expectedTelegramUser (bleSession d')
     = normalizeTelegramUsername (telegramUser payloadA)).
Proof.
  split; [reflexivity|].
  apply (invalid_owner_identity_iff payloadA (world []) powerOn).
Defined.

(** C9, against the claim as stated: an identity that fails the format
    check does not always get the invalid-owner-identity status.  The empty
    identity normalizes to the sigil alone, which is too short, but the
    payload is turned down for a missing field before the identity is looked
    at. *)
Lemma empty_identity_is_reported_as_missing_field :
  ~ (forall (p : ConfigPayload) (e : Env) (d : Device),
       exists d',
         processBLEConfiguration p e d = Done tt d' /\
         (lastStatus d' = "error_invalid_telegram_user" <->
          ~ IdentityFormat (normalizeTelegramUsername (telegramUser p)))).
Proof.
  intros H.
  destruct (H {| ssid := "home"; password := "secret1"; telegramUser := "" |}
              (world []) powerOn) as (d' & Hrun & Hiff).
  vm_compute in Hrun. injection Hrun as <-.
  assert (N : ~ IdentityFormat (normalizeTelegramUsername "")).
  { intros ((Hlen & _) & _). cbn in Hlen. lia. }
  apply Hiff in N. discriminate N.
Qed.

(** C10: normalizing an owner identity twice gives what normalizing it once
    gives. *)
Theorem normalizeTelegramUsername_idempotent (u : string) :
  normalizeTelegramUsername (normalizeTelegramUsername u)
  = normalizeTelegramUsername u.
Proof.
  set (v := toLowerCase (trim u)).
  assert (Ht : trim v = v)
    by (unfold v; now rewrite trim_toLowerCase, trim_idem).
  assert (Hl : toLowerCase v = v) by apply toLowerCase_idem.
  assert (Hn : normalizeTelegramUsername u
               = if negb (startsWith v "@") then "@" ++ v else v) by reflexivity.
  rewrite Hn.
  destruct (startsWith v "@") eqn:E; cbn [negb].
  - unfold normalizeTelegramUsername. now rewrite Ht, Hl, E.
  - change ("@" ++ v) with (String "@" v).
    unfold normalizeTelegramUsername.
    rewrite (trim_sigil v Ht).
    change (toLowerCase (String "@" v)) with (String "@" (toLowerCase v)).
    rewrite Hl.
    assert (Hs : startsWith (String "@" v) "@" = true)
      by (apply startsWith_sigil; now exists v).
    now rewrite Hs.
Qed.

(** ** Further properties of the sketch *)

(** *** More on owner identities *)

Lemma tolower_toupper (c : ascii) : tolower (toupper c) = tolower c.
Proof. destruct c as [[] [] [] [] [] [] [] []]; reflexivity. Qed.

Lemma isspace_toupper (c : ascii) : isspace (toupper c) = isspace c.
Proof. destruct c as [[] [] [] [] [] [] [] []]; reflexivity. Qed.

Lemma skipLeading_toUpperCase (s : string) :
  skipLeading (toUpperCase s) = toUpperCase (skipLeading s).
Proof.
  unfold toUpperCase.
  induction s as [|c r IH]; cbn; [reflexivity|].
  rewrite isspace_toupper. destruct (isspace c); [exact IH | reflexivity].
Qed.

Lemma dropTrailing_toUpperCase (s : string) :
  dropTrailing (toUpperCase s) = toUpperCase (dropTrailing s).
Proof.
  unfold toUpperCase.
  induction s as [|c r IH]; cbn; [reflexivity|].
  rewrite IH, isspace_toupper.
  destruct (dropTrailing r); cbn; [destruct (isspace c)|]; reflexivity.
Qed.

Lemma trim_toUpperCase (s : string) : trim (toUpperCase s) = toUpperCase (trim s).
Proof.
  unfold trim. now rewrite skipLeading_toUpperCase, dropTrailing_toUpperCase.
Qed.

Lemma toLowerCase_toUpperCase (s : string) :
  toLowerCase (toUpperCase s) = toLowerCase s.
Proof.
  unfold toLowerCase, toUpperCase.
  induction s as [|c r IH]; cbn; [reflexivity|].
  now rewrite tolower_toupper, IH.
Qed.

(** X1: owner identities are compared without regard to case or to white
    space around them: normalizing the upper-cased, the lower-cased or the
    trimmed string gives what normalizing the string itself gives. *)
Theorem normalize_ignores_case_and_margins (u : string) :
  normalizeTelegramUsername (toUpperCase u) = normalizeTelegramUsername u /\
  normalizeTelegramUsername (toLowerCase u) = normalizeTelegramUsername u /\
  normalizeTelegramUsername (trim u) = normalizeTelegramUsername u.
Proof.
  unfold normalizeTelegramUsername. repeat split.
  - now rewrite trim_toUpperCase, toLowerCase_toUpperCase.
  - now rewrite trim_toLowerCase, toLowerCase_idem.
  - now rewrite trim_idem.
Qed.

Lemma startsWith_sigil_head (c : ascii) (r : string) :
  startsWith (String c r) "@" = Ascii.eqb c "@".
Proof.
  unfold startsWith. cbn -[ascii_dec].
  destruct (ascii_dec "@" c) as [<-|Hne].
  - now destruct r.
  - symmetry. apply Ascii.eqb_neq. congruence.
Qed.

Lemma startsWith_sigil_toLowerCase (s : string) :
  startsWith (toLowerCase s) "@" = startsWith s "@".
Proof.
  destruct s as [|c r]; [reflexivity|].
  unfold toLowerCase. cbn [map]. rewrite !startsWith_sigil_head.
  destruct c as [[] [] [] [] [] [] [] []]; reflexivity.
Qed.

(** X2: the sigil is optional: for a name without white space around it
    that does not begin with the sigil, writing the sigil in front changes
    nothing in the normal form. *)
Theorem normalize_sigil_optional (u : string) :
  trim u = u ->
  startsWith u "@" = false ->
  normalizeTelegramUsername ("@" ++ u) = normalizeTelegramUsername u.
Proof.
  intros Ht Hs. unfold normalizeTelegramUsername.
  change ("@" ++ u) with (String "@" u).
  rewrite (trim_sigil u Ht), Ht.
  change (toLowerCase (String "@" u)) with (String "@" (toLowerCase u)).
  rewrite startsWith_sigil_toLowerCase, Hs.
  assert (E : startsWith (String "@" (toLowerCase u)) "@" = true)
    by (apply startsWith_sigil; now exists (toLowerCase u)).
  now rewrite E.
Qed.

Lemma normalize_sigil_optional_witness :
  trim "Alice_01" = "Alice_01" /\
  normalizeTelegramUsername ("@" ++ "Alice_01") = normalizeTelegramUsername "Alice_01".
Proof.
  split; [reflexivity|].
  apply (normalize_sigil_optional "Alice_01"); reflexivity.
Defined.

(** *** The stored owner identity *)

Lemma substring_length_le (s : string) : forall n,
  (String.length (String.substring 0 n s) <= n)%nat.
Proof.
  induction s as [|c r IH]; intros [|n]; cbn; try lia.
  specialize (IH n). lia.
Qed.

Lemma validate_nonempty (u : string) :
  validateTelegramUsername u = true -> 0 < length u.
Proof.
  destruct u; [discriminate|]. intros _. unfold length. cbn [String.length]. lia.
Qed.

(** Whatever happens after the identity check, the stored user is the first
    31 characters of the normalized identity. *)
Lemma processBLEConfiguration_stores_user (p : ConfigPayload) (e : Env) (d : Device) :
  0 < length (ssid p) ->
  0 < length (password p) ->
  validateTelegramUsername (telegramUser p) = true ->
  exists d',
    processBLEConfiguration p e d = Done tt d' /\
    SmartWitnessConfig.telegramUser (config d')
    = strncpy (normalizeTelegramUsername (telegramUser p)) 31 /\
    BLESession.expectedTelegramUser (bleSession d')
    = normalizeTelegramUsername (telegramUser p) /\
    eeprom d' = eeprom d /\
    currentState d' = currentState d /\
    autoSession d' = autoSession d /\
    SmartWitnessConfig.isConfigured (config d')
    = SmartWitnessConfig.isConfigured (config d) /\
    SmartWitnessConfig.personalChatId (config d')
    = SmartWitnessConfig.personalChatId (config d) /\
    SmartWitnessConfig.groupChatId (config d')
    = SmartWitnessConfig.groupChatId (config d) /\
    BLESession.isComplete (bleSession d') = BLESession.isComplete (bleSession d).
Proof.
  intros H1 H2 V. pose proof (validate_nonempty _ V) as H3.
  unfold processBLEConfiguration. run.
  replace (length (ssid p) =? 0) with false by (symmetry; apply Z.eqb_neq; lia).
  replace (length (password p) =? 0) with false by (symmetry; apply Z.eqb_neq; lia).
  replace (length (telegramUser p) =? 0) with false
    by (symmetry; apply Z.eqb_neq; lia).
  cbn [orb]. rewrite V. cbn [negb].
  unfold testWiFiCredentials, setupTelegram, generateDeviceId,
    notifyDeviceIdGenerated, startTelegramAutoResponse, getUpdates.
  run.
  destruct (wifiAssociates e); run; tidy.
  - destruct (deviceConnected d); run; tidy;
      match goal with
      | |- context [if ?c then _ else _] => destruct c
      end; run; tidy;
      try (destruct (fetch e); run; tidy);
      (eexists; split; [reflexivity|]; tidy; repeat split).
  - eexists; split; [reflexivity|]; tidy; repeat split.
Qed.

(** X3: an owner identity may be up to 33 characters long after
    normalization, but only its first 31 are stored.  When it is longer than
    that, the stored user differs from it, and in the personal phase no
    message of a sender with that very identity is accepted. *)
Theorem long_identity_locks_owner_out (p : ConfigPayload) (e : Env) (d : Device) :
  0 < length (ssid p) ->
  0 < length (password p) ->
  validateTelegramUsername (telegramUser p) = true ->
  31 < length (normalizeTelegramUsername (telegramUser p)) ->
  exists d',
    processBLEConfiguration p e d = Done tt d' /\
    SmartWitnessConfig.telegramUser (config d')
    <> normalizeTelegramUsername (telegramUser p) /\
    forall (later : Device) (chat body sender : string) (e' : Env),
      config later = config d' ->
      normalizeTelegramUsername sender
      = normalizeTelegramUsername (telegramUser p) ->
      handlePersonalConfigMessage chat body sender e' later = Done false later.
Proof.
  intros H1 H2 V Hlong.
  destruct (processBLEConfiguration_stores_user p e d H1 H2 V)
    as (d' & Hrun & Hstored & _).
  assert (Hne : SmartWitnessConfig.telegramUser (config d')
                <> normalizeTelegramUsername (telegramUser p)).
  { rewrite Hstored. intros E.
    pose proof (substring_length_le (normalizeTelegramUsername (telegramUser p)) 31)
      as Hle.
    unfold strncpy in E. rewrite E in Hle. unfold length in Hlong. lia. }
  exists d'. split; [exact Hrun|]. split; [exact Hne|].
  intros later chat body sender e' Hcfg Hsender.
  destruct (handlePersonalConfigMessage_decides
              {| update_id := 0; chat_id := chat; text := body;
                 from_name := sender; from_id := "" |} e' later)
    as (d2 & Hrun2 & Hsame & _).
  cbn [chat_id text from_name] in Hrun2.
  assert (Hno : isPersonalConfigMessage
                  (SmartWitnessConfig.telegramUser (config later))
                  {| update_id := 0; chat_id := chat; text := body;
                     from_name := sender; from_id := "" |} = false).
  { unfold isPersonalConfigMessage. cbn [text from_name].
    rewrite Hcfg, Hsender.
    replace (equals _ _) with false; [apply andb_false_r|].
    symmetry. apply String.eqb_neq. congruence. }
  rewrite Hno in Hrun2. rewrite (Hsame Hno) in Hrun2. exact Hrun2.
Qed.

Lemma long_identity_locks_owner_out_witness :
  31 < length (normalizeTelegramUsername "a234567890123456789012345678901") /\
  exists d',
    processBLEConfiguration
      {| ssid := "home"; password := "secret1";
         telegramUser := "a234567890123456789012345678901" |} (world []) advertising
    = Done tt d' /\
    SmartWitnessConfig.telegramUser (config d')
    <> normalizeTelegramUsername "a234567890123456789012345678901" /\
    forall (later : Device) (chat body sender : string) (e' : Env),
      config later = config d' ->
      normalizeTelegramUsername sender
      = normalizeTelegramUsername "a234567890123456789012345678901" ->
      handlePersonalConfigMessage chat body sender e' later = Done false later.
Proof.
  split; [reflexivity|].
  apply (long_identity_locks_owner_out
           {| ssid := "home"; password := "secret1";
              telegramUser := "a234567890123456789012345678901" |}
           (world []) advertising); reflexivity.
Defined.

(** *** Device ids *)

Lemma render_app (a b : list Z) (acc : string) :
  render (a ++ b)%list ++ acc = render a ++ (render b ++ acc).
Proof. induction a as [|x a IH]; cbn; [reflexivity | now rewrite IH]. Qed.

(** [utoaLoop] prints the digits of [n], most significant first, in front of
    [acc]: at most [k] of them when [n < base ^ k]. *)
Lemma utoaLoop_digits (base : Z) :
  2 <= base ->
  forall (fuel k : nat) (n : Z) (acc : string),
    (0 < k <= fuel)%nat ->
    0 <= n < base ^ Z.of_nat k ->
    exists ds : list Z,
      utoaLoop fuel base n acc = render ds ++ acc /\
      Forall (fun x => 0 <= x < base) ds /\
      (List.length ds <= k)%nat /\
      fold_left (fun v x => v * base + x) ds 0 = n.
Proof.
  intros Hbase. induction fuel as [|fuel IH]; intros k n acc Hk Hn; [lia|].
  cbn [utoaLoop].
  assert (Hmod : 0 <= n mod base < base) by (apply Z.mod_pos_bound; lia).
  destruct (Z.eqb_spec (n / base) 0) as [Hz|Hnz].
  - exists [n mod base]. repeat split.
    + repeat constructor; lia.
    + cbn. lia.
    + cbn. rewrite (Z.div_mod n base) at 2 by lia. rewrite Hz. lia.
  - assert (Hk1 : (1 < k)%nat).
    { destruct k as [|[|k]]; try lia. exfalso. apply Hnz.
      apply Z.div_small. cbn in Hn. lia. }
    destruct (IH (k - 1)%nat (n / base) (String (digitChar (n mod base)) acc))
      as (ds & Hrun & Hds & Hlen & Hval); [lia| |].
    + split; [apply Z.div_pos; lia|].
      apply Z.div_lt_upper_bound; [lia|].
      replace (Z.of_nat k) with (Z.succ (Z.of_nat (k - 1))) in Hn by lia.
      rewrite Z.pow_succ_r in Hn by lia. lia.
    + exists (ds ++ [n mod base])%list. repeat split.
      * rewrite Hrun, render_app. reflexivity.
      * apply Forall_app. split; [exact Hds | repeat constructor; lia].
      * rewrite length_app. cbn. lia.
      * rewrite fold_left_app. cbn. rewrite Hval.
        rewrite (Z.div_mod n base) at 3 by lia. lia.
Qed.

Lemma digitValue_digitChar (x : Z) : 0 <= x < 10 -> digitValue (digitChar x) = x.
Proof.
  intros H. unfold digitValue, digitChar.
  replace (x <? 10) with true by (symmetry; apply Z.ltb_lt; lia).
  rewrite nat_ascii_embedding by lia. lia.
Qed.

Lemma readDecimal_render (ds : list Z) : forall acc,
  Forall (fun x => 0 <= x < 10) ds ->
  readDecimal acc (render ds) = fold_left (fun v x => v * 10 + x) ds acc.
Proof.
  induction ds as [|x ds IH]; intros acc H; cbn; [reflexivity|].
  apply Forall_cons_iff in H. destruct H as [Hx Hds].
  rewrite digitValue_digitChar by exact Hx. now apply IH.
Qed.

Lemma append_empty_r (s : string) : s ++ "" = s.
Proof. induction s as [|c s IH]; cbn; [reflexivity | now rewrite IH]. Qed.

(** [String(n)] read back as a number is [n]. *)
Lemma utoa_decimal_round_trip (n : Z) :
  0 <= n < 2 ^ 32 -> readDecimal 0 (utoa n 10) = n.
Proof.
  intros Hn. unfold utoa.
  destruct (utoaLoop_digits 10 ltac:(lia) 64 10 n "")
    as (ds & Hrun & Hds & _ & Hval); [lia | cbn; lia |].
  rewrite Hrun, append_empty_r, readDecimal_render by exact Hds. exact Hval.
Qed.

Lemma toUpperCase_app (a b : string) :
  toUpperCase (a ++ b) = toUpperCase a ++ toUpperCase b.
Proof.
  unfold toUpperCase. induction a as [|c a IH]; cbn; [reflexivity | now rewrite IH].
Qed.

Lemma toupper_digitChar (x : Z) :
  0 <= x < 10 -> toupper (digitChar x) = digitChar x.
Proof.
  intros H. assert (E : x = 0 \/ x = 1 \/ x = 2 \/ x = 3 \/ x = 4 \/ x = 5 \/
                        x = 6 \/ x = 7 \/ x = 8 \/ x = 9) by lia.
  repeat (destruct E as [->|E]; [reflexivity|]). now subst.
Qed.

Lemma toUpperCase_render_decimal (ds : list Z) :
  Forall (fun x => 0 <= x < 10) ds -> toUpperCase (render ds) = render ds.
Proof.
  unfold toUpperCase. induction 1 as [|x ds Hx Hds IH]; cbn; [reflexivity|].
  now rewrite toupper_digitChar, IH.
Qed.

Lemma append_cancel_l (p a b : string) : p ++ a = p ++ b -> a = b.
Proof. induction p as [|c p IH]; cbn; [auto | intros H; injection H; auto]. Qed.

(** The id is a prefix fixed by the chip, then the clock in decimal. *)
Lemma generateDeviceId_shape (e : Env) (d : Device) :
  0 <= clock d < 2 ^ 32 ->
  generateDeviceId e d
  = Done (toUpperCase ((("DEVICE_FIXED_"
                            ++ utoa ((efuseMac e / 2 ^ 32) mod 2 ^ 32) 16)
                           ++ utoa (efuseMac e mod 2 ^ 32) 16) ++ "_")
          ++ utoa (clock d) 10) d.
Proof.
  intros Hc. unfold generateDeviceId. run. f_equal.
  rewrite toUpperCase_app. f_equal.
  unfold utoa.
  destruct (utoaLoop_digits 10 ltac:(lia) 64 10 (clock d) "")
    as (ds & Hrun & Hds & _); [lia | cbn; lia |].
  rewrite Hrun, append_empty_r. now apply toUpperCase_render_decimal.
Qed.

(** X4: the device id depends on the chip and on the clock only, and two
    ids generated on one chip are equal exactly when they were generated at
    the same clock value. *)
Theorem device_ids_differ_with_the_clock (e : Env) (d1 d2 : Device) :
  0 <= clock d1 < 2 ^ 32 ->
  0 <= clock d2 < 2 ^ 32 ->
  exists id1 id2,
    generateDeviceId e d1 = Done id1 d1 /\
    generateDeviceId e d2 = Done id2 d2 /\
    (id1 = id2 <-> clock d1 = clock d2).
Proof.
  intros H1 H2. do 2 eexists.
  split; [apply (generateDeviceId_shape e d1 H1)|].
  split; [apply (generateDeviceId_shape e d2 H2)|].
  split.
  - intros E. apply append_cancel_l in E.
    rewrite <- (utoa_decimal_round_trip (clock d1) H1),
            <- (utoa_decimal_round_trip (clock d2) H2).
    now rewrite E.
  - intros ->. reflexivity.
Qed.

Lemma device_ids_differ_with_the_clock_witness :
  0 <= clock configuredA < 2 ^ 32 /\
  exists id1 id2,
    generateDeviceId (world []) configuredA = Done id1 configuredA /\
    generateDeviceId (world []) personalPhaseA = Done id2 personalPhaseA /\
    (id1 = id2 <-> clock configuredA = clock personalPhaseA).
Proof.
  split; [vm_compute; split; [discriminate | reflexivity]|].
  apply (device_ids_differ_with_the_clock (world []) configuredA personalPhaseA);
    vm_compute; split; first [discriminate | reflexivity].
Defined.

(** *** What a pass of the loop can move *)

Section KeepsRules.
Context (R : StateOrder).

Lemma Keeps_ret {A} (a : A) : Keeps R (ret a).
Proof. intros e d x d' H. injection H as _ <-. apply related_refl. Qed.

Lemma Keeps_bind {A C} (c : Cmd A) (k : A -> Cmd C) :
  Keeps R c -> (forall a, Keeps R (k a)) -> Keeps R (bind c k).
Proof.
  intros Hc Hk e d x d' H. unfold bind in H.
  destruct (c e d) as [a d1|] eqn:E; [|discriminate].
  eapply related_trans; [eapply Hc, E | eapply Hk, H].
Qed.

Lemma Keeps_get : Keeps R get.
Proof. intros e d x d' H. injection H as _ <-. apply related_refl. Qed.

Lemma Keeps_ask : Keeps R ask.
Proof. intros e d x d' H. injection H as _ <-. apply related_refl. Qed.

Lemma Keeps_millis : Keeps R millis.
Proof. intros e d x d' H. injection H as _ <-. apply related_refl. Qed.

Lemma Keeps_crash {A} : Keeps R (@crash A).
Proof. intros e d x d' H. discriminate H. Qed.

Lemma Keeps_modify (g : Device -> Device) :
  (forall d, R d (g d)) -> Keeps R (modify g).
Proof. intros Hg e d x d' H. injection H as _ <-. apply Hg. Qed.

Lemma Keeps_when (b : bool) (c : Cmd unit) : Keeps R c -> Keeps R (when b c).
Proof. intros H. destruct b; [exact H | apply Keeps_ret]. Qed.
End KeepsRules.

Create HintDb keeps.

Ltac keeps_write := apply Keeps_modify; intro; cbn; solve [auto with keeps].

Ltac keeps_step :=
  match goal with
  | |- Keeps _ (bind _ _) => apply Keeps_bind; [| intro]
  | |- Keeps _ (ret _) => apply Keeps_ret
  | |- Keeps _ get => apply Keeps_get
  | |- Keeps _ ask => apply Keeps_ask
  | |- Keeps _ millis => apply Keeps_millis
  | |- Keeps _ crash => apply Keeps_crash
  | |- Keeps _ (when _ _) => apply Keeps_when
  | |- Keeps _ (modify _) => keeps_write
  | |- Keeps _ (modifyBLE _) => keeps_write
  | |- Keeps _ (modifyAuto _) => keeps_write
  | |- Keeps _ (modifyConfig _) => keeps_write
  | |- Keeps _ (delay _) => keeps_write
  | |- Keeps _ (updateBLEStatus _) => keeps_write
  | |- Keeps _ saveConfig => keeps_write
  | |- Keeps _ (if ?b then _ else _) => destruct b
  | |- Keeps _ (match ?x with _ => _ end) => destruct x
  | |- Keeps _ _ => solve [auto with keeps]
  end.

Ltac keeps := repeat keeps_step.

(** The helpers below the state handlers write neither [currentState] nor
    the credentials, so they keep every relation that looks at nothing
    else. *)
Section Below.
Context (R : StateOrder).
Context (HR : forall g : Device -> Device,
            (forall d, currentState (g d) = currentState d) ->
            (forall d, credentials (config (g d)) = credentials (config d)) ->
            forall d, R d (g d)).

Ltac below_write :=
  apply Keeps_modify; apply HR; intro; reflexivity.

Ltac below_step :=
  match goal with
  | |- Keeps _ (modify _) => below_write
  | |- Keeps _ (modifyBLE _) => below_write
  | |- Keeps _ (modifyAuto _) => below_write
  | |- Keeps _ (modifyConfig _) => below_write
  | |- Keeps _ (delay _) => below_write
  | |- Keeps _ (updateBLEStatus _) => below_write
  | |- Keeps _ saveConfig => below_write
  | _ => keeps_step
  end.

Ltac below := repeat below_step.

Lemma safeSendMessage_keeps chat body : Keeps R (safeSendMessage chat body).
Proof. unfold safeSendMessage. below. Qed.
#[local] Hint Resolve safeSendMessage_keeps : keeps.

Lemma captureAndSendTestPhoto_keeps chat context :
  Keeps R (captureAndSendTestPhoto chat context).
Proof. unfold captureAndSendTestPhoto. below. Qed.
#[local] Hint Resolve captureAndSendTestPhoto_keeps : keeps.

Lemma generateDeviceId_keeps : Keeps R generateDeviceId.
Proof. unfold generateDeviceId. below. Qed.
#[local] Hint Resolve generateDeviceId_keeps : keeps.

Lemma stopTelegramAutoResponse_keeps : Keeps R stopTelegramAutoResponse.
Proof. unfold stopTelegramAutoResponse. below. Qed.
#[local] Hint Resolve stopTelegramAutoResponse_keeps : keeps.

Lemma completeBLEConfiguration_keeps : Keeps R completeBLEConfiguration.
Proof. unfold completeBLEConfiguration. below. Qed.
#[local] Hint Resolve completeBLEConfiguration_keeps : keeps.

Lemma processTelegramChatId_keeps chatId : Keeps R (processTelegramChatId chatId).
Proof. unfold processTelegramChatId. below. Qed.
#[local] Hint Resolve processTelegramChatId_keeps : keeps.

Lemma handleAutoResponseMessage_keeps chat text userName userId :
  Keeps R (handleAutoResponseMessage chat text userName userId).
Proof. unfold handleAutoResponseMessage. below. Qed.
#[local] Hint Resolve handleAutoResponseMessage_keeps : keeps.

Lemma autoResponseLoop_keeps batch : Keeps R (autoResponseLoop batch).
Proof. induction batch; cbn [autoResponseLoop]; below. Qed.
#[local] Hint Resolve autoResponseLoop_keeps : keeps.

Lemma handlePersonalConfigMessage_keeps chat text userName :
  Keeps R (handlePersonalConfigMessage chat text userName).
Proof. unfold handlePersonalConfigMessage. below. Qed.
#[local] Hint Resolve handlePersonalConfigMessage_keeps : keeps.

Lemma personalConfigLoop_keeps batch : Keeps R (personalConfigLoop batch).
Proof. induction batch; cbn [personalConfigLoop]; below. Qed.
#[local] Hint Resolve personalConfigLoop_keeps : keeps.

Lemma groupDetectionLoop_keeps batch : Keeps R (groupDetectionLoop batch).
Proof. induction batch; cbn [groupDetectionLoop]; below. Qed.
#[local] Hint Resolve groupDetectionLoop_keeps : keeps.

Lemma getNewUpdates_keeps : Keeps R getNewUpdates.
Proof. unfold getNewUpdates, lastMessageReceived, getUpdates. below. Qed.
#[local] Hint Resolve getNewUpdates_keeps : keeps.

Lemma receivedMessages_keeps n : Keeps R (receivedMessages n).
Proof. unfold receivedMessages. below. Qed.
#[local] Hint Resolve receivedMessages_keeps : keeps.

Lemma pollForPersonalConfig_keeps : Keeps R pollForPersonalConfig.
Proof. unfold pollForPersonalConfig. below. Qed.

Lemma pollForGroupDetection_keeps : Keeps R pollForGroupDetection.
Proof. unfold pollForGroupDetection. below. Qed.

Lemma processTelegramAutoResponse_keeps : Keeps R processTelegramAutoResponse.
Proof. unfold processTelegramAutoResponse. below. Qed.

Lemma startPersonalConfigPhase_keeps : Keeps R startPersonalConfigPhase.
Proof. unfold startPersonalConfigPhase. below. Qed.

Lemma startGroupWaitingPhase_keeps : Keeps R startGroupWaitingPhase.
Proof. unfold startGroupWaitingPhase, sendGroupCreationInstructions. below. Qed.

Lemma startBLEConfiguration_keeps : Keeps R startBLEConfiguration.
Proof. unfold startBLEConfiguration. below. Qed.
End Below.

#[local] Hint Resolve safeSendMessage_keeps captureAndSendTestPhoto_keeps
  generateDeviceId_keeps stopTelegramAutoResponse_keeps
  getNewUpdates_keeps pollForPersonalConfig_keeps pollForGroupDetection_keeps
  processTelegramAutoResponse_keeps startPersonalConfigPhase_keeps
  startGroupWaitingPhase_keeps startBLEConfiguration_keeps : keeps.

Lemma movesInto_below targets (g : Device -> Device) :
  (forall d, currentState (g d) = currentState d) ->
  (forall d, credentials (config (g d)) = credentials (config d)) ->
  forall d, movesInto targets d (g d).
Proof. intros H _ d. left. apply H. Qed.

Lemma sameCredentials_below (g : Device -> Device) :
  (forall d, currentState (g d) = currentState d) ->
  (forall d, credentials (config (g d)) = credentials (config d)) ->
  forall d, sameCredentials d (g d).
Proof. intros _ H d. apply H. Qed.

#[local] Hint Resolve movesInto_below sameCredentials_below : keeps.

Lemma movesInto_set targets v d :
  In v targets -> movesInto targets d (set_currentState v d).
Proof. intros H. now right. Qed.

Lemma handler_moves (s : SystemState) :
  Keeps (movesInto (successors s))
    match s with
    | INIT => handleInit
    | BLE_CONFIG => handleBLEConfig
    | AUTO_PERSONAL_CONFIG => handleAutoPersonalConfig
    | AUTO_GROUP_WAIT => handleAutoGroupWait
    | AUTO_OPERATIONAL => handleAutoOperational
    | ERROR => handleError
    end.
Proof.
  assert (Hset : forall targets v, In v targets ->
            Keeps (movesInto targets) (modify (set_currentState v))).
  { intros targets v Hin. apply Keeps_modify. intro. now apply movesInto_set. }
  assert (Hfld : forall targets (g : Device -> Device),
            (forall d, currentState (g d) = currentState d) ->
            Keeps (movesInto targets) (modify g)).
  { intros targets g Hg. apply Keeps_modify. intro. left. apply Hg. }
  destruct s; cbn [successors].
  - unfold handleInit. repeat first
      [ apply Hset; cbn; tauto | apply Hfld; intro; reflexivity | keeps_step ].
  - unfold handleBLEConfig. repeat first
      [ apply Hset; cbn; tauto | apply Hfld; intro; reflexivity | keeps_step ].
  - unfold handleAutoPersonalConfig. repeat first
      [ apply Hset; cbn; tauto | apply Hfld; intro; reflexivity | keeps_step ].
  - unfold handleAutoGroupWait. repeat first
      [ apply Hset; cbn; tauto | apply Hfld; intro; reflexivity | keeps_step ].
  - unfold handleAutoOperational. repeat first
      [ apply Hset; cbn; tauto | apply Hfld; intro; reflexivity | keeps_step ].
  - unfold handleError. repeat first
      [ apply Hset; cbn; tauto | apply Hfld; intro; reflexivity | keeps_step ].
Qed.

(** X5: one pass of the control loop, with nothing typed on the console,
    leaves the state machine where it was or moves it along one of the
    arrows INIT -> BLE_CONFIG,
    INIT -> AUTO_PERSONAL_CONFIG, BLE_CONFIG -> AUTO_PERSONAL_CONFIG,
    AUTO_PERSONAL_CONFIG -> AUTO_GROUP_WAIT, AUTO_PERSONAL_CONFIG -> ERROR,
    AUTO_GROUP_WAIT -> AUTO_OPERATIONAL; in particular a pass never leaves
    AUTO_OPERATIONAL or ERROR and never goes back to BLE_CONFIG. *)
Theorem loop_moves_along_the_arrows (e : Env) (d d' : Device) :
  loop e d = Done tt d' ->
  currentState d' = currentState d \/
  In (currentState d') (successors (currentState d)).
Proof.
  intros H.
  assert (K : Keeps (movesInto (successors (currentState d)))
                (match currentState d with
                 | INIT => handleInit
                 | BLE_CONFIG => handleBLEConfig
                 | AUTO_PERSONAL_CONFIG => handleAutoPersonalConfig
                 | AUTO_GROUP_WAIT => handleAutoGroupWait
                 | AUTO_OPERATIONAL => handleAutoOperational
                 | ERROR => handleError
                 end ;; delay 100)).
  { apply Keeps_bind; [apply handler_moves|].
    intro. apply Keeps_modify. intro. now left. }
  exact (K e d tt d' H).
Qed.

Lemma loop_moves_along_the_arrows_witness :
  loop (world [claimA]) (set_clock 12000 configuredA) = Done tt personalPhaseA /\
  (currentState personalPhaseA = currentState (set_clock 12000 configuredA) \/
   In (currentState personalPhaseA)
      (successors (currentState (set_clock 12000 configuredA)))).
Proof.
  assert (H : loop (world [claimA]) (set_clock 12000 configuredA)
              = Done tt personalPhaseA) by (vm_compute; reflexivity).
  split; [exact H|].
  exact (loop_moves_along_the_arrows _ _ _ H).
Defined.

(** X6: whatever the Telegram server delivers, a pass of the control loop
    leaves the WiFi network and password, the owner identity and the device
    name of the configuration as they were. *)
Theorem loop_keeps_credentials (e : Env) (d d' : Device) :
  loop e d = Done tt d' ->
  credentials (config d') = credentials (config d).
Proof.
  assert (Hfld : forall g : Device -> Device,
            (forall d, config (g d) = config d) ->
            Keeps sameCredentials (modify g)).
  { intros g Hg. apply Keeps_modify. intro x. cbn. now rewrite Hg. }
  assert (K : Keeps sameCredentials loop).
  { unfold loop, handleInit, handleBLEConfig, handleAutoPersonalConfig,
      handleAutoGroupWait, handleAutoOperational, handleError.
    repeat first [ apply Hfld; intro; reflexivity | keeps_step ]. }
  exact (K e d tt d').
Qed.

Lemma loop_keeps_credentials_witness :
  loop (world [claimA]) (set_clock 12000 configuredA) = Done tt personalPhaseA /\
  credentials (config personalPhaseA)
  = credentials (config (set_clock 12000 configuredA)).
Proof.
  assert (H : loop (world [claimA]) (set_clock 12000 configuredA)
              = Done tt personalPhaseA) by (vm_compute; reflexivity).
  split; [exact H|].
  exact (loop_keeps_credentials _ _ _ H).
Defined.

(** *** Start-up *)

(** The test [loadConfig] makes on the record read from the EEPROM. *)
Lemma loadConfig_run (e : Env) (d : Device) :
  loadConfig e d
  = if (SmartWitnessConfig.configVersion (eeprom d) =? 1)
       && (1 <=? length (SmartWitnessConfig.deviceName (eeprom d)))
       && (length (SmartWitnessConfig.deviceName (eeprom d)) <=? 31)
    then Done tt (set_config (eeprom d) d)
    else Done tt (set_eeprom defaultConfig (set_config defaultConfig d)).
Proof.
  unfold loadConfig, loadDefaultConfig. run. cbn [config set_config].
  assert (0 <= length (SmartWitnessConfig.deviceName (eeprom d)))
    by (unfold length; lia).
  destruct (SmartWitnessConfig.configVersion (eeprom d) =? 1); cbn [negb orb andb];
    [|reflexivity].
  destruct (Z.eqb_spec (length (SmartWitnessConfig.deviceName (eeprom d))) 0),
           (Z.leb_spec 1 (length (SmartWitnessConfig.deviceName (eeprom d))));
    try lia; cbn [negb orb andb]; [reflexivity|].
  unfold Z.gtb.
  destruct (Z.leb_spec (length (SmartWitnessConfig.deviceName (eeprom d))) 31),
           (Z.compare_spec (length (SmartWitnessConfig.deviceName (eeprom d))) 31);
    try lia; reflexivity.
Qed.

(** X7: [loadConfig] always returns.  The working configuration is then
    the stored record when that has version 1 and a device name of 1 to 31
    characters, and the default record otherwise; the EEPROM holds the same
    record, the record meets the two conditions, and the default record does
    not pass [validateConfiguration]. *)
Theorem loadConfig_leaves_a_sound_record (e : Env) (d : Device) :
  exists d',
    loadConfig e d = Done tt d' /\
    config d' = (if soundRecord (eeprom d) then eeprom d else defaultConfig) /\
    eeprom d' = config d' /\
    soundRecord (config d') = true /\
    validateConfiguration defaultConfig = false.
Proof.
  rewrite loadConfig_run. fold (soundRecord (eeprom d)).
  destruct (soundRecord (eeprom d)) eqn:Hs;
    eexists; (split; [reflexivity|]); cbn [config eeprom set_config set_eeprom].
  - repeat split. exact Hs.
  - repeat split.
Qed.

Lemma validateConfiguration_name (c : SmartWitnessConfig.t) :
  validateConfiguration c = true ->
  (1 <=? length (SmartWitnessConfig.deviceName c)) = true.
Proof.
  unfold validateConfiguration. intros H.
  apply andb_true_iff in H. destruct H as [H _].
  apply andb_true_iff in H. destruct H as [_ H].
  apply Z.leb_le. apply Z.gtb_lt in H. lia.
Qed.

Lemma setup_run (e : Env) (stored : SmartWitnessConfig.t) :
  exists d,
    setup e (coldStart stored) = Done tt d /\
    currentState d = INIT /\ bot d = None /\ clock d = 2000 /\
    lastPollPersonal d = 0 /\ bleInitialized d = false /\
    eeprom d = config d /\
    validateConfiguration (config d) = usable stored /\
    (usable stored = true -> config d = stored).
Proof.
  unfold setup, bind, delay, modify. rewrite loadConfig_run.
  cbn [eeprom set_clock coldStart].
  unfold usable.
  destruct (SmartWitnessConfig.configVersion stored =? 1) eqn:Hv; cbn [andb];
    [|eexists; split; [reflexivity|]; cbn; repeat split; discriminate].
  destruct (length (SmartWitnessConfig.deviceName stored) <=? 31) eqn:H2;
    rewrite ?andb_false_r; cbn [andb].
  - destruct (1 <=? length (SmartWitnessConfig.deviceName stored)) eqn:H1; cbn [andb].
    + eexists; split; [reflexivity|]; cbn; repeat split; reflexivity.
    + eexists; split; [reflexivity|]; cbn.
      destruct (validateConfiguration stored) eqn:Hval.
      * apply validateConfiguration_name in Hval. congruence.
      * repeat split; discriminate.
  - eexists; split; [reflexivity|]; cbn; repeat split; discriminate.
Qed.

(** X8: started with a record in its EEPROM, the device is in
    AUTO_PERSONAL_CONFIG after the first pass of the loop when the record
    has version 1, a device name of at most 31 characters and passes
    [validateConfiguration], and in BLE_CONFIG otherwise; either way no
    Telegram client object exists yet. *)
Theorem boot_resumes_or_reconfigures (stored : SmartWitnessConfig.t) (e : Env) :
  exists d,
    boot stored e = Done tt d /\
    currentState d
    = (if usable stored then AUTO_PERSONAL_CONFIG else BLE_CONFIG) /\
    bot d = None /\
    (usable stored = true -> config d = stored).
Proof.
  destruct (setup_run e stored)
    as (d0 & Hrun & Hst & Hbot & Hclk & Hlp & Hbi & Hee & Hval & Hcfg).
  unfold boot, bind. rewrite Hrun.
  unfold loop, bind, get. rewrite Hst. unfold handleInit, bind, get.
  rewrite Hval. destruct (usable stored).
  - unfold startPersonalConfigPhase, generateDeviceId. run.
    eexists; split; [reflexivity|]. cbn. auto.
  - run. eexists; split; [reflexivity|]. cbn. repeat split; [assumption|discriminate].
Qed.

(** X9: a device restarted with a usable stored configuration does not get
    past its second pass of the loop: no Telegram client object was
    created, so the first poll of the personal phase dereferences a null
    pointer, and a pass entered after the three-minute deadline goes to
    ERROR. *)
Theorem resumed_device_never_polls
  (stored : SmartWitnessConfig.t) (e e' : Env) (now : Z) :
  usable stored = true ->
  2000 <= now < 2 ^ 32 ->
  exists d,
    boot stored e = Done tt d /\
    (if now <=? 182000
     then loop e' (set_clock now d) = Crash
     else exists d', loop e' (set_clock now d) = Done tt d'
                     /\ currentState d' = ERROR).
Proof.
  intros Hu Hnow.
  destruct (setup_run e stored)
    as (d0 & Hrun & Hst & Hbot & Hclk & Hlp & Hbi & Hee & Hval & Hcfg).
  unfold boot, bind. rewrite Hrun.
  unfold loop at 1. unfold bind, get. rewrite Hst. unfold handleInit, bind, get.
  rewrite Hval, Hu.
  unfold startPersonalConfigPhase, generateDeviceId. run.
  eexists; split; [reflexivity|].
  unfold loop, bind, get. cbn [currentState set_clock set_autoSession set_currentState].
  unfold handleAutoPersonalConfig, bind, get, millis.
  cbn [clock autoSession set_clock set_autoSession set_currentState
       AutoTelegramSession.phaseStartTime AutoTelegramSession.set_personalChatId
       AutoTelegramSession.set_pollAttempts AutoTelegramSession.set_phaseStartTime
       AutoTelegramSession.set_currentPhase lastPollPersonal].
  rewrite Hclk, Hlp.
  assert (E1 : usub now 2000 = now - 2000)
    by (unfold usub, ULONG_RANGE; apply Z.mod_small; lia).
  assert (E2 : usub now 0 = now)
    by (unfold usub, ULONG_RANGE; rewrite Z.sub_0_r; apply Z.mod_small; lia).
  rewrite E1, E2. unfold PERSONAL_CONFIG_TIMEOUT.
  destruct (Z.leb_spec now 182000).
  - replace (now - 2000 >? 180000) with false
      by (symmetry; rewrite Z.gtb_ltb; apply Z.ltb_ge; lia).
    replace (now >=? 2000) with true by (symmetry; apply Z.geb_le; lia).
    unfold pollForPersonalConfig, getNewUpdates, lastMessageReceived. run.
    cbn [bot set_autoSession set_lastPollPersonal set_clock set_currentState].
    now rewrite Hbot.
  - replace (now - 2000 >? 180000) with true by (symmetry; apply Z.gtb_lt; lia).
    run. eexists; split; reflexivity.
Qed.

Lemma resumed_device_never_polls_witness :
  usable (eeprom personalPhaseA) = true /\
  exists d,
    boot (eeprom personalPhaseA) (world []) = Done tt d /\
    (if 2100 <=? 182000
     then loop (world []) (set_clock 2100 d) = Crash
     else exists d', loop (world []) (set_clock 2100 d) = Done tt d'
                     /\ currentState d' = ERROR).
Proof.
  split; [vm_compute; reflexivity|].
  apply (resumed_device_never_polls (eeprom personalPhaseA) (world []) (world []) 2100);
    [vm_compute; reflexivity | lia].
Defined.

(** *** The photo upload *)

Lemma firstn_add {A} (l : list A) : forall a b : nat,
  (firstn a l ++ firstn b (skipn a l))%list = firstn (a + b) l.
Proof.
  induction l as [|x l IH]; intros [|a] b; cbn; try reflexivity.
  - now rewrite firstn_nil.
  - now rewrite IH.
Qed.

(** From a counter [n] that is a multiple of 1024 and below the frame
    length, with the frame written up to [n], the loop ends with the frame
    written up to [n + 1024 * k + fbLen mod 1024], where [n + 1024 * (k+1)] is
    the first counter value that is not below the length. *)
Lemma writeImage_from (fb : list Byte.byte) :
  Z.of_nat (List.length fb) + 1024 < 2 ^ 32 ->
  forall (fuel : nat) (n : Z),
    0 <= n < Z.of_nat (List.length fb) ->
    n mod 1024 = 0 ->
    Z.of_nat (List.length fb) - n < 1024 * (Z.of_nat fuel - 1) ->
    writeImage fuel fb n n (firstn (Z.to_nat n) fb)
    = Some (firstn (Z.to_nat (if Z.of_nat (List.length fb) mod 1024 =? 0
                              then Z.of_nat (List.length fb) - 1024
                              else Z.of_nat (List.length fb))) fb).
Proof.
  intros Hlen. set (len := Z.of_nat (List.length fb)) in *.
  induction fuel as [|fuel IH]; intros n Hn Hmod Hfuel; [lia|].
  cbn [writeImage]. fold len.
  replace (n <? len) with true by (symmetry; apply Z.ltb_lt; lia).
  assert (Hu : uadd n 1024 = n + 1024)
    by (unfold uadd, ULONG_RANGE; apply Z.mod_small; lia).
  unfold chunkSize. rewrite Hu.
  destruct (Z.ltb_spec (n + 1024) len) as [Hlt|Hge].
  - replace (firstn (Z.to_nat n) fb
             ++ firstn (Z.to_nat 1024) (skipn (Z.to_nat n) fb))%list
      with (firstn (Z.to_nat (n + 1024)) fb)
      by (rewrite firstn_add; f_equal; lia).
    apply IH; [lia | | lia].
    rewrite <- Z.add_mod_idemp_l, Hmod by lia. reflexivity.
  - rewrite firstn_add.
    assert (Hm : 0 <= len mod 1024 < 1024) by (apply Z.mod_pos_bound; lia).
    assert (Hdiv : n = 1024 * (n / 1024))
      by (rewrite (Z.div_mod n 1024) at 1 by lia; lia).
    assert (Hl : len = 1024 * (len / 1024) + len mod 1024)
      by (apply Z.div_mod; lia).
    destruct fuel as [|fuel]; [lia|].
    cbn [writeImage]. fold len.
    replace (n + 1024 <? len) with false by (symmetry; apply Z.ltb_ge; lia).
    f_equal. f_equal.
    destruct (Z.eqb_spec (len mod 1024) 0) as [Hz|Hnz]; lia.
Qed.

(** X10: for a frame of [fbLen] bytes the image loop of [sendPhotoTelegram]
    ends and writes a prefix of the frame: all of it, unless [fbLen] is a
    positive multiple of 1024, in which case the last 1024 bytes are left
    out (the last chunk is computed as [fbLen % 1024 = 0]). *)
Theorem photo_upload_drops_last_full_chunk (fb : list Byte.byte) :
  Z.of_nat (List.length fb) + 1024 < 2 ^ 32 ->
  imageBody fb
  = Some (if (0 <? Z.of_nat (List.length fb))
             && (Z.of_nat (List.length fb) mod 1024 =? 0)
          then firstn (List.length fb - 1024) fb
          else fb).
Proof.
  intros Hlen. unfold imageBody.
  destruct (List.length fb) as [|k] eqn:Hk.
  - cbn. destruct fb; [reflexivity | discriminate].
  - rewrite <- Hk in *.
    assert (Hpos : 0 < Z.of_nat (List.length fb)) by lia.
    change (@nil Byte.byte) with (firstn (Z.to_nat 0) fb) at 1.
    rewrite (writeImage_from fb Hlen); [| lia | reflexivity | lia].
    replace (0 <? Z.of_nat (List.length fb)) with true
      by (symmetry; apply Z.ltb_lt; lia).
    cbn [andb].
    destruct (Z.of_nat (List.length fb) mod 1024 =? 0) eqn:Hz.
    + f_equal. f_equal. apply Z.eqb_eq in Hz.
      assert (1024 <= Z.of_nat (List.length fb)).
      { rewrite (Z.div_mod (Z.of_nat (List.length fb)) 1024) in Hpos |- * by lia.
        rewrite Hz in *. lia. }
      lia.
    + f_equal. rewrite Nat2Z.id. apply firstn_all.
Qed.

Lemma photo_upload_drops_last_full_chunk_witness :
  Z.of_nat (List.length (repeat Byte.x41 2048)) + 1024 < 2 ^ 32 /\
  imageBody (repeat Byte.x41 2048)
  = Some (if (0 <? Z.of_nat (List.length (repeat Byte.x41 2048)))
             && (Z.of_nat (List.length (repeat Byte.x41 2048)) mod 1024 =? 0)
          then firstn (List.length (repeat Byte.x41 2048) - 1024)
                 (repeat Byte.x41 2048)
          else repeat Byte.x41 2048).
Proof.
  split; [vm_compute; reflexivity|].
  apply (photo_upload_drops_last_full_chunk (repeat Byte.x41 2048)).
  vm_compute; reflexivity.
Defined.

(** Reads of fields through the writes before them. *)
Ltac fields :=
  cbn [currentState set_currentState config set_config eeprom set_eeprom
       bleSession set_bleSession autoSession set_autoSession bot set_bot
       wifiConnected set_wifiConnected deviceConnected set_deviceConnected
       oldDeviceConnected set_oldDeviceConnected clock set_clock bleInitialized
       set_bleInitialized lastPollPersonal set_lastPollPersonal lastPollGroup
       set_lastPollGroup lastTelegramCheck set_lastTelegramCheck statusLog
       set_statusLog outbox set_outbox BLESession.deviceId
       BLESession.set_deviceId BLESession.expectedTelegramUser
       BLESession.set_expectedTelegramUser BLESession.tempChatId
       BLESession.set_tempChatId BLESession.configReceived
       BLESession.set_configReceived BLESession.wifiTested
       BLESession.set_wifiTested BLESession.telegramConfigured
       BLESession.set_telegramConfigured BLESession.isComplete
       BLESession.set_isComplete BLESession.startTime BLESession.set_startTime
       BLESession.autoResponseEnabled BLESession.set_autoResponseEnabled
       BLESession.isPollingActive BLESession.set_isPollingActive
       BLESession.lastPollTime BLESession.set_lastPollTime
       BLESession.pollAttempts BLESession.set_pollAttempts
       BLESession.autoResponsesSent BLESession.set_autoResponsesSent
       BLESession.waitingForTelegramUser BLESession.set_waitingForTelegramUser
       BLESession.autoResponseTimeout BLESession.set_autoResponseTimeout
       SmartWitnessConfig.wifiSSID SmartWitnessConfig.set_wifiSSID
       SmartWitnessConfig.wifiPassword SmartWitnessConfig.set_wifiPassword
       SmartWitnessConfig.telegramUser SmartWitnessConfig.set_telegramUser
       SmartWitnessConfig.deviceName SmartWitnessConfig.set_deviceName
       SmartWitnessConfig.personalChatId SmartWitnessConfig.set_personalChatId
       SmartWitnessConfig.groupChatId SmartWitnessConfig.set_groupChatId
       SmartWitnessConfig.alertMsg SmartWitnessConfig.set_alertMsg
       SmartWitnessConfig.isConfigured SmartWitnessConfig.set_isConfigured
       SmartWitnessConfig.configVersion SmartWitnessConfig.set_configVersion
       AutoTelegramSession.currentPhase AutoTelegramSession.set_currentPhase
       AutoTelegramSession.phaseStartTime AutoTelegramSession.set_phaseStartTime
       AutoTelegramSession.pollAttempts AutoTelegramSession.set_pollAttempts
       AutoTelegramSession.personalChatId AutoTelegramSession.set_personalChatId
       AutoTelegramSession.groupChatId AutoTelegramSession.set_groupChatId].

Ltac fields_everywhere :=
  cbn [currentState set_currentState config set_config eeprom set_eeprom
       bleSession set_bleSession autoSession set_autoSession bot set_bot
       wifiConnected set_wifiConnected deviceConnected set_deviceConnected
       oldDeviceConnected set_oldDeviceConnected clock set_clock bleInitialized
       set_bleInitialized lastPollPersonal set_lastPollPersonal lastPollGroup
       set_lastPollGroup lastTelegramCheck set_lastTelegramCheck statusLog
       set_statusLog outbox set_outbox BLESession.deviceId
       BLESession.set_deviceId BLESession.expectedTelegramUser
       BLESession.set_expectedTelegramUser BLESession.tempChatId
       BLESession.set_tempChatId BLESession.configReceived
       BLESession.set_configReceived BLESession.wifiTested
       BLESession.set_wifiTested BLESession.telegramConfigured
       BLESession.set_telegramConfigured BLESession.isComplete
       BLESession.set_isComplete BLESession.startTime BLESession.set_startTime
       BLESession.autoResponseEnabled BLESession.set_autoResponseEnabled
       BLESession.isPollingActive BLESession.set_isPollingActive
       BLESession.lastPollTime BLESession.set_lastPollTime
       BLESession.pollAttempts BLESession.set_pollAttempts
       BLESession.autoResponsesSent BLESession.set_autoResponsesSent
       BLESession.waitingForTelegramUser BLESession.set_waitingForTelegramUser
       BLESession.autoResponseTimeout BLESession.set_autoResponseTimeout
       SmartWitnessConfig.wifiSSID SmartWitnessConfig.set_wifiSSID
       SmartWitnessConfig.wifiPassword SmartWitnessConfig.set_wifiPassword
       SmartWitnessConfig.telegramUser SmartWitnessConfig.set_telegramUser
       SmartWitnessConfig.deviceName SmartWitnessConfig.set_deviceName
       SmartWitnessConfig.personalChatId SmartWitnessConfig.set_personalChatId
       SmartWitnessConfig.groupChatId SmartWitnessConfig.set_groupChatId
       SmartWitnessConfig.alertMsg SmartWitnessConfig.set_alertMsg
       SmartWitnessConfig.isConfigured SmartWitnessConfig.set_isConfigured
       SmartWitnessConfig.configVersion SmartWitnessConfig.set_configVersion
       AutoTelegramSession.currentPhase AutoTelegramSession.set_currentPhase
       AutoTelegramSession.phaseStartTime AutoTelegramSession.set_phaseStartTime
       AutoTelegramSession.pollAttempts AutoTelegramSession.set_pollAttempts
       AutoTelegramSession.personalChatId AutoTelegramSession.set_personalChatId
       AutoTelegramSession.groupChatId AutoTelegramSession.set_groupChatId] in *.

(** *** Completing the BLE configuration *)

Lemma startsWith_refl (s : string) : startsWith s s = true.
Proof.
  unfold startsWith. induction s as [|c s IH]; cbn; [reflexivity|].
  destruct (ascii_dec c c); [exact IH | congruence].
Qed.

Ltac send_step :=
  match goal with
  | |- context [safeSendMessage ?c ?b ?e ?d] =>
      let r := fresh "r" in let d' := fresh "d" in let H := fresh "Hsent" in
      destruct (safeSendMessage_total c b e d)
        as (r & d' & -> & H); decompose [and] H; clear H
  | |- context [captureAndSendTestPhoto ?c ?b ?e ?d] =>
      let r := fresh "r" in let d' := fresh "d" in let H := fresh "Hphoto" in
      destruct (captureAndSendTestPhoto_total c b e d)
        as (r & d' & -> & H); decompose [and] H; clear H
  end.

(** What [completeBLEConfiguration] leaves. *)
Lemma completeBLEConfiguration_run (e : Env) (d : Device) :
  exists d',
    completeBLEConfiguration e d = Done tt d' /\
    config d' = SmartWitnessConfig.set_configVersion 1
                  (SmartWitnessConfig.set_isConfigured true (config d)) /\
    eeprom d' = config d' /\
    BLESession.isComplete (bleSession d') = true /\
    BLESession.autoResponseEnabled (bleSession d') = false /\
    BLESession.tempChatId (bleSession d') = BLESession.tempChatId (bleSession d) /\
    currentState d' = currentState d /\ bot d' = bot d /\
    autoSession d' = autoSession d /\
    BLESession.autoResponsesSent (bleSession d')
    = BLESession.autoResponsesSent (bleSession d).
Proof.
  unfold completeBLEConfiguration, stopTelegramAutoResponse. run.
  destruct (BLESession.autoResponseEnabled (bleSession d)) eqn:En;
    fields; rewrite ?En; cbn [negb]; fields;
    (match goal with
     | |- context [length ?s >? 0] => destruct (length s >? 0)
     end;
     [ send_step; fields | ];
     eexists; (split; [reflexivity|]); fields_everywhere;
     repeat split; try congruence;
     repeat match goal with H : bleSession _ = _ |- _ => rewrite H end;
     fields; congruence).
Qed.

(** What [processTelegramChatId] leaves for a chat id that is not empty. *)
Lemma processTelegramChatId_run (chat : string) (e : Env) (d : Device) :
  0 < length chat ->
  exists d',
    processTelegramChatId chat e d = Done tt d' /\
    SmartWitnessConfig.personalChatId (config d') = strncpy chat 19 /\
    SmartWitnessConfig.isConfigured (config d') = true /\
    eeprom d' = config d' /\
    BLESession.isComplete (bleSession d') = true /\
    BLESession.autoResponseEnabled (bleSession d') = false /\
    BLESession.tempChatId (bleSession d') = chat /\
    credentials (config d') = credentials (config d) /\
    currentState d' = currentState d /\ bot d' = bot d /\
    BLESession.autoResponsesSent (bleSession d')
    = BLESession.autoResponsesSent (bleSession d).
Proof.
  intros Hchat. unfold processTelegramChatId.
  replace (length chat >? 0) with true by (symmetry; apply Z.gtb_lt; lia).
  run. send_step.
  assert (Hc : forall st, exists d',
    completeBLEConfiguration e (set_statusLog (st :: statusLog d0) d0) = Done tt d' /\
    SmartWitnessConfig.personalChatId (config d') = strncpy chat 19 /\
    SmartWitnessConfig.isConfigured (config d') = true /\
    eeprom d' = config d' /\
    BLESession.isComplete (bleSession d') = true /\
    BLESession.autoResponseEnabled (bleSession d') = false /\
    BLESession.tempChatId (bleSession d') = chat /\
    credentials (config d') = credentials (config d) /\
    currentState d' = currentState d /\ bot d' = bot d /\
    BLESession.autoResponsesSent (bleSession d')
    = BLESession.autoResponsesSent (bleSession d)).
  { intros st.
    destruct (completeBLEConfiguration_run e (set_statusLog (st :: statusLog d0) d0))
      as (d' & Hrun & Hcfg & Hee & Hic & Hen & Htmp & Hst & Hbot & _ & Hars).
    exists d'. split; [exact Hrun|].
    fields_everywhere. rewrite Hcfg. fields.
    repeat split; try congruence; rewrite ?Htmp, ?Hars;
      repeat match goal with
             | H : config _ = _ |- _ => rewrite H
             | H : bleSession _ = _ |- _ => rewrite H
             end; reflexivity. }
  destruct r; [destruct (Hc "test_photo_sent") as (d' & -> & Hd')
              | destruct (Hc "error_photo_failed") as (d' & -> & Hd')];
    exists d'; (split; [reflexivity | exact Hd']).
Qed.

(** X11: a chat id handed to [processTelegramChatId] completes the
    configuration whether or not the test photo can be sent: the chat is
    bound as the personal chat, the record is marked configured and written
    to the EEPROM, the session is complete and auto-response is off. *)
Theorem chat_id_completes_configuration (chat : string) (e : Env) (d : Device) :
  0 < length chat ->
  exists d',
    processTelegramChatId chat e d = Done tt d' /\
    SmartWitnessConfig.personalChatId (config d') = strncpy chat 19 /\
    SmartWitnessConfig.isConfigured (config d') = true /\
    eeprom d' = config d' /\
    BLESession.isComplete (bleSession d') = true /\
    BLESession.autoResponseEnabled (bleSession d') = false /\
    BLESession.tempChatId (bleSession d') = chat /\
    credentials (config d') = credentials (config d) /\
    currentState d' = currentState d /\ bot d' = bot d /\
    BLESession.autoResponsesSent (bleSession d')
    = BLESession.autoResponsesSent (bleSession d).
Proof. apply processTelegramChatId_run. Qed.

Lemma chat_id_completes_configuration_witness :
  0 < length "4242" /\
  exists d',
    processTelegramChatId "4242" (world []) configuredA = Done tt d' /\
    SmartWitnessConfig.personalChatId (config d') = strncpy "4242" 19 /\
    SmartWitnessConfig.isConfigured (config d') = true /\
    eeprom d' = config d' /\
    BLESession.isComplete (bleSession d') = true /\
    BLESession.autoResponseEnabled (bleSession d') = false /\
    BLESession.tempChatId (bleSession d') = "4242" /\
    credentials (config d') = credentials (config configuredA) /\
    currentState d' = currentState configuredA /\ bot d' = bot configuredA /\
    BLESession.autoResponsesSent (bleSession d')
    = BLESession.autoResponsesSent (bleSession configuredA).
Proof.
  split; [reflexivity|].
  apply (chat_id_completes_configuration "4242" (world []) configuredA).
  reflexivity.
Defined.

(** X12: the issued command, sent as it is from a chat the reply reaches,
    is accepted by [handleAutoResponseMessage] while fewer than five
    auto-responses were sent: the reply is counted, the chat is bound as the
    personal chat and the configuration is completed and saved. *)
Theorem issued_command_is_accepted
  (chat userName userId : string) (e : Env) (d : Device) :
  hasBot d ->
  sendMessageOk e chat = true ->
  0 < length chat ->
  BLESession.autoResponsesSent (bleSession d) < MAX_AUTO_RESPONSES_PER_SESSION ->
  exists d',
    handleAutoResponseMessage chat
      ("/start " ++ BLESession.deviceId (bleSession d)) userName userId e d
    = Done true d' /\
    SmartWitnessConfig.personalChatId (config d') = strncpy chat 19 /\
    SmartWitnessConfig.isConfigured (config d') = true /\
    eeprom d' = config d' /\
    BLESession.isComplete (bleSession d') = true /\
    BLESession.autoResponseEnabled (bleSession d') = false /\
    BLESession.autoResponsesSent (bleSession d')
    = BLESession.autoResponsesSent (bleSession d) + 1.
Proof.
  intros Hbot Hsend Hchat Hsent.
  destruct (bot d) as [b|] eqn:Hb; [|now elim Hbot].
  unfold handleAutoResponseMessage. unfold bind at 1. unfold get at 1.
  rewrite startsWith_refl. cbn [negb].
  replace (BLESession.autoResponsesSent (bleSession d)
           >=? MAX_AUTO_RESPONSES_PER_SESSION) with false
    by (symmetry; rewrite Z.geb_leb; apply Z.leb_gt; lia).
  unfold safeSendMessage. run. rewrite Hb, Hsend. cbn [bot set_outbox].
  match goal with |- context [processTelegramChatId chat e ?x] =>
    destruct (processTelegramChatId_run chat e x Hchat)
      as (d' & -> & Hp & Hc & He & Hi & Ha & _ & _ & _ & _ & Hars)
  end.
  exists d'. repeat split; try assumption.
  rewrite Hars. fields. unfold int_incr, INT_MAX.
  unfold MAX_AUTO_RESPONSES_PER_SESSION in Hsent.
  destruct (Z.eqb_spec (BLESession.autoResponsesSent (bleSession d)) (2 ^ 31 - 1));
    [lia | reflexivity].
Qed.

Lemma issued_command_is_accepted_witness :
  hasBot configuredA /\
  exists d',
    handleAutoResponseMessage "4242"
      ("/start " ++ BLESession.deviceId (bleSession configuredA)) "Mallory" "7"
      (world []) configuredA
    = Done true d' /\
    SmartWitnessConfig.personalChatId (config d') = strncpy "4242" 19 /\
    SmartWitnessConfig.isConfigured (config d') = true /\
    eeprom d' = config d' /\
    BLESession.isComplete (bleSession d') = true /\
    BLESession.autoResponseEnabled (bleSession d') = false /\
    BLESession.autoResponsesSent (bleSession d')
    = BLESession.autoResponsesSent (bleSession configuredA) + 1.
Proof.
  split; [vm_compute; discriminate|].
  apply (issued_command_is_accepted "4242" "Mallory" "7" (world []) configuredA);
    [vm_compute; discriminate | reflexivity | reflexivity | vm_compute; reflexivity].
Defined.

(** While no reply can be delivered, the loop over a batch binds nothing. *)
Lemma autoResponseLoop_unreachable (batch : list telegramMessage) (e : Env) :
  (forall chat, sendMessageOk e chat = false) ->
  forall d, exists d',
    autoResponseLoop batch e d = Done false d' /\
    config d' = config d /\ eeprom d' = eeprom d /\
    bleSession d' = bleSession d /\ bot d' = bot d /\
    currentState d' = currentState d /\ outbox d' = outbox d.
Proof.
  intros Hsend. induction batch as [|m batch IH]; intros d; cbn [autoResponseLoop].
  - exists d. repeat split.
  - unfold handleAutoResponseMessage, safeSendMessage. run.
    destruct (negb _); [apply IH|].
    destruct (_ >=? _); [apply IH|].
    destruct (bot d) eqn:Hb; rewrite ?Hsend; cbn [when].
    + match goal with |- context [autoResponseLoop batch e ?x] =>
        destruct (IH x) as (d' & -> & H) end.
      exists d'. split; [reflexivity|]. cbn in H. rewrite ?Hb in H. exact H.
    + match goal with |- context [autoResponseLoop batch e ?x] =>
        destruct (IH x) as (d' & -> & H) end.
      exists d'. split; [reflexivity|]. cbn in H. rewrite ?Hb in H. exact H.
Qed.

(** X13: while the reply cannot be delivered, a due poll of the
    auto-response phase binds nothing and leaves the configuration
    incomplete whatever the batch holds, the issued command included; the
    cursor has nevertheless moved to the last message of the batch, so these
    messages are not handed out again. *)
Theorem undelivered_reply_loses_the_claim (e : Env) (d : Device) :
  hasBot d ->
  (forall chat, sendMessageOk e chat = false) ->
  BLESession.autoResponseEnabled (bleSession d) = true ->
  BLESession.isPollingActive (bleSession d) = true ->
  clock d <= BLESession.autoResponseTimeout (bleSession d) ->
  BLESession.pollAttempts (bleSession d) < MAX_AUTO_RESPONSE_ATTEMPTS ->
  AUTO_RESPONSE_POLL_INTERVAL
    <= usub (clock d) (BLESession.lastPollTime (bleSession d)) ->
  exists d',
    processTelegramAutoResponse e d = Done false d' /\
    config d' = config d /\ eeprom d' = eeprom d /\
    BLESession.isComplete (bleSession d') = BLESession.isComplete (bleSession d) /\
    BLESession.autoResponseEnabled (bleSession d') = true /\
    outbox d' = outbox d /\
    cursor d' = last (List.map update_id (observedBy e d)) (cursor d).
Proof.
  intros Hbot Hsend Hen Hact Htime Hatt Hdue.
  destruct (bot d) as [b|] eqn:Hb; [|now elim Hbot].
  unfold processTelegramAutoResponse. unfold bind at 1 2. unfold get at 1.
  unfold millis at 1. rewrite Hen, Hact. cbn [negb orb].
  replace (clock d >? BLESession.autoResponseTimeout (bleSession d)) with false
    by (symmetry; rewrite Z.gtb_ltb; apply Z.ltb_ge; lia).
  replace (BLESession.pollAttempts (bleSession d) >=? MAX_AUTO_RESPONSE_ATTEMPTS)
    with false by (symmetry; rewrite Z.geb_leb; apply Z.leb_gt; lia).
  replace (usub (clock d) (BLESession.lastPollTime (bleSession d))
           <? AUTO_RESPONSE_POLL_INTERVAL)
    with false by (symmetry; apply Z.ltb_ge; lia).
  unfold bind at 1. unfold modifyBLE, modify.
  set (d0 := set_bleSession _ d).
  assert (Hb0 : bot d0 = Some b) by exact Hb.
  destruct (getNewUpdates_run e d0 b Hb0) as (n & Hn & Hfull).
  assert (Hobs : observedBy e d0 = observedBy e d) by reflexivity.
  assert (Hcur : cursor (afterFetch e d0)
                 = last (List.map update_id (observedBy e d)) (cursor d)).
  { rewrite (cursor_afterFetch e d0 b Hb0), Hobs. reflexivity. }
  assert (Hsame : config (afterFetch e d0) = config d
                  /\ eeprom (afterFetch e d0) = eeprom d
                  /\ BLESession.isComplete (bleSession (afterFetch e d0))
                     = BLESession.isComplete (bleSession d)
                  /\ BLESession.autoResponseEnabled (bleSession (afterFetch e d0))
                     = true
                  /\ outbox (afterFetch e d0) = outbox d).
  { unfold afterFetch. destruct (fetch e); cbn; auto. }
  destruct Hsame as (Hc & He & Hi & Ha & Ho).
  unfold bind at 1. rewrite Hn.
  destruct (Z.ltb_spec n 0); [exists (afterFetch e d0); auto 10|].
  destruct (Z.eqb_spec n 0); [exists (afterFetch e d0); auto 10|].
  unfold bind at 1.
  destruct (bot_afterFetch e d0 b Hb0) as (b' & Hb').
  unfold receivedMessages, bind, get. rewrite Hb'. unfold ret at 1.
  destruct (autoResponseLoop_unreachable (firstn (Z.to_nat n) (messages b')) e Hsend
              (afterFetch e d0)) as (d' & -> & Hc' & He' & Hs' & Hb'' & _ & Ho').
  exists d'. split; [reflexivity|].
  rewrite Hc', He', Hs', Ho'. repeat split; try assumption.
  unfold cursor at 1. rewrite Hb''. exact Hcur.
Qed.

Lemma undelivered_reply_loses_the_claim_witness :
  hasBot (set_clock 12000 configuredA) /\
  exists d',
    processTelegramAutoResponse (silentWorld [claimA]) (set_clock 12000 configuredA)
    = Done false d' /\
    config d' = config (set_clock 12000 configuredA) /\
    eeprom d' = eeprom (set_clock 12000 configuredA) /\
    BLESession.isComplete (bleSession d')
    = BLESession.isComplete (bleSession (set_clock 12000 configuredA)) /\
    BLESession.autoResponseEnabled (bleSession d') = true /\
    outbox d' = outbox (set_clock 12000 configuredA) /\
    cursor d'
    = last (List.map update_id
              (observedBy (silentWorld [claimA]) (set_clock 12000 configuredA)))
        (cursor (set_clock 12000 configuredA)).
Proof.
  split; [vm_compute; discriminate|].
  apply (undelivered_reply_loses_the_claim (silentWorld [claimA])
           (set_clock 12000 configuredA));
    [ vm_compute; discriminate | intro; reflexivity | vm_compute; reflexivity
    | vm_compute; reflexivity | vm_compute; discriminate
    | vm_compute; reflexivity | vm_compute; discriminate ].
Defined.

(** *** The group phase *)

Lemma existsb_pointwise {A} (f g : A -> bool) (l : list A) :
  (forall x, f x = g x) -> existsb f l = existsb g l.
Proof. intros H. induction l as [|x l IH]; cbn; [reflexivity | now rewrite H, IH]. Qed.

Lemma find_pointwise {A} (f g : A -> bool) (l : list A) :
  (forall x, f x = g x) -> find f l = find g l.
Proof. intros H. induction l as [|x l IH]; cbn; [reflexivity | now rewrite H, IH]. Qed.

(** With the personal chat not a group chat, the test on a message comes
    down to its chat being a group. *)
Lemma isGroupEvidence_private (personal : string) (m : telegramMessage) :
  isGroup personal = false ->
  isGroupEvidence personal m = isGroup (chat_id m).
Proof.
  intros Hp. unfold isGroupEvidence, groupAdditionIndicated.
  destruct (isGroup (chat_id m)) eqn:Hg; [|reflexivity]. cbn [andb].
  destruct (equals (chat_id m) personal) eqn:He.
  - apply equals_spec in He. congruence.
  - cbn [negb]. now rewrite orb_true_r.
Qed.

(** X14: when the owner claimed the device from a private chat, the group
    phase takes the first message from any group chat for the group of the
    device, whatever its text and whoever sent it; a batch without a message
    from a group chat changes nothing. *)
Theorem any_group_message_binds (batch : list telegramMessage) (e : Env) (d : Device) :
  isGroup (AutoTelegramSession.personalChatId (autoSession d)) = false ->
  exists d',
    groupDetectionLoop batch e d
    = Done (existsb (fun m => isGroup (chat_id m)) batch) d' /\
    match find (fun m => isGroup (chat_id m)) batch with
    | Some m => AutoTelegramSession.groupChatId (autoSession d') = chat_id m
    | None => d' = d
    end.
Proof.
  intros Hp.
  destruct (groupDetectionLoop_decides batch e d) as (d' & Hrun & Hfind).
  cbn zeta in *. exists d'.
  rewrite (existsb_pointwise _ (fun m => isGroup (chat_id m))) in Hrun
    by (intro; now apply isGroupEvidence_private).
  rewrite (find_pointwise _ (fun m => isGroup (chat_id m))) in Hfind
    by (intro; now apply isGroupEvidence_private).
  split; [exact Hrun|].
  destruct (find _ batch); [apply Hfind | exact Hfind].
Qed.

Lemma any_group_message_binds_witness :
  isGroup (AutoTelegramSession.personalChatId (autoSession personalPhaseA)) = false /\
  exists d',
    groupDetectionLoop [message 7 "-555" "hello" "Mallory"] (world []) personalPhaseA
    = Done (existsb (fun m => isGroup (chat_id m))
              [message 7 "-555" "hello" "Mallory"]) d' /\
    match find (fun m => isGroup (chat_id m)) [message 7 "-555" "hello" "Mallory"] with
    | Some m => AutoTelegramSession.groupChatId (autoSession d') = chat_id m
    | None => d' = personalPhaseA
    end.
Proof.
  split; [vm_compute; reflexivity|].
  apply (any_group_message_binds [message 7 "-555" "hello" "Mallory"] (world [])
           personalPhaseA).
  vm_compute; reflexivity.
Defined.

Lemma getNewUpdates_count e d b pending :
  bot d = Some b ->
  fetch e = Pending pending ->
  getNewUpdates e d
  = Done (Z.of_nat (List.length (observedBy e d))) (afterFetch e d).
Proof.
  intros Hb F. unfold getNewUpdates, lastMessageReceived, getUpdates, afterFetch,
    observedBy, cursor, bind, get, ask, ret, modify.
  repeat (rewrite ?Hb, ?F; cbn). reflexivity.
Qed.

(** A poll that is handed messages runs its loop over them. *)
Lemma poll_runs_loop k e d b :
  bot d = Some b ->
  observedBy e d <> [] ->
  pollCall k e d
  = match k with
    | PersonalPoll => personalConfigLoop
    | GroupPoll => groupDetectionLoop
    end (observedBy e d) e (afterFetch e (countPoll d)).
Proof.
  intros Hb Hne.
  destruct (poll_fetch k e d b Hb) as (n & Hn & Hrecv & _ & Hcall).
  rewrite Hcall. unfold bind at 1. rewrite Hn.
  destruct (fetch e) as [|pending] eqn:F;
    [unfold observedBy in Hne; rewrite F in Hne; now elim Hne|].
  assert (Hb0 : bot (countPoll d) = Some b) by exact Hb.
  rewrite (getNewUpdates_count e (countPoll d) b pending Hb0 F) in Hn.
  injection Hn as <-.
  assert (Hobs : observedBy e (countPoll d) = observedBy e d) by reflexivity.
  rewrite Hobs in *.
  assert (0 < Z.of_nat (List.length (observedBy e d))).
  { destruct (observedBy e d); [now elim Hne | cbn [List.length]; lia]. }
  destruct Hrecv as [Hle|Hrecv]; [lia|].
  replace (Z.of_nat (List.length (observedBy e d)) <=? 0) with false
    by (symmetry; apply Z.leb_gt; lia).
  unfold bind. rewrite Hrecv. reflexivity.
Qed.

(** X15: a due pass of the group phase whose batch holds group evidence
    binds the group chat to the first such message; the machine goes to
    AUTO_OPERATIONAL when the confirmation photo can be sent to that chat
    and stays in AUTO_GROUP_WAIT, with the chat bound, when it cannot. *)
Theorem group_pass_waits_for_the_photo
  (e : Env) (d : Device) (b : UniversalTelegramBot) (m : telegramMessage) :
  currentState d = AUTO_GROUP_WAIT ->
  bot d = Some b ->
  groupDeadlinePassed (clock d) d = false ->
  2000 <= usub (clock d) (lastPollGroup d) ->
  find (isGroupEvidence (AutoTelegramSession.personalChatId (autoSession d)))
       (observedBy e d) = Some m ->
  exists d',
    loop e d = Done tt d' /\
    AutoTelegramSession.groupChatId (autoSession d') = chat_id m /\
    currentState d'
    = (if sendPhotoOk e (chat_id m) then AUTO_OPERATIONAL else AUTO_GROUP_WAIT).
Proof.
  intros Hs Hb Hin Hdue Hfind. unfold groupDeadlinePassed in Hin.
  unfold loop, bind at 1, get at 1. rewrite Hs.
  unfold handleAutoGroupWait. run. rewrite Hin.
  replace (usub (clock d) (lastPollGroup d) >=? 2000) with true
    by (symmetry; apply Z.geb_le; lia).
  set (d1 := set_lastPollGroup (clock d) d).
  assert (Hb1 : bot d1 = Some b) by exact Hb.
  assert (Hobs : observedBy e d1 = observedBy e d) by reflexivity.
  assert (Hne : observedBy e d1 <> []).
  { rewrite Hobs. intros E. rewrite E in Hfind. discriminate. }
  change (pollForGroupDetection e d1) with (pollCall GroupPoll e d1).
  rewrite (poll_runs_loop GroupPoll e d1 b Hb1 Hne), Hobs.
  destruct (groupDetectionLoop_decides (observedBy e d) e (afterFetch e (countPoll d1)))
    as (d2 & Hrun & Hd2).
  cbn zeta in Hrun, Hd2.
  assert (Hp : AutoTelegramSession.personalChatId
                 (autoSession (afterFetch e (countPoll d1)))
               = AutoTelegramSession.personalChatId (autoSession d)).
  { unfold afterFetch. destruct (fetch e); reflexivity. }
  rewrite Hp in Hrun, Hd2. rewrite Hfind in Hd2.
  destruct Hd2 as (Hg & _ & Hst).
  assert (Hex : existsb (isGroupEvidence
                   (AutoTelegramSession.personalChatId (autoSession d)))
                  (observedBy e d) = true).
  { apply existsb_exists. apply find_some in Hfind. exists m. exact Hfind. }
  rewrite Hex in Hrun. rewrite Hrun.
  fields. rewrite Hg.
  match goal with
  | |- context [captureAndSendTestPhoto ?c ?x ?e ?dd] =>
      destruct (captureAndSendTestPhoto_total c x e dd)
        as (r & d3 & -> & -> & Hs3 & _ & Ha3 & _)
  end.
  fields_everywhere.
  assert (Hst1 : currentState (afterFetch e (countPoll d1)) = AUTO_GROUP_WAIT).
  { unfold afterFetch. destruct (fetch e); exact Hs. }
  destruct (sendPhotoOk e (chat_id m)); cbn [when]; run;
    eexists; (split; [reflexivity|]); fields; rewrite Ha3, Hg;
    (split; [reflexivity|]); [reflexivity | congruence].
Qed.

Lemma group_pass_waits_for_the_photo_witness :
  currentState (set_clock 30000 groupPhaseB) = AUTO_GROUP_WAIT /\
  exists d',
    loop (silentWorld [message 9 "-777" "hi" "Bob"]) (set_clock 30000 groupPhaseB)
    = Done tt d' /\
    AutoTelegramSession.groupChatId (autoSession d')
    = chat_id (message 9 "-777" "hi" "Bob") /\
    currentState d'
    = (if sendPhotoOk (silentWorld [message 9 "-777" "hi" "Bob"])
            (chat_id (message 9 "-777" "hi" "Bob"))
       then AUTO_OPERATIONAL else AUTO_GROUP_WAIT).
Proof.
  split; [vm_compute; reflexivity|].
  apply (group_pass_waits_for_the_photo
           (silentWorld [message 9 "-777" "hi" "Bob"]) (set_clock 30000 groupPhaseB)
           {| last_message_received := 2;
              messages := [message 2 "-100" "/start again" "alice"] |}
           (message 9 "-777" "hi" "Bob"));
    [ vm_compute; reflexivity | vm_compute; reflexivity | vm_compute; reflexivity
    | vm_compute; discriminate | vm_compute; reflexivity ].
Defined.

(** *** The personal phase *)

(** What [handlePersonalConfigMessage] leaves when it accepts. *)
Lemma handlePersonalConfigMessage_binds m e d :
  isPersonalConfigMessage (SmartWitnessConfig.telegramUser (config d)) m = true ->
  exists d',
    handlePersonalConfigMessage (chat_id m) (text m) (from_name m) e d
    = Done true d' /\
    AutoTelegramSession.personalChatId (autoSession d') = chat_id m /\
    config d' = SmartWitnessConfig.set_personalChatId (strncpy (chat_id m) 19)
                  (config d) /\
    eeprom d' = config d' /\
    currentState d' = currentState d /\ bot d' = bot d /\
    AutoTelegramSession.groupChatId (autoSession d')
    = AutoTelegramSession.groupChatId (autoSession d).
Proof.
  unfold isPersonalConfigMessage. intros H.
  apply andb_true_iff in H. destruct H as [Ht Hu].
  unfold handlePersonalConfigMessage. rewrite Ht. cbn [negb]. run.
  rewrite Hu. cbn [negb].
  do 2 send_step. fields_everywhere.
  eexists; split; [reflexivity|].
  repeat match goal with
         | H : autoSession _ = _ |- _ => rewrite H
         | H : config _ = _ |- _ => rewrite H
         | H : eeprom _ = _ |- _ => rewrite H
         | H : currentState _ = _ |- _ => rewrite H
         | H : bot _ = _ |- _ => rewrite H
         end.
  fields. repeat split.
Qed.

(** The loop of [pollForPersonalConfig] stops at the first message it
    accepts. *)
Lemma personalConfigLoop_binds batch e m : forall d,
  find (isPersonalConfigMessage (SmartWitnessConfig.telegramUser (config d))) batch
  = Some m ->
  exists d',
    personalConfigLoop batch e d = Done true d' /\
    AutoTelegramSession.personalChatId (autoSession d') = chat_id m /\
    config d' = SmartWitnessConfig.set_personalChatId (strncpy (chat_id m) 19)
                  (config d) /\
    eeprom d' = config d' /\
    currentState d' = currentState d /\ bot d' = bot d /\
    AutoTelegramSession.groupChatId (autoSession d')
    = AutoTelegramSession.groupChatId (autoSession d).
Proof.
  induction batch as [|m0 rest IH]; intros d Hfind; cbn [find] in Hfind;
    [discriminate|].
  cbn [personalConfigLoop]. unfold bind.
  destruct (isPersonalConfigMessage _ m0) eqn:Hm.
  - injection Hfind as <-.
    destruct (handlePersonalConfigMessage_binds m0 e d Hm) as (d' & -> & H).
    exists d'. split; [reflexivity | exact H].
  - destruct (handlePersonalConfigMessage_decides m0 e d) as (d' & -> & Hsame & _).
    rewrite Hm, (Hsame Hm). now apply IH.
Qed.

(** X16: a due pass of the personal phase whose batch holds a start
    message from the owner binds the chat of the first such message as the
    personal chat, in the session and in the saved configuration, and enters
    AUTO_GROUP_WAIT with the phase clock restarted; this does not depend on
    the confirmation, the test photo or the group instructions reaching the
    owner. *)
Theorem personal_pass_binds_the_owner
  (e : Env) (d : Device) (b : UniversalTelegramBot) (m : telegramMessage) :
  currentState d = AUTO_PERSONAL_CONFIG ->
  bot d = Some b ->
  personalDeadlinePassed (clock d) d = false ->
  2000 <= usub (clock d) (lastPollPersonal d) ->
  find (isPersonalConfigMessage (SmartWitnessConfig.telegramUser (config d)))
       (observedBy e d) = Some m ->
  exists d',
    loop e d = Done tt d' /\
    currentState d' = AUTO_GROUP_WAIT /\
    AutoTelegramSession.personalChatId (autoSession d') = chat_id m /\
    SmartWitnessConfig.personalChatId (config d') = strncpy (chat_id m) 19 /\
    eeprom d' = config d' /\
    AutoTelegramSession.pollAttempts (autoSession d') = 0.
Proof.
  intros Hs Hb Hin Hdue Hfind. unfold personalDeadlinePassed in Hin.
  unfold loop, bind at 1, get at 1. rewrite Hs.
  unfold handleAutoPersonalConfig. run. rewrite Hin.
  replace (usub (clock d) (lastPollPersonal d) >=? 2000) with true
    by (symmetry; apply Z.geb_le; lia).
  set (d1 := set_lastPollPersonal (clock d) d).
  assert (Hb1 : bot d1 = Some b) by exact Hb.
  assert (Hobs : observedBy e d1 = observedBy e d) by reflexivity.
  assert (Hne : observedBy e d1 <> []).
  { rewrite Hobs. intros E. rewrite E in Hfind. discriminate. }
  change (pollForPersonalConfig e d1) with (pollCall PersonalPoll e d1).
  rewrite (poll_runs_loop PersonalPoll e d1 b Hb1 Hne), Hobs.
  assert (Hc : config (afterFetch e (countPoll d1)) = config d)
    by (unfold afterFetch; destruct (fetch e); reflexivity).
  destruct (personalConfigLoop_binds (observedBy e d) e m
              (afterFetch e (countPoll d1)))
    as (d2 & -> & Hp & Hcfg & Hee & Hst & Hbot & _); [now rewrite Hc|].
  unfold startGroupWaitingPhase, sendGroupCreationInstructions. run.
  send_step. fields_everywhere.
  eexists; split; [reflexivity|]. fields.
  repeat match goal with
         | H : autoSession _ = _ |- _ => rewrite H
         | H : config _ = _ |- _ => rewrite H
         | H : eeprom _ = _ |- _ => rewrite H
         | H : currentState _ = _ |- _ => rewrite H
         end.
  fields. repeat split; congruence.
Qed.

Lemma personal_pass_binds_the_owner_witness :
  currentState (set_clock 20000 personalPhaseA) = AUTO_PERSONAL_CONFIG /\
  exists d',
    loop (silentWorld [message 2 "4242" "/start now" "ALICE "])
      (set_clock 20000 personalPhaseA) = Done tt d' /\
    currentState d' = AUTO_GROUP_WAIT /\
    AutoTelegramSession.personalChatId (autoSession d')
    = chat_id (message 2 "4242" "/start now" "ALICE ") /\
    SmartWitnessConfig.personalChatId (config d')
    = strncpy (chat_id (message 2 "4242" "/start now" "ALICE ")) 19 /\
    eeprom d' = config d' /\
    AutoTelegramSession.pollAttempts (autoSession d') = 0.
Proof.
  split; [vm_compute; reflexivity|].
  apply (personal_pass_binds_the_owner
           (silentWorld [message 2 "4242" "/start now" "ALICE "])
           (set_clock 20000 personalPhaseA)
           {| last_message_received := 1; messages := [claimA] |}
           (message 2 "4242" "/start now" "ALICE "));
    [ vm_compute; reflexivity | vm_compute; reflexivity | vm_compute; reflexivity
    | vm_compute; discriminate | vm_compute; reflexivity ].
Defined.

(** *** Deadlines and the 32-bit clock *)

Lemma usub_uadd (start elapsed : Z) :
  0 <= start < 2 ^ 32 -> 0 <= elapsed < 2 ^ 32 ->
  usub (uadd start elapsed) start = elapsed.
Proof.
  intros Hs He. unfold usub, uadd, ULONG_RANGE.
  rewrite Zminus_mod_idemp_l.
  replace (start + elapsed - start) with elapsed by lia.
  apply Z.mod_small. lia.
Qed.

(** X17: the deadline of the personal phase is measured on the elapsed
    time, also across a wrap of the 32-bit millisecond counter: a pass made
    [elapsed] ms after the phase started puts the machine in ERROR exactly
    when [elapsed] exceeds 180000. *)
Theorem personal_deadline_survives_wrap (e : Env) (d : Device) (elapsed : Z) :
  currentState d = AUTO_PERSONAL_CONFIG ->
  hasBot d ->
  0 <= AutoTelegramSession.phaseStartTime (autoSession d) < 2 ^ 32 ->
  0 <= elapsed < 2 ^ 32 ->
  clock d = uadd (AutoTelegramSession.phaseStartTime (autoSession d)) elapsed ->
  exists d',
    loop e d = Done tt d' /\
    (currentState d' = ERROR <-> PERSONAL_CONFIG_TIMEOUT < elapsed).
Proof.
  intros Hs Hbot Hstart Hel Hclk.
  destruct (loop_cursor_grows e d Hbot) as (d' & Hrun & _).
  exists d'. split; [exact Hrun|].
  set (inside := (if usub (clock d) (lastPollPersonal d) >=? 2000
                  then
                    modify (set_lastPollPersonal (clock d)) ;;
                    found <- pollForPersonalConfig ;;
                    if found
                    then modify (set_currentState AUTO_GROUP_WAIT) ;;
                         startGroupWaitingPhase
                    else ret tt
                  else ret tt) : Cmd unit).
  assert (Hh : loop e d
               = ((if elapsed >? PERSONAL_CONFIG_TIMEOUT
                   then modify (set_currentState ERROR)
                   else inside) ;; delay 100) e d).
  { unfold loop, bind at 1, get at 1. rewrite Hs.
    unfold handleAutoPersonalConfig, inside. run.
    rewrite Hclk, (usub_uadd _ _ Hstart Hel), <- Hclk.
    destruct (elapsed >? PERSONAL_CONFIG_TIMEOUT); reflexivity. }
  rewrite Hh in Hrun. clear Hh.
  destruct (Z.ltb_spec PERSONAL_CONFIG_TIMEOUT elapsed) as [Hlt|Hge].
  - replace (elapsed >? PERSONAL_CONFIG_TIMEOUT) with true in Hrun
      by (symmetry; apply Z.gtb_lt; lia).
    revert Hrun. run. intros H. injection H as <-.
    split; [intros _; lia | reflexivity].
  - replace (elapsed >? PERSONAL_CONFIG_TIMEOUT) with false in Hrun
      by (symmetry; rewrite Z.gtb_ltb; apply Z.ltb_ge; lia).
    assert (K : Keeps (movesInto [AUTO_GROUP_WAIT]) (inside ;; delay 100)).
    { assert (Hset : Keeps (movesInto [AUTO_GROUP_WAIT])
                       (modify (set_currentState AUTO_GROUP_WAIT))).
      { apply Keeps_modify. intro. right. now left. }
      assert (Hfld : forall g : Device -> Device,
                (forall d, currentState (g d) = currentState d) ->
                Keeps (movesInto [AUTO_GROUP_WAIT]) (modify g)).
      { intros g Hg. apply Keeps_modify. intro. left. apply Hg. }
      unfold inside.
      repeat first [ exact Hset | apply Hfld; intro; reflexivity | keeps_step ]. }
    specialize (K e d tt d' Hrun). cbn [related movesInto] in K.
    unfold movedInto in K. rewrite Hs in K.
    split; [|lia].
    intros Herr. destruct K as [K|[K|[]]]; congruence.
Qed.

Lemma personal_deadline_survives_wrap_witness :
  currentState (set_clock 1000 (leaves (startPersonalConfigPhase (world [])
                                          (set_clock 4294900000 personalPhaseA))))
  = AUTO_PERSONAL_CONFIG /\
  exists d',
    loop (world []) (set_clock 1000 (leaves (startPersonalConfigPhase (world [])
                        (set_clock 4294900000 personalPhaseA)))) = Done tt d' /\
    (currentState d' = ERROR <-> PERSONAL_CONFIG_TIMEOUT < 68296).
Proof.
  split; [vm_compute; reflexivity|].
  apply (personal_deadline_survives_wrap (world [])
           (set_clock 1000 (leaves (startPersonalConfigPhase (world [])
                                      (set_clock 4294900000 personalPhaseA))))
           68296);
    [ vm_compute; reflexivity | vm_compute; discriminate
    | vm_compute; split; [discriminate | reflexivity] | lia
    | vm_compute; reflexivity ].
Defined.

(** X18: the deadline of the auto-response phase is kept as an absolute
    clock value.  When auto-response is started within [AUTO_RESPONSE_TIMEOUT]
    of the wrap of the 32-bit millisecond counter, the stored deadline has
    wrapped to a value below the clock, and the first call of
    [processTelegramAutoResponse] made before the counter wraps switches
    auto-response off with the status auto_response_timeout. *)
Theorem auto_response_deadline_wraps (e e' : Env) (d : Device) (now : Z) :
  hasBot d ->
  wifiConnected d = true ->
  0 < length (BLESession.deviceId (bleSession d)) ->
  2 ^ 32 - AUTO_RESPONSE_TIMEOUT <= clock d ->
  clock d <= now < 2 ^ 32 ->
  exists d1 d2,
    startTelegramAutoResponse e d = Done true d1 /\
    BLESession.autoResponseEnabled (bleSession d1) = true /\
    processTelegramAutoResponse e' (set_clock now d1) = Done false d2 /\
    BLESession.autoResponseEnabled (bleSession d2) = false /\
    lastStatus d2 = "auto_response_timeout".
Proof.
  intros Hbot Hwifi Hid Hlate Hnow.
  destruct (bot d) as [b|] eqn:Hb; [|now elim Hbot].
  unfold startTelegramAutoResponse. unfold bind at 1, get at 1.
  rewrite Hb, Hwifi. cbn [negb orb].
  replace (length (BLESession.deviceId (bleSession d)) =? 0) with false
    by (symmetry; apply Z.eqb_neq; lia).
  unfold getUpdates. run. fields. rewrite Hb. cbn [option_map]. fields.
  assert (Hto : uadd (clock d) AUTO_RESPONSE_TIMEOUT
                = clock d + AUTO_RESPONSE_TIMEOUT - 2 ^ 32).
  { unfold uadd, ULONG_RANGE, AUTO_RESPONSE_TIMEOUT in *. symmetry.
    apply (Z.mod_unique_pos _ _ 1); lia. }
  assert (Hgt : (now >? uadd (clock d) AUTO_RESPONSE_TIMEOUT) = true).
  { apply Z.gtb_lt. rewrite Hto. unfold AUTO_RESPONSE_TIMEOUT. lia. }
  destruct (fetch e) as [|pending]; run; fields;
    do 2 eexists; (split; [reflexivity|]); (split; [reflexivity|]);
    unfold processTelegramAutoResponse, stopTelegramAutoResponse; run; fields;
    rewrite Hgt; cbn [negb orb]; fields;
    (split; [reflexivity|]); split; reflexivity.
Qed.

Lemma auto_response_deadline_wraps_witness :
  hasBot (set_clock 4294900000 configuredA) /\
  exists d1 d2,
    startTelegramAutoResponse (world []) (set_clock 4294900000 configuredA)
    = Done true d1 /\
    BLESession.autoResponseEnabled (bleSession d1) = true /\
    processTelegramAutoResponse (world [claimA]) (set_clock 4294902000 d1)
    = Done false d2 /\
    BLESession.autoResponseEnabled (bleSession d2) = false /\
    lastStatus d2 = "auto_response_timeout".
Proof.
  split; [vm_compute; discriminate|].
  apply (auto_response_deadline_wraps (world []) (world [claimA])
           (set_clock 4294900000 configuredA) 4294902000);
    [ vm_compute; discriminate | vm_compute; reflexivity | vm_compute; reflexivity
    | vm_compute; discriminate | vm_compute; split; [discriminate | reflexivity] ].
Defined.

(** *** The serial console *)

(** X19: the console command [ble] does not reopen the configuration
    after one was completed: [handleBLEConfig] initialises the BLE session
    only on its first call, so while the session of the completed
    configuration has not timed out the next pass finds it complete and goes
    straight back to AUTO_PERSONAL_CONFIG. *)
Theorem ble_command_bounces_back (line : string) (e : Env) (d : Device) :
  trim line = "ble" ->
  bleInitialized d = true ->
  BLESession.isComplete (bleSession d) = true ->
  usub (uadd (clock d) 100) (BLESession.startTime (bleSession d))
    <= BLE_SESSION_TIMEOUT ->
  exists d1 d2,
    handleSerialCommands (Some line) e d = Done Continue d1 /\
    currentState d1 = BLE_CONFIG /\
    (delay 100 ;; loop) e d1 = Done tt d2 /\
    currentState d2 = AUTO_PERSONAL_CONFIG /\
    config d2 = config d.
Proof.
  intros Hline Hinit Hdone Hyoung.
  unfold handleSerialCommands. rewrite Hline.
  change (equals "ble" "reset") with false.
  change (equals "ble" "status") with false.
  change (equals "ble" "config") with false.
  change (equals "ble" "photo") with false.
  change (equals "ble" "ble") with true.
  cbv iota.
  assert (Hgt : (usub (uadd (clock d) 100) (BLESession.startTime (bleSession d))
                 >? BLE_SESSION_TIMEOUT) = false)
    by (rewrite Z.gtb_ltb; apply Z.ltb_ge; lia).
  unfold stopTelegramAutoResponse.
  destruct (BLESession.autoResponseEnabled (bleSession d)) eqn:En,
           (deviceConnected d) eqn:Hdc, (oldDeviceConnected d) eqn:Hodc;
    run; fields; rewrite ?En; cbn [negb]; fields;
    do 2 eexists; (split; [reflexivity|]); (split; [reflexivity|]);
    unfold loop, handleBLEConfig, startPersonalConfigPhase, generateDeviceId,
      stopTelegramAutoResponse;
    run;
    repeat (progress (fields;
                      rewrite ?Hinit, ?Hgt, ?En, ?Hdone, ?Hdc, ?Hodc;
                      cbn [negb andb]));
    (split; [reflexivity|]); fields; split; reflexivity.
Qed.

Lemma ble_command_bounces_back_witness :
  trim "ble " = "ble" /\
  exists d1 d2,
    handleSerialCommands (Some "ble ") (world []) personalPhaseA
    = Done Continue d1 /\
    currentState d1 = BLE_CONFIG /\
    (delay 100 ;; loop) (world []) d1 = Done tt d2 /\
    currentState d2 = AUTO_PERSONAL_CONFIG /\
    config d2 = config personalPhaseA.
Proof.
  split; [reflexivity|].
  apply (ble_command_bounces_back "ble " (world []) personalPhaseA);
    [ reflexivity | vm_compute; reflexivity | vm_compute; reflexivity
    | vm_compute; discriminate ].
Defined.

(** X20: the console command [resetconfig] writes the default record to
    the EEPROM and asks for a restart, and the restarted device comes up in
    BLE_CONFIG with the default configuration, whatever was configured
    before. *)
Theorem resetconfig_returns_to_ble_config (line : string) (e e' : Env) (d : Device) :
  trim line = "resetconfig" ->
  exists d1 d2,
    handleSerialCommands (Some line) e d = Done Reboot d1 /\
    eeprom d1 = defaultConfig /\
    boot (eeprom d1) e' = Done tt d2 /\
    currentState d2 = BLE_CONFIG /\
    config d2 = defaultConfig /\
    validateConfiguration (config d2) = false.
Proof.
  intros Hline. unfold handleSerialCommands. rewrite Hline.
  change (equals "resetconfig" "reset") with false.
  change (equals "resetconfig" "status") with false.
  change (equals "resetconfig" "config") with false.
  change (equals "resetconfig" "photo") with false.
  change (equals "resetconfig" "ble") with false.
  change (equals "resetconfig" "resetconfig") with true.
  cbv iota. unfold loadDefaultConfig. run. fields.
  change (SmartWitnessConfig.mk "" "" "" (strncpy "SmartWitness_Default" 31) "" ""
            (strncpy "ALERTA DE SEGURIDAD ACTIVADA" 99) false 1)
    with defaultConfig.
  do 2 eexists. split; [reflexivity|]. split; [reflexivity|]. fields.
  split; [vm_compute; reflexivity|]. repeat split.
Qed.

Lemma resetconfig_returns_to_ble_config_witness :
  trim "resetconfig" = "resetconfig" /\
  exists d1 d2,
    handleSerialCommands (Some "resetconfig") (world []) personalPhaseA
    = Done Reboot d1 /\
    eeprom d1 = defaultConfig /\
    boot (eeprom d1) (world []) = Done tt d2 /\
    currentState d2 = BLE_CONFIG /\
    config d2 = defaultConfig /\
    validateConfiguration (config d2) = false.
Proof.
  split; [reflexivity|].
  apply (resetconfig_returns_to_ble_config "resetconfig" (world []) (world [])
           personalPhaseA).
  reflexivity.
Defined.

(** *** What a payload and the operational state leave alone *)

(** X21: processing a configuration payload always returns and by itself
    saves nothing: whatever the payload and whatever the network does, the
    EEPROM, the state of the machine, the configured flag, the chat bindings
    and the completion flag of the session are as they were. *)
Theorem payload_alone_saves_nothing (p : ConfigPayload) (e : Env) (d : Device) :
  exists d',
    processBLEConfiguration p e d = Done tt d' /\
    eeprom d' = eeprom d /\
    currentState d' = currentState d /\
    autoSession d' = autoSession d /\
    SmartWitnessConfig.isConfigured (config d')
    = SmartWitnessConfig.isConfigured (config d) /\
    SmartWitnessConfig.personalChatId (config d')
    = SmartWitnessConfig.personalChatId (config d) /\
    SmartWitnessConfig.groupChatId (config d')
    = SmartWitnessConfig.groupChatId (config d) /\
    BLESession.isComplete (bleSession d') = BLESession.isComplete (bleSession d).
Proof.
  destruct (Z.eqb_spec (length (ssid p)) 0) as [H1|H1];
    [|destruct (Z.eqb_spec (length (password p)) 0) as [H2|H2];
      [|destruct (validateTelegramUsername (telegramUser p)) eqn:V]].
  - unfold processBLEConfiguration. run.
    replace (length (ssid p) =? 0) with true by (symmetry; now apply Z.eqb_eq).
    cbn [orb]. eexists; split; [reflexivity|]. repeat split.
  - unfold processBLEConfiguration. run.
    replace (length (password p) =? 0) with true by (symmetry; now apply Z.eqb_eq).
    rewrite orb_true_r. cbn [orb]. eexists; split; [reflexivity|]. repeat split.
  - assert (Hpos : 0 <= length (ssid p) /\ 0 <= length (password p))
      by (unfold length; lia).
    destruct (processBLEConfiguration_stores_user p e d)
      as (d' & Hrun & _ & _ & Hsame); [lia | lia | exact V |].
    exists d'. split; [exact Hrun | exact Hsame].
  - unfold processBLEConfiguration. run. rewrite V. cbn [negb].
    destruct (_ || _); eexists; (split; [reflexivity|]); repeat split.
Qed.

(** A console line that carries none of the four commands, or no line at
    all, leaves the globals alone. *)
Lemma handleSerialCommands_idle (line : option string) (e : Env) (d : Device) :
  consoleActs line = false ->
  handleSerialCommands line e d = Done Continue d.
Proof.
  destruct line as [line|]; [|reflexivity].
  unfold consoleActs, handleSerialCommands. cbn zeta. intros H.
  apply orb_false_iff in H. destruct H as [H Hrc].
  apply orb_false_iff in H. destruct H as [H Hble].
  apply orb_false_iff in H. destruct H as [Hreset Hphoto].
  rewrite Hreset, Hphoto, Hble, Hrc.
  repeat match goal with
         | |- context [if equals ?a ?b then _ else _] => destruct (equals a b)
         end; reflexivity.
Qed.

(** A pass during which nothing is typed is the pass [loop] describes. *)
Lemma loopPass_without_console (e : Env) (d : Device) :
  currentState d <> ERROR ->
  loopPass None e d
  = match loop e d with
    | Done _ d' => Done Continue d'
    | Crash => Crash
    end.
Proof.
  intros Hs. unfold loopPass, loop, consoleAndDelay, handleSerialCommands. run.
  destruct (currentState d); try (now elim Hs);
    match goal with |- context [match ?h e d with _ => _ end] =>
      destruct (h e d) end; reflexivity.
Qed.

(** X22: in AUTO_OPERATIONAL a pass of the loop, console included, during
    which none of the console commands reset, photo, ble and resetconfig is
    pending always returns, also without a Telegram client object; it
    answers no message and changes neither the configuration nor the EEPROM
    nor the state: Telegram messages fetched in this state are dropped. *)
Theorem operational_state_answers_nothing
  (line : option string) (e : Env) (d : Device) :
  currentState d = AUTO_OPERATIONAL ->
  consoleActs line = false ->
  exists d',
    loopPass line e d = Done Continue d' /\
    currentState d' = AUTO_OPERATIONAL /\
    config d' = config d /\ eeprom d' = eeprom d /\
    outbox d' = outbox d /\
    bleSession d' = bleSession d /\ autoSession d' = autoSession d /\
    cursor d <= cursor d'.
Proof.
  intros Hs Hidle.
  assert (Hh : exists d1,
             handleAutoOperational e d = Done tt d1 /\
             currentState d1 = AUTO_OPERATIONAL /\
             config d1 = config d /\ eeprom d1 = eeprom d /\
             outbox d1 = outbox d /\
             bleSession d1 = bleSession d /\ autoSession d1 = autoSession d /\
             cursor d <= cursor d1).
  { unfold handleAutoOperational. run.
    destruct (usub (clock d) (lastTelegramCheck d) >? 5000);
      [|eexists; split; [reflexivity|]; repeat split;
        first [exact Hs | apply Z.le_refl]].
    destruct (wifiConnected d); cbn [andb];
      [|eexists; split; [reflexivity|]; fields; repeat split;
        first [exact Hs | apply Z.le_refl]].
    destruct (bot d) as [b|] eqn:Hb;
      [|eexists; split; [reflexivity|]; fields; repeat split;
        first [exact Hs | apply Z.le_refl]].
    destruct (getNewUpdates_run e d b Hb) as (n & -> & _).
    eexists; split; [reflexivity|]. fields.
    assert (Hle : cursor d <= cursor (afterFetch e d)).
    { rewrite (cursor_afterFetch e d b Hb).
      apply (last_Forall (fun z => cursor d <= z)); [|lia].
      apply Forall_map. eapply Forall_impl; [|apply observedBy_newer].
      cbn; intros; lia. }
    unfold afterFetch in *. destruct (fetch e); fields;
      repeat split; first [exact Hs | exact Hle | apply Z.le_refl]. }
  destruct Hh as (d1 & Hrun & H).
  unfold loopPass, bind at 1, get at 1. rewrite Hs.
  unfold bind at 1. rewrite Hrun.
  unfold consoleAndDelay, bind at 1.
  rewrite (handleSerialCommands_idle line e d1 Hidle). run.
  eexists; split; [reflexivity|]. fields. exact H.
Qed.

Lemma operational_state_answers_nothing_witness :
  currentState
    (leaves (loop (world [message 9 "-777" "hi" "Bob"]) (set_clock 30000 groupPhaseB)))
  = AUTO_OPERATIONAL /\
  consoleActs (Some "status") = false /\
  exists d',
    loopPass (Some "status") (world [message 10 "4242" "/photo" "Alice"])
      (leaves (loop (world [message 9 "-777" "hi" "Bob"])
                 (set_clock 30000 groupPhaseB))) = Done Continue d' /\
    currentState d' = AUTO_OPERATIONAL /\
    config d'
    = config (leaves (loop (world [message 9 "-777" "hi" "Bob"])
                        (set_clock 30000 groupPhaseB))) /\
    eeprom d'
    = eeprom (leaves (loop (world [message 9 "-777" "hi" "Bob"])
                        (set_clock 30000 groupPhaseB))) /\
    outbox d'
    = outbox (leaves (loop (world [message 9 "-777" "hi" "Bob"])
                        (set_clock 30000 groupPhaseB))) /\
    bleSession d'
    = bleSession (leaves (loop (world [message 9 "-777" "hi" "Bob"])
                            (set_clock 30000 groupPhaseB))) /\
    autoSession d'
    = autoSession (leaves (loop (world [message 9 "-777" "hi" "Bob"])
                             (set_clock 30000 groupPhaseB))) /\
    cursor (leaves (loop (world [message 9 "-777" "hi" "Bob"])
                      (set_clock 30000 groupPhaseB)))
    <= cursor d'.
Proof.
  split; [vm_compute; reflexivity|]. split; [vm_compute; reflexivity|].
  apply (operational_state_answers_nothing (Some "status")
           (world [message 10 "4242" "/photo" "Alice"])
           (leaves (loop (world [message 9 "-777" "hi" "Bob"])
                      (set_clock 30000 groupPhaseB))));
    vm_compute; reflexivity.
Defined.

(** ** The claims on budgets and on the cursor *)

(** *** C5: deadlines and attempt budgets *)

(** The handlers below the polls leave both attempt counters alone. *)
Ltac counters :=
  repeat first [ apply Keeps_modify; intro; split; reflexivity | keeps_step ].

Lemma safeSendMessage_counters chat body :
  Keeps sameAttempts (safeSendMessage chat body).
Proof. unfold safeSendMessage. counters. Qed.
#[local] Hint Resolve safeSendMessage_counters : keeps.

Lemma captureAndSendTestPhoto_counters chat context :
  Keeps sameAttempts (captureAndSendTestPhoto chat context).
Proof. unfold captureAndSendTestPhoto. counters. Qed.
#[local] Hint Resolve captureAndSendTestPhoto_counters : keeps.

Lemma stopTelegramAutoResponse_counters : Keeps sameAttempts stopTelegramAutoResponse.
Proof. unfold stopTelegramAutoResponse. counters. Qed.
#[local] Hint Resolve stopTelegramAutoResponse_counters : keeps.

Lemma autoResponseLoop_counters batch : Keeps sameAttempts (autoResponseLoop batch).
Proof.
  induction batch; cbn [autoResponseLoop];
    unfold handleAutoResponseMessage, processTelegramChatId,
      completeBLEConfiguration; counters.
Qed.

Lemma personalConfigLoop_counters batch : Keeps sameAttempts (personalConfigLoop batch).
Proof.
  induction batch; cbn [personalConfigLoop];
    unfold handlePersonalConfigMessage; counters.
Qed.

Lemma groupDetectionLoop_counters batch : Keeps sameAttempts (groupDetectionLoop batch).
Proof. induction batch; cbn [groupDetectionLoop]; counters. Qed.

Lemma getNewUpdates_counters : Keeps sameAttempts getNewUpdates.
Proof. unfold getNewUpdates, lastMessageReceived, getUpdates. counters. Qed.

Lemma receivedMessages_counters n : Keeps sameAttempts (receivedMessages n).
Proof. unfold receivedMessages. counters. Qed.

#[local] Hint Resolve autoResponseLoop_counters personalConfigLoop_counters
  groupDetectionLoop_counters getNewUpdates_counters receivedMessages_counters
  : keeps.

(** Every poll of the two phases counts one attempt. *)
Lemma pollCall_counts k e d b :
  bot d = Some b ->
  exists r d',
    pollCall k e d = Done r d' /\
    AutoTelegramSession.pollAttempts (autoSession d')
    = int_incr (AutoTelegramSession.pollAttempts (autoSession d)).
Proof.
  intros Hb. destruct (pollCall_run k e d b Hb) as (r & d' & Hrun & _).
  exists r, d'. split; [exact Hrun|].
  assert (K : Keeps sameAttempts
                (numNewMessages <- getNewUpdates ;;
                 if numNewMessages <=? 0 then ret false
                 else batch <- receivedMessages numNewMessages ;;
                      match k with
                      | PersonalPoll => personalConfigLoop batch
                      | GroupPoll => groupDetectionLoop batch
                      end)).
  { destruct k; counters. }
  assert (Hrest : pollCall k e d
                  = (numNewMessages <- getNewUpdates ;;
                     if numNewMessages <=? 0 then ret false
                     else batch <- receivedMessages numNewMessages ;;
                          match k with
                          | PersonalPoll => personalConfigLoop batch
                          | GroupPoll => groupDetectionLoop batch
                          end) e (countPoll d)).
  { destruct k; reflexivity. }
  rewrite Hrest in Hrun. apply K in Hrun. destruct Hrun as [Ha _].
  rewrite Ha. reflexivity.
Qed.

(** A due poll of the auto-response phase counts one attempt. *)
Lemma processTelegramAutoResponse_counts e d b :
  bot d = Some b ->
  BLESession.autoResponseEnabled (bleSession d) = true ->
  BLESession.isPollingActive (bleSession d) = true ->
  clock d <= BLESession.autoResponseTimeout (bleSession d) ->
  BLESession.pollAttempts (bleSession d) < MAX_AUTO_RESPONSE_ATTEMPTS ->
  AUTO_RESPONSE_POLL_INTERVAL
    <= usub (clock d) (BLESession.lastPollTime (bleSession d)) ->
  exists r d',
    processTelegramAutoResponse e d = Done r d' /\
    BLESession.pollAttempts (bleSession d')
    = int_incr (BLESession.pollAttempts (bleSession d)).
Proof.
  intros Hb Hen Hact Htime Hatt Hdue.
  destruct (processTelegramAutoResponse_frame cursorGrows
              (tol_handlers _ cursorGrows_loop) getNewUpdates_cursorGrows e d)
    as (r & d' & Hrun & _); [unfold hasBot; congruence|].
  exists r, d'. split; [exact Hrun|].
  revert Hrun.
  unfold processTelegramAutoResponse. unfold bind at 1 2. unfold get at 1.
  unfold millis at 1. rewrite Hen, Hact. cbn [negb orb].
  replace (clock d >? BLESession.autoResponseTimeout (bleSession d)) with false
    by (symmetry; rewrite Z.gtb_ltb; apply Z.ltb_ge; lia).
  replace (BLESession.pollAttempts (bleSession d) >=? MAX_AUTO_RESPONSE_ATTEMPTS)
    with false by (symmetry; rewrite Z.geb_leb; apply Z.leb_gt; lia).
  replace (usub (clock d) (BLESession.lastPollTime (bleSession d))
           <? AUTO_RESPONSE_POLL_INTERVAL)
    with false by (symmetry; apply Z.ltb_ge; lia).
  unfold bind at 1. unfold modifyBLE, modify.
  intros Hrun.
  assert (K : Keeps sameAttempts
                (numNewMessages <- getNewUpdates ;;
                 if numNewMessages <? 0 then ret false
                 else if numNewMessages =? 0 then ret false
                 else batch <- receivedMessages numNewMessages ;;
                      autoResponseLoop batch)) by counters.
  apply K in Hrun. destruct Hrun as [_ Hc]. rewrite Hc. reflexivity.
Qed.

(** C5, as amended: the auto-response poller of the BLE phase has a deadline
    and an attempt budget of its own, and either one stops it the same way:
    the poll answers false and leaves the session switched off, the globals
    being the same in both cases but for the status published last, which
    is auto_response_timeout when the deadline has passed and
    auto_response_max_attempts when, inside the deadline, 300 attempts were
    made; inside both, a due poll counts one attempt.  The personal and the
    group phase have a deadline only: every poll of theirs counts one
    attempt, and inside the deadline a pass that finds nothing qualifying
    stays in the phase whatever the attempt counter says. *)
Theorem attempt_budget_only_in_auto_response
  (e : Env) (d : Device) (b : UniversalTelegramBot) :
  bot d = Some b ->
  (BLESession.autoResponseEnabled (bleSession d) = true ->
   BLESession.isPollingActive (bleSession d) = true ->
   (BLESession.autoResponseTimeout (bleSession d) < clock d ->
    processTelegramAutoResponse e d
    = Done false (stoppedWith "auto_response_timeout" d)) /\
   (clock d <= BLESession.autoResponseTimeout (bleSession d) ->
    MAX_AUTO_RESPONSE_ATTEMPTS <= BLESession.pollAttempts (bleSession d) ->
    processTelegramAutoResponse e d
    = Done false (stoppedWith "auto_response_max_attempts" d)) /\
   (clock d <= BLESession.autoResponseTimeout (bleSession d) ->
    BLESession.pollAttempts (bleSession d) < MAX_AUTO_RESPONSE_ATTEMPTS ->
    AUTO_RESPONSE_POLL_INTERVAL
      <= usub (clock d) (BLESession.lastPollTime (bleSession d)) ->
    exists r d',
      processTelegramAutoResponse e d = Done r d' /\
      BLESession.pollAttempts (bleSession d')
      = int_incr (BLESession.pollAttempts (bleSession d)))) /\
  (exists r d',
     pollForPersonalConfig e d = Done r d' /\
     AutoTelegramSession.pollAttempts (autoSession d')
     = int_incr (AutoTelegramSession.pollAttempts (autoSession d))) /\
  (exists r d',
     pollForGroupDetection e d = Done r d' /\
     AutoTelegramSession.pollAttempts (autoSession d')
     = int_incr (AutoTelegramSession.pollAttempts (autoSession d))) /\
  (currentState d = AUTO_PERSONAL_CONFIG ->
   quietPersonalPass d (clock d, e) = true ->
   exists d', loop e d = Done tt d' /\ currentState d' = AUTO_PERSONAL_CONFIG) /\
  (currentState d = AUTO_GROUP_WAIT ->
   quietGroupPass d (clock d, e) = true ->
   exists d', loop e d = Done tt d' /\ currentState d' = AUTO_GROUP_WAIT).
Proof.
  intros Hb. split; [|split; [|split; [|split]]].
  - intros Hen Hact. split; [|split].
    + intros Hlate.
      unfold processTelegramAutoResponse, stopTelegramAutoResponse, stoppedWith. run.
      rewrite Hen, Hact. cbn [negb orb].
      replace (clock d >? BLESession.autoResponseTimeout (bleSession d)) with true
        by (symmetry; apply Z.gtb_lt; lia).
      fields. rewrite Hen. reflexivity.
    + intros Hin Hspent.
      unfold processTelegramAutoResponse, stopTelegramAutoResponse, stoppedWith. run.
      rewrite Hen, Hact. cbn [negb orb].
      replace (clock d >? BLESession.autoResponseTimeout (bleSession d)) with false
        by (symmetry; rewrite Z.gtb_ltb; apply Z.ltb_ge; lia).
      replace (BLESession.pollAttempts (bleSession d) >=? MAX_AUTO_RESPONSE_ATTEMPTS)
        with true by (symmetry; apply Z.geb_le; lia).
      fields. rewrite Hen. reflexivity.
    + intros Hin Hleft Hdue.
      exact (processTelegramAutoResponse_counts e d b Hb Hen Hact Hin Hleft Hdue).
  - exact (pollCall_counts PersonalPoll e d b Hb).
  - exact (pollCall_counts GroupPoll e d b Hb).
  - intros Hs Hq.
    destruct (personal_pass_quiet e d b Hs Hb Hq) as (d' & Hrun & Q).
    exists d'. split; [exact Hrun|]. destruct Q as (-> & _). exact Hs.
  - intros Hs Hq.
    destruct (group_pass_quiet e d b Hs Hb Hq) as (d' & Hrun & Q).
    exists d'. split; [exact Hrun|]. destruct Q as (-> & _). exact Hs.
Qed.

Lemma attempt_budget_only_in_auto_response_witness :
  ((BLESession.autoResponseTimeout (bleSession (set_clock 700000 configuredA))
    < clock (set_clock 700000 configuredA)) /\
   processTelegramAutoResponse (world []) (set_clock 700000 configuredA)
   = Done false (stoppedWith "auto_response_timeout" (set_clock 700000 configuredA))) /\
  ((MAX_AUTO_RESPONSE_ATTEMPTS
    <= BLESession.pollAttempts
         (bleSession (bleAttemptsAt 300 (set_clock 12000 configuredA)))) /\
   processTelegramAutoResponse (world [])
     (bleAttemptsAt 300 (set_clock 12000 configuredA))
   = Done false (stoppedWith "auto_response_max_attempts"
                   (bleAttemptsAt 300 (set_clock 12000 configuredA)))) /\
  (exists r d',
     processTelegramAutoResponse (world [])
       (bleAttemptsAt 299 (set_clock 12000 configuredA)) = Done r d' /\
     BLESession.pollAttempts (bleSession d')
     = int_incr (BLESession.pollAttempts
                   (bleSession (bleAttemptsAt 299 (set_clock 12000 configuredA))))) /\
  (AutoTelegramSession.pollAttempts
     (autoSession (attemptsAt 1000000 (set_clock 14000 personalPhaseA))) = 1000000 /\
   (exists r d',
      pollForPersonalConfig (world [])
        (attemptsAt 1000000 (set_clock 14000 personalPhaseA)) = Done r d' /\
      AutoTelegramSession.pollAttempts (autoSession d')
      = int_incr (AutoTelegramSession.pollAttempts
                    (autoSession (attemptsAt 1000000
                                    (set_clock 14000 personalPhaseA))))) /\
   exists d',
     loop (world []) (attemptsAt 1000000 (set_clock 14000 personalPhaseA))
     = Done tt d' /\
     currentState d' = AUTO_PERSONAL_CONFIG) /\
  (exists d',
     loop (world []) (attemptsAt 1000000 (set_clock 30000 groupPhaseB))
     = Done tt d' /\
     currentState d' = AUTO_GROUP_WAIT).
Proof.
  split; [|split; [|split; [|split]]].
  - split; [vm_compute; reflexivity|].
    apply (proj1 (proj1 (attempt_budget_only_in_auto_response
                           (world []) (set_clock 700000 configuredA)
                           {| last_message_received := 0; messages := [] |}
                           eq_refl) eq_refl eq_refl)).
    vm_compute; reflexivity.
  - split; [vm_compute; discriminate|].
    apply (proj1 (proj2 (proj1 (attempt_budget_only_in_auto_response
                           (world []) (bleAttemptsAt 300 (set_clock 12000 configuredA))
                           {| last_message_received := 0; messages := [] |}
                           eq_refl) eq_refl eq_refl)));
      vm_compute; discriminate.
  - apply (proj2 (proj2 (proj1 (attempt_budget_only_in_auto_response
                           (world []) (bleAttemptsAt 299 (set_clock 12000 configuredA))
                           {| last_message_received := 0; messages := [] |}
                           eq_refl) eq_refl eq_refl)));
      [vm_compute; discriminate | vm_compute; reflexivity | vm_compute; discriminate].
  - split; [vm_compute; reflexivity|]. split.
    + apply (proj1 (proj2 (attempt_budget_only_in_auto_response
                             (world [])
                             (attemptsAt 1000000 (set_clock 14000 personalPhaseA))
                             {| last_message_received := 1; messages := [claimA] |}
                             eq_refl))).
    + apply (proj1 (proj2 (proj2 (proj2 (attempt_budget_only_in_auto_response
                             (world [])
                             (attemptsAt 1000000 (set_clock 14000 personalPhaseA))
                             {| last_message_received := 1; messages := [claimA] |}
                             eq_refl)))));
        vm_compute; reflexivity.
  - apply (proj2 (proj2 (proj2 (proj2 (attempt_budget_only_in_auto_response
                             (world [])
                             (attemptsAt 1000000 (set_clock 30000 groupPhaseB))
                             {| last_message_received := 2;
                                messages := [message 2 "-100" "/start again" "alice"] |}
                             eq_refl)))));
      vm_compute; reflexivity.
Defined.

(** C5, against the claim as stated: no attempt budget ends the personal
    phase the way its deadline does. *)
Lemma personal_phase_has_no_attempt_budget :
  ~ exists budget : Z,
      forall (e : Env) (d : Device) (b : UniversalTelegramBot),
        bot d = Some b ->
        currentState d = AUTO_PERSONAL_CONFIG ->
        budget <= AutoTelegramSession.pollAttempts (autoSession d) ->
        exists d', loop e d = Done tt d' /\ currentState d' = ERROR.
Proof.
  intros [budget H].
  set (d := attemptsAt (Z.max budget 1000000) (set_clock 14000 personalPhaseA)).
  destruct (H (world []) d {| last_message_received := 1; messages := [claimA] |})
    as (d' & Hrun & Herr); [reflexivity | reflexivity | cbn; lia |].
  destruct (personal_pass_quiet (world []) d
              {| last_message_received := 1; messages := [claimA] |})
    as (d'' & Hrun' & Q); [reflexivity | reflexivity | reflexivity |].
  assert (Hd : currentState d = AUTO_PERSONAL_CONFIG) by reflexivity.
  rewrite Hrun in Hrun'. injection Hrun' as <-.
  destruct Q as (Hs & _). rewrite Hd, Herr in Hs. discriminate Hs.
Qed.

(** *** C8: the message cursor *)

Lemma generateDeviceId_nonempty (e : Env) (d : Device) :
  exists id, generateDeviceId e d = Done id d /\ (length id =? 0) = false.
Proof.
  unfold generateDeviceId. run. eexists. split; [reflexivity|].
  unfold length.
  match goal with |- context [String.length ?s] =>
    assert (H : exists c r, s = String c r) end.
  { cbn [append toUpperCase map]. do 2 eexists. reflexivity. }
  destruct H as (c & r & ->). reflexivity.
Qed.

(** A payload leaves the BLE session it arrives in running; when it gets as
    far as the Telegram client the cursor restarts from 0. *)
Lemma processBLEConfiguration_cursor (p : ConfigPayload) (e : Env) (d : Device) :
  exists d',
    processBLEConfiguration p e d = Done tt d' /\
    BLESession.startTime (bleSession d') = BLESession.startTime (bleSession d) /\
    (if startsAttempt p e
     then cursor d' = last (List.map update_id (firstBatch e)) 0
     else bot d' = bot d).
Proof.
  unfold startsAttempt, requiredFieldsPresent, firstBatch.
  unfold processBLEConfiguration. run.
  destruct ((length (ssid p) =? 0) || (length (password p) =? 0)
            || (length (telegramUser p) =? 0)); cbn [negb andb];
    [eexists; split; [reflexivity|]; split; reflexivity|].
  destruct (validateTelegramUsername (telegramUser p)); cbn [negb andb];
    [|eexists; split; [reflexivity|]; split; reflexivity].
  unfold testWiFiCredentials, setupTelegram. run.
  destruct (wifiAssociates e);
    [|eexists; split; [reflexivity|]; split; reflexivity].
  fields.
  match goal with |- context [generateDeviceId e ?x] =>
    destruct (generateDeviceId_nonempty e x) as (id & -> & Hid) end.
  unfold notifyDeviceIdGenerated, startTelegramAutoResponse, getUpdates. run.
  fields.
  destruct (deviceConnected d), (fetch e) eqn:F; run;
    repeat (progress (fields;
                      cbn [orb negb andb option_map when last_message_received
                           messages];
                      rewrite ?Hid, ?F));
    eexists; (split; [reflexivity|]); split; reflexivity.
Qed.

Lemma sameBot_loop : ToleratesLoop sameBot.
Proof. repeat split. Qed.

(** A poller leaves the cursor on the last message it was handed. *)
Lemma poll_cursor p e d b :
  bot d = Some b ->
  exists r d',
    poll p e d = Done r d' /\
    cursor d' = last (List.map update_id (handedOut p e d)) (cursor d) /\
    hasBot d'.
Proof.
  intros Hb. destruct p as [|k]; cbn [poll handedOut].
  - unfold autoResponseFetches, processTelegramAutoResponse, stopTelegramAutoResponse.
    unfold bind at 1 2, get at 1, millis at 1.
    assert (Hh : hasBot d) by (unfold hasBot; congruence).
    destruct (BLESession.autoResponseEnabled (bleSession d)) eqn:Hen;
      cbn [negb orb andb]; [|exists false, d; repeat split; assumption].
    destruct (BLESession.isPollingActive (bleSession d)) eqn:Hact;
      cbn [negb orb andb]; [|exists false, d; repeat split; assumption].
    destruct (clock d >? BLESession.autoResponseTimeout (bleSession d));
      cbn [negb andb].
    { run. rewrite Hen. cbn [negb]. eexists _, _. split; [reflexivity|].
      split; [reflexivity | exact Hh]. }
    destruct (BLESession.pollAttempts (bleSession d) >=? MAX_AUTO_RESPONSE_ATTEMPTS);
      cbn [negb andb].
    { run. rewrite Hen. cbn [negb]. eexists _, _. split; [reflexivity|].
      split; [reflexivity | exact Hh]. }
    destruct (usub (clock d) (BLESession.lastPollTime (bleSession d))
              <? AUTO_RESPONSE_POLL_INTERVAL); cbn [negb];
      [exists false, d; repeat split; assumption|].
    unfold bind at 1. unfold modifyBLE, modify.
    set (d0 := set_bleSession _ d).
    assert (Hb0 : bot d0 = Some b) by exact Hb.
    destruct (getNewUpdates_run e d0 b Hb0) as (n & Hn & Hfull).
    destruct (bot_afterFetch e d0 b Hb0) as (b' & Hb').
    assert (Hcur : cursor (afterFetch e d0)
                   = last (List.map update_id (observedBy e d)) (cursor d))
      by (rewrite (cursor_afterFetch e d0 b Hb0); reflexivity).
    assert (Hh' : hasBot (afterFetch e d0)) by (unfold hasBot; congruence).
    unfold bind at 1. rewrite Hn.
    destruct (n <? 0); [exists false, (afterFetch e d0); auto|].
    destruct (n =? 0); [exists false, (afterFetch e d0); auto|].
    unfold bind at 1, receivedMessages, bind, get. rewrite Hb'. unfold ret at 1.
    destruct (autoResponseLoop_frame sameBot sameBot_handlers
                (firstn (Z.to_nat n) (messages b')) e (afterFetch e d0) Hh')
      as (r & d' & -> & Hk & Hh'').
    exists r, d'. split; [reflexivity|]. split; [|exact Hh''].
    cbn in Hk. unfold cursor at 1. rewrite Hk. exact Hcur.
  - destruct (pollCall_run k e d b Hb) as (r & d' & Hrun & Hbot).
    destruct (bot_afterFetch e d b Hb) as (b' & Hb').
    exists r, d'. split; [exact Hrun|]. split.
    + rewrite <- (cursor_afterFetch e d b Hb). unfold cursor. now rewrite Hbot.
    + unfold hasBot. congruence.
Qed.

Lemma handedOut_observed p e d :
  handedOut p e d = observedBy e d \/ handedOut p e d = [].
Proof.
  destruct p; cbn [handedOut]; [destruct (autoResponseFetches d)|]; auto.
Qed.

Lemma handedOut_newer p e d :
  Forall (fun m => cursor d < update_id m) (handedOut p e d).
Proof.
  destruct (handedOut_observed p e d) as [-> | ->]; [|constructor].
  eapply Forall_impl; [|apply observedBy_newer]. cbn; intros; lia.
Qed.

Lemma handedOut_sorted p e d :
  servedInOrder e = true ->
  StronglySorted Z.lt (List.map update_id (handedOut p e d)).
Proof.
  intros H. destruct (handedOut_observed p e d) as [-> | ->]; [|constructor].
  now apply observedBy_sorted.
Qed.

(** Across a run of polls the cursor ends on the last message handed out,
    every message handed out lies between the cursor the run started from
    and the cursor it ends on, and served in order the ids handed out
    increase strictly: none is handed out twice. *)
Lemma polls_run (calls : list (Poller * Z * Env)) :
  forall (d : Device) (b : UniversalTelegramBot),
    bot d = Some b ->
    exists seen d',
      polls calls d = Done seen d' /\
      cursor d' = last (List.map update_id seen) (cursor d) /\
      cursor d <= cursor d' /\
      Forall (fun m => cursor d < update_id m) seen /\
      hasBot d' /\
      (forallb callInOrder calls = true ->
       StronglySorted Z.lt (List.map update_id seen) /\
       Forall (fun m => update_id m <= cursor d') seen).
Proof.
  induction calls as [|[[p now] e] rest IH]; intros d b Hb.
  - exists [], d. cbn. repeat split; try constructor; try lia. congruence.
  - cbn [polls].
    set (dn := set_clock now d).
    assert (Hbn : bot dn = Some b) by exact Hb.
    assert (Hcn : cursor dn = cursor d) by reflexivity.
    destruct (poll_cursor p e dn b Hbn) as (r & d1 & -> & Hc1 & Hh1).
    destruct (bot d1) as [b1|] eqn:Hb1; [|now elim Hh1].
    pose proof (handedOut_newer p e dn) as Hnew.
    assert (Hmono : cursor d <= cursor d1).
    { rewrite Hc1, Hcn. apply (last_Forall (fun z => cursor d <= z)); [|lia].
      apply Forall_map. eapply Forall_impl; [|exact Hnew]. cbn; intros; lia. }
    destruct (IH d1 b1 Hb1) as (seen & d2 & -> & Hc2 & Hm2 & Hs2 & Hh2 & Hord2).
    exists (handedOut p e dn ++ seen)%list, d2. split; [reflexivity|].
    split; [|split; [|split; [|split]]].
    + now rewrite map_app, last_app_default, <- Hcn, <- Hc1.
    + lia.
    + apply Forall_app. split.
      * eapply Forall_impl; [|exact Hnew]. cbn; intros; lia.
      * eapply Forall_impl; [|exact Hs2]. cbn; intros; lia.
    + exact Hh2.
    + intros Hord. cbn [forallb] in Hord. apply andb_true_iff in Hord.
      destruct Hord as [He Hrest]. unfold callInOrder in He. cbn [snd] in He.
      destruct (Hord2 Hrest) as [Hsorted2 Hup2].
      pose proof (handedOut_sorted p e dn He) as Hsorted.
      pose proof (sorted_last_bounds _ (cursor dn) Hsorted) as Hup.
      rewrite <- Hc1 in Hup.
      split.
      * rewrite map_app. apply (sorted_app _ _ (cursor d1)); try assumption.
        apply Forall_map. eapply Forall_impl; [|exact Hs2]. cbn; intros; lia.
      * apply Forall_app. split; [|exact Hup2].
        rewrite Forall_map in Hup. eapply Forall_impl; [|exact Hup].
        cbn; intros; lia.
Qed.

(** No console command touches the Telegram client. *)
Lemma handleSerialCommands_frame line : Runs sameBot (handleSerialCommands line).
Proof.
  pose proof sameBot_loop as HL.
  unfold handleSerialCommands, loadDefaultConfig. destruct line; frame.
Qed.



